(** * nplpi: the MSF time decoder, the log-file bit reader and the main loop

    A shallow embedding of [decode_time.c], of the bit framing code of
    [input.c] and of [mainloop.c], with the properties of the decoder
    specification proved (or refuted) against it.

    C integers are modelled as [Z]; where the source computes in a 32-bit
    unsigned type the wrap-around is written out with [wrap32].  The bit
    buffer [int buffer[BUFLEN]] is a [list Z] read with [rd] and updated
    with stdpp's list insert. *)

From Stdlib Require Import ZArith Lia Bool List.
From stdpp Require Import base list.
Import ListNotations.

Local Open Scope Z_scope.

(** ** Machine integers and arrays *)

(** Value of an [unsigned] (32 bit) expression. *)
Definition wrap32 (x : Z) : Z := x mod 2 ^ 32.

(** [buffer[i]]: reading the array.  An index outside the array is undefined
    behaviour in C; the model reads 0 there. *)
Definition rd (buffer : list Z) (i : Z) : Z :=
  if i <? 0 then 0 else default 0 (buffer !! Z.to_nat i).

(** [buffer[i] = v]: writing the array.  (stdpp's insert leaves the list
    unchanged out of range; the source never writes out of range, see the
    invariant on [bitpos].) *)
Definition wr (buffer : list Z) (i v : Z) : list Z :=
  if i <? 0 then buffer else <[Z.to_nat i := v]> buffer.

(** C truth value of an [int] used as a condition. *)
Definition b2z (b : bool) : Z := if b then 1 else 0.

(** ** [struct tm], the fields the decoder uses *)

Record tm := mk_tm {
  tm_sec : Z;
  tm_min : Z;
  tm_hour : Z;
  tm_mday : Z;
  tm_mon : Z;
  tm_year : Z;
  tm_wday : Z;
  tm_yday : Z;
  tm_isdst : Z
}.

(** [memset(&newtime, 0, sizeof(newtime))] *)
Definition tm_zero : tm := mk_tm 0 0 0 0 0 0 0 0 0.

Definition set_tm_min (t : tm) (v : Z) : tm :=
  mk_tm (tm_sec t) v (tm_hour t) (tm_mday t) (tm_mon t) (tm_year t)
        (tm_wday t) (tm_yday t) (tm_isdst t).
Definition set_tm_hour (t : tm) (v : Z) : tm :=
  mk_tm (tm_sec t) (tm_min t) v (tm_mday t) (tm_mon t) (tm_year t)
        (tm_wday t) (tm_yday t) (tm_isdst t).
Definition set_tm_mday (t : tm) (v : Z) : tm :=
  mk_tm (tm_sec t) (tm_min t) (tm_hour t) v (tm_mon t) (tm_year t)
        (tm_wday t) (tm_yday t) (tm_isdst t).
Definition set_tm_mon (t : tm) (v : Z) : tm :=
  mk_tm (tm_sec t) (tm_min t) (tm_hour t) (tm_mday t) v (tm_year t)
        (tm_wday t) (tm_yday t) (tm_isdst t).
Definition set_tm_year (t : tm) (v : Z) : tm :=
  mk_tm (tm_sec t) (tm_min t) (tm_hour t) (tm_mday t) (tm_mon t) v
        (tm_wday t) (tm_yday t) (tm_isdst t).
Definition set_tm_wday (t : tm) (v : Z) : tm :=
  mk_tm (tm_sec t) (tm_min t) (tm_hour t) (tm_mday t) (tm_mon t) (tm_year t)
        v (tm_yday t) (tm_isdst t).
Definition set_tm_isdst (t : tm) (v : Z) : tm :=
  mk_tm (tm_sec t) (tm_min t) (tm_hour t) (tm_mday t) (tm_mon t) (tm_year t)
        (tm_wday t) (tm_yday t) v.

(** ** [calendar.h]

    [decode_time.c] calls [add_minute], [substract_minute],
    [century_offset] and [lastday] and reads [base_year]; their definitions
    ([calendar.c]) are not part of the sources at hand, so the decoder is
    modelled over any implementation of this interface. *)

Record Calendar := mk_Calendar {
  base_year : Z;
  add_minute : tm -> bool -> tm;
  substract_minute : tm -> bool -> tm;
  century_offset : tm -> Z;
  lastday : tm -> Z
}.

(** ** [decode_time.h] *)

Inductive eDT_length := emin_ok | emin_short | emin_long.
Inductive eDT_tval := eval_ok | eval_bcd | eval_parity | eval_jump.
Inductive eDT_DST := eDST_ok | eDST_jump | eDST_done.
Inductive eDT_leapsecond := els_none | els_one | els_done.

Record DT_result := mk_DT_result {
  bit0_ok : bool;
  bit52_ok : bool;
  bit59_ok : bool;
  minute_length : eDT_length;
  minute_status : eDT_tval;
  hour_status : eDT_tval;
  mday_status : eDT_tval;
  wday_status : eDT_tval;
  month_status : eDT_tval;
  year_status : eDT_tval;
  dst_status : eDT_DST;
  leapsecond_status : eDT_leapsecond;
  dst_announce : bool
}.

Definition eDT_length_eqb (a b : eDT_length) : bool :=
  match a, b with
  | emin_ok, emin_ok | emin_short, emin_short | emin_long, emin_long => true
  | _, _ => false
  end.

Definition eDT_DST_eqb (a b : eDT_DST) : bool :=
  match a, b with
  | eDST_ok, eDST_ok | eDST_jump, eDST_jump | eDST_done, eDST_done => true
  | _, _ => false
  end.

Definition eDT_leapsecond_eqb (a b : eDT_leapsecond) : bool :=
  match a, b with
  | els_none, els_none | els_one, els_one | els_done, els_done => true
  | _, _ => false
  end.

Definition set_minute_length (r : DT_result) (v : eDT_length) : DT_result :=
  mk_DT_result (bit0_ok r) (bit52_ok r) (bit59_ok r) v (minute_status r)
    (hour_status r) (mday_status r) (wday_status r) (month_status r)
    (year_status r) (dst_status r) (leapsecond_status r) (dst_announce r).
Definition set_minute_status (r : DT_result) (v : eDT_tval) : DT_result :=
  mk_DT_result (bit0_ok r) (bit52_ok r) (bit59_ok r) (minute_length r) v
    (hour_status r) (mday_status r) (wday_status r) (month_status r)
    (year_status r) (dst_status r) (leapsecond_status r) (dst_announce r).
Definition set_hour_status (r : DT_result) (v : eDT_tval) : DT_result :=
  mk_DT_result (bit0_ok r) (bit52_ok r) (bit59_ok r) (minute_length r)
    (minute_status r) v (mday_status r) (wday_status r) (month_status r)
    (year_status r) (dst_status r) (leapsecond_status r) (dst_announce r).
Definition set_mday_status (r : DT_result) (v : eDT_tval) : DT_result :=
  mk_DT_result (bit0_ok r) (bit52_ok r) (bit59_ok r) (minute_length r)
    (minute_status r) (hour_status r) v (wday_status r) (month_status r)
    (year_status r) (dst_status r) (leapsecond_status r) (dst_announce r).
Definition set_wday_status (r : DT_result) (v : eDT_tval) : DT_result :=
  mk_DT_result (bit0_ok r) (bit52_ok r) (bit59_ok r) (minute_length r)
    (minute_status r) (hour_status r) (mday_status r) v (month_status r)
    (year_status r) (dst_status r) (leapsecond_status r) (dst_announce r).
Definition set_month_status (r : DT_result) (v : eDT_tval) : DT_result :=
  mk_DT_result (bit0_ok r) (bit52_ok r) (bit59_ok r) (minute_length r)
    (minute_status r) (hour_status r) (mday_status r) (wday_status r) v
    (year_status r) (dst_status r) (leapsecond_status r) (dst_announce r).
Definition set_year_status (r : DT_result) (v : eDT_tval) : DT_result :=
  mk_DT_result (bit0_ok r) (bit52_ok r) (bit59_ok r) (minute_length r)
    (minute_status r) (hour_status r) (mday_status r) (wday_status r)
    (month_status r) v (dst_status r) (leapsecond_status r) (dst_announce r).
Definition set_dst_status (r : DT_result) (v : eDT_DST) : DT_result :=
  mk_DT_result (bit0_ok r) (bit52_ok r) (bit59_ok r) (minute_length r)
    (minute_status r) (hour_status r) (mday_status r) (wday_status r)
    (month_status r) (year_status r) v (leapsecond_status r) (dst_announce r).
Definition set_leapsecond_status (r : DT_result) (v : eDT_leapsecond)
  : DT_result :=
  mk_DT_result (bit0_ok r) (bit52_ok r) (bit59_ok r) (minute_length r)
    (minute_status r) (hour_status r) (mday_status r) (wday_status r)
    (month_status r) (year_status r) (dst_status r) v (dst_announce r).
Definition set_dst_announce (r : DT_result) (v : bool) : DT_result :=
  mk_DT_result (bit0_ok r) (bit52_ok r) (bit59_ok r) (minute_length r)
    (minute_status r) (hour_status r) (mday_status r) (wday_status r)
    (month_status r) (year_status r) (dst_status r) (leapsecond_status r) v.
Definition set_bit0_bit59 (r : DT_result) (b0 b59 : bool) : DT_result :=
  mk_DT_result b0 (bit52_ok r) b59 (minute_length r)
    (minute_status r) (hour_status r) (mday_status r) (wday_status r)
    (month_status r) (year_status r) (dst_status r) (leapsecond_status r)
    (dst_announce r).

(** The zero-initialised [static struct DT_result dt_res]. *)
Definition dt_res_zero : DT_result :=
  mk_DT_result false false false emin_ok eval_ok eval_ok eval_ok eval_ok
    eval_ok eval_ok eDST_ok els_none false.

(** ** [decode_time.c] *)

Module DecodeTime.

(** The loop of [getpar]: [for (i = start; i <= stop; i++) par += buffer[i] & 1],
    [n] iterations left. *)
Fixpoint getpar_loop (buffer : list Z) (n : nat) (i par : Z) : Z :=
  match n with
  | O => par
  | S n' => getpar_loop buffer n' (i + 1) (par + Z.land (rd buffer i) 1)
  end.

Definition getpar (buffer : list Z) (start stop parity : Z) : bool :=
  let par := getpar_loop buffer (Z.to_nat (stop + 1 - start)) start 0 in
  let par := par + Z.shiftr (rd buffer parity) 1 in
  Z.land par 1 =? 1.

(** The loop of [getbcd]: [for (i = stop; i >= start; i--)], [n] iterations
    left; the early [return 100] ends it.  ([i] is unsigned in the source, so
    with [start = 0] the test [i >= start] never fails there; every call in
    this file has [start >= 17].) *)
Fixpoint getbcd_loop (buffer : list Z) (n : nat) (i mul val : Z) : Z :=
  match n with
  | O => val
  | S n' =>
      let val := val + mul * Z.land (rd buffer i) 1 in
      let mul := mul * 2 in
      if mul =? 16 then
        if val >? 9 then 100
        else getbcd_loop buffer n' (i - 1) 10 val
      else getbcd_loop buffer n' (i - 1) mul val
  end.

Definition getbcd (buffer : list Z) (start stop : Z) : Z :=
  getbcd_loop buffer (Z.to_nat (stop + 1 - start)) stop 1 0.

(** The file-scope and function-scope [static] variables of
    [decode_time.c]: [dst_count], [minute_count], [dt_res], the
    [acc_minlen_partial] of [increase_old_time] and the [olderr] of
    [decode_time]. *)
Record decoder_state := mk_decoder_state {
  dst_count : Z;
  minute_count : Z;
  dt_res : DT_result;
  acc_minlen_partial : Z;
  olderr : bool
}.

(** All of them start at zero. *)
Definition decoder_init : decoder_state :=
  mk_decoder_state 0 0 dt_res_zero 0 false.

(** [check_time_sanity]: returns the updated [dt_res] and the result. *)
Definition check_time_sanity (r : DT_result) (minlen : Z) (buffer : list Z)
  : DT_result * bool :=
  let r :=
    if (minlen =? -1) || (minlen >? 61) then set_minute_length r emin_long
    else if minlen <? 59 then set_minute_length r emin_short
    else set_minute_length r emin_ok in
  let r := set_dst_status r eDST_ok in
  let r := set_bit0_bit59 r (rd buffer 0 =? 4) (rd buffer 59 =? 0) in
  (r, eDT_length_eqb (minute_length r) emin_ok && bit0_ok r && bit59_ok r).

(** [handle_special_bits] has an empty body. *)
Definition handle_special_bits (buffer : list Z) : unit := tt.

Section WithCalendar.

Context (cal : Calendar).

(** [increase_old_time]: [acc_minlen] and [acc_minlen_partial] are
    [unsigned].  Returns the new [acc_minlen_partial], [increase] and the
    advanced [*time]. *)
Definition increase_old_time (partial : Z) (announce : bool)
    (init_min minlen acc_minlen : Z) (time : tm) : Z * Z * tm :=
  let '(acc_minlen, partial) :=
    if acc_minlen <=? 59000 then
      let partial := wrap32 (partial + acc_minlen) in
      if partial >=? 60000 then (partial, partial mod 60000)
      else (acc_minlen, partial)
    else (acc_minlen, partial) in
  let increase := acc_minlen / 60000 in
  let partial :=
    if acc_minlen >=? 60000 then partial mod 60000 else partial in
  let '(increase, partial) :=
    if acc_minlen mod 60000 >? 59000 then (increase + 1, partial mod 60000)
    else (increase, partial) in
  let time :=
    if init_min <? 2 then
      let time :=
        Nat.iter (Z.to_nat increase)
                 (fun t => add_minute cal t announce) time in
      Nat.iter (Z.to_nat (- increase))
               (fun t => substract_minute cal t announce) time
    else time in
  (partial, increase, time).

(** The guard [(init_min == 2 || increase != 0) && p && errflags == 0] of
    the four assignment blocks of [calculate_date_time]. *)
Definition may_assign (init_min errflags increase : Z) (p : bool) : bool :=
  ((init_min =? 2) || negb (increase =? 0)) && p && (errflags =? 0).

(** [calculate_date_time] works through four blocks, one per parity bit,
    and the century check between the third and the fourth.  Each block is
    a definition of its own here; it returns the updated [dt_res] and
    [*newtime] and the parity flags it sets. *)

(** The year block: [p1 = getpar(buffer, 17, 24, 54)] up to the assignment
    of [newtime->tm_year]. *)
Definition date_year (r : DT_result) (init_min errflags increase : Z)
    (buffer : list Z) (newtime : tm) : DT_result * tm * bool :=
  let p1 := getpar buffer 17 24 54 in
  let tmp0 := getbcd buffer 17 24 in
  let '(r, p1) :=
    if negb p1 then (set_year_status r eval_parity, p1)
    else if tmp0 >? 99 then (set_year_status r eval_bcd, false)
    else (set_year_status r eval_ok, p1) in
  let newtime :=
    if may_assign init_min errflags increase p1
    then set_tm_year newtime tmp0 else newtime in
  (r, newtime, p1).

(** The month and day-of-month block: [p2 = getpar(buffer, 25, 35, 55)] up
    to the jump checks. *)
Definition date_month_mday (r : DT_result) (init_min errflags increase : Z)
    (buffer : list Z) (time newtime : tm) : DT_result * tm * bool :=
  let p2 := getpar buffer 25 35 55 in
  let tmp0 := getbcd buffer 25 29 in
  let tmp1 := getbcd buffer 30 35 in
  let '(r, p2) :=
    if negb p2 then
      (set_mday_status (set_month_status r eval_parity) eval_parity, p2)
    else
      let '(r, p2) :=
        if (tmp0 =? 0) || (tmp0 >? 12)
        then (set_month_status r eval_bcd, false)
        else (set_month_status r eval_ok, p2) in
      if (tmp1 =? 0) || (tmp1 >? 31)
      then (set_mday_status r eval_bcd, false)
      else (set_mday_status r eval_ok, p2) in
  if may_assign init_min errflags increase p2 then
    let newtime := set_tm_mon newtime tmp0 in
    let r :=
      if (init_min =? 0) && negb (tm_mon time =? tm_mon newtime)
      then set_month_status r eval_jump else r in
    let newtime := set_tm_mday newtime tmp1 in
    let r :=
      if (init_min =? 0) && negb (tm_mday time =? tm_mday newtime)
      then set_mday_status r eval_jump else r in
    (r, newtime, p2)
  else (r, newtime, p2).

(** The weekday block: [p3 = getpar(buffer, 36, 38, 56)] up to the jump
    check. *)
Definition date_wday (r : DT_result) (init_min errflags increase : Z)
    (buffer : list Z) (time newtime : tm) : DT_result * tm * bool :=
  let p3 := getpar buffer 36 38 56 in
  let tmp0 := getbcd buffer 36 38 in
  let '(r, p3) :=
    if negb p3 then (set_wday_status r eval_parity, p3)
    else if tmp0 =? 7 then (set_wday_status r eval_bcd, false)
    else (set_wday_status r eval_ok, p3) in
  if may_assign init_min errflags increase p3 then
    let newtime := set_tm_wday newtime tmp0 in
    let r :=
      if (init_min =? 0) && negb (tm_wday time =? tm_wday newtime)
      then set_wday_status r eval_jump else r in
    (r, newtime, p3)
  else (r, newtime, p3).

(** The century block: the call of [century_offset] on [*newtime] and what
    follows from it. *)
Definition date_century (r : DT_result) (init_min : Z) (time newtime : tm)
    (p1 p2 p3 : bool) : DT_result * tm * bool * bool * bool :=
  let centofs := century_offset cal newtime in
  if centofs =? -1 then (set_year_status r eval_bcd, newtime, false, p2, p3)
  else
    let r :=
      if (init_min =? 0) &&
         negb (tm_year time =?
               base_year cal + 100 * centofs + tm_year newtime)
      then set_year_status r eval_jump else r in
    let newtime :=
      set_tm_year newtime
        (tm_year newtime + (base_year cal + 100 * centofs)) in
    if tm_mday newtime >? lastday cal newtime
    then (set_mday_status r eval_bcd, newtime, false, false, false)
    else (r, newtime, p1, p2, p3).

(** The hour and minute block: [p4 = getpar(buffer, 39, 51, 57)] up to the
    jump checks. *)
Definition date_hour_minute (r : DT_result) (init_min errflags increase : Z)
    (buffer : list Z) (time newtime : tm) : DT_result * tm * bool :=
  let p4 := getpar buffer 39 51 57 in
  let tmp0 := getbcd buffer 39 44 in
  let tmp1 := getbcd buffer 45 51 in
  let '(r, p4) :=
    if negb p4 then
      (set_minute_status (set_hour_status r eval_parity) eval_parity, p4)
    else
      let '(r, p4) :=
        if tmp0 >? 23 then (set_hour_status r eval_bcd, false)
        else (set_hour_status r eval_ok, p4) in
      if tmp1 >? 59 then (set_minute_status r eval_bcd, false)
      else (set_minute_status r eval_ok, p4) in
  if may_assign init_min errflags increase p4 then
    let newtime := set_tm_hour newtime tmp0 in
    let r :=
      if (init_min =? 0) && negb (tm_hour time =? tm_hour newtime)
      then set_hour_status r eval_jump else r in
    let newtime := set_tm_min newtime tmp1 in
    let r :=
      if (init_min =? 0) && negb (tm_min time =? tm_min newtime)
      then set_minute_status r eval_jump else r in
    (r, newtime, p4)
  else (r, newtime, p4).

(** The value [calculate_date_time] returns:
    [(errflags << 4) | ((!p4) << 3) | ((!p3) << 2) | ((!p2) << 1) | (!p1)]. *)
Definition date_errflags (errflags : Z) (p1 p2 p3 p4 : bool) : Z :=
  Z.lor (Z.lor (Z.lor (Z.lor (Z.shiftl errflags 4)
                             (Z.shiftl (b2z (negb p4)) 3))
                      (Z.shiftl (b2z (negb p3)) 2))
               (Z.shiftl (b2z (negb p2)) 1))
        (b2z (negb p1)).

(** [calculate_date_time]: returns the updated [dt_res], [*newtime] and the
    new error flags. *)
Definition calculate_date_time (r : DT_result)
    (init_min errflags increase : Z) (buffer : list Z) (time newtime : tm)
  : DT_result * tm * Z :=
  let '(r, newtime, p1) :=
    date_year r init_min errflags increase buffer newtime in
  let '(r, newtime, p2) :=
    date_month_mday r init_min errflags increase buffer time newtime in
  let '(r, newtime, p3) :=
    date_wday r init_min errflags increase buffer time newtime in
  let '(r, newtime, p1, p2, p3) :=
    date_century r init_min time newtime p1 p2 p3 in
  let '(r, newtime, p4) :=
    date_hour_minute r init_min errflags increase buffer time newtime in
  (r, newtime, date_errflags errflags p1 p2 p3 p4).

(** The condition under which [stamp_date_time] replaces the current time. *)
Definition stamp_condition (r : DT_result) (errflags : Z) : bool :=
  eDT_length_eqb (minute_length r) emin_ok && (Z.land errflags 31 =? 0).

(** [stamp_date_time]: returns the new [*time]. *)
Definition stamp_date_time (r : DT_result) (errflags : Z) (newtime time : tm)
  : tm :=
  if stamp_condition r errflags then
    let time := set_tm_min time (tm_min newtime) in
    let time := set_tm_hour time (tm_hour newtime) in
    let time := set_tm_mday time (tm_mday newtime) in
    let time := set_tm_mon time (tm_mon newtime) in
    let time := set_tm_year time (tm_year newtime) in
    let time := set_tm_wday time (tm_wday newtime) in
    if negb (eDT_DST_eqb (dst_status r) eDST_jump)
    then set_tm_isdst time (tm_isdst newtime)
    else time
  else time.

(** [handle_leap_second]: returns the updated [dt_res] and error flags.
    [decode_time] calls it only inside an [#if 0] block. *)
Definition handle_leap_second (r : DT_result) (errflags minlen : Z)
    (buffer : list Z) (time : tm) : DT_result * Z :=
  let '(r, errflags) :=
    if tm_min time =? 0 then
      let r := set_leapsecond_status r els_done in
      if minlen =? 60 then
        (set_minute_length r emin_short, Z.lor errflags (Z.shiftl 1 5))
      else if (minlen =? 61) && (rd buffer 17 =? 1) then
        (set_leapsecond_status r els_one, errflags)
      else (r, errflags)
    else (set_leapsecond_status r els_none, errflags) in
  if (minlen =? 61) && eDT_leapsecond_eqb (leapsecond_status r) els_none then
    (set_minute_length r emin_long, Z.lor errflags (Z.shiftl 1 5))
  else (r, errflags).

(** [handle_dst]: returns the updated [dst_count], [dt_res], [*newtime] and
    error flags.  [decode_time] calls it only inside an [#if 0] block. *)
Definition handle_dst (dstcount mincount : Z) (r : DT_result)
    (errflags : Z) (old_err : bool) (buffer : list Z) (time newtime : tm)
  : Z * DT_result * tm * Z :=
  let dstcount :=
    if (rd buffer 16 =? 1) && (errflags =? 0) then dstcount + 1
    else dstcount in
  let r :=
    if tm_min time >? 0 then set_dst_announce r (2 * dstcount >? mincount)
    else r in
  let '(r, newtime, errflags) :=
    if negb (rd buffer 17 =? tm_isdst time) ||
       (rd buffer 18 =? tm_isdst time) then
      if (dst_announce r && (tm_min time =? 0)) ||
         (old_err && (errflags =? 0)) ||
         (tm_isdst time =? -1)
      then (r, set_tm_isdst newtime (rd buffer 17), errflags)
      else (set_dst_status r eDST_jump, newtime,
            Z.lor errflags (Z.shiftl 1 6))
    else (r, newtime, errflags) in
  let r :=
    if dst_announce r && (tm_min time =? 0) then set_dst_status r eDST_done
    else r in
  let '(r, dstcount) :=
    if tm_min time =? 0 then (set_dst_announce r false, 0)
    else (r, dstcount) in
  (dstcount, r, newtime, errflags).

(** What one call of [decode_time] computes: besides the state, the time and
    the result that the C function leaves behind, the intermediate values
    the properties speak about. *)
Record decode_run := mk_decode_run {
  run_state : decoder_state;      (* the statics after the call *)
  run_time_before : tm;           (* [*time] after [increase_old_time] *)
  run_increase : Z;               (* [increase] *)
  run_newtime : tm;               (* [newtime] given to [stamp_date_time] *)
  run_errflags : Z;               (* [errflags] given to [stamp_date_time] *)
  run_time : tm;                  (* [*time] on return *)
  run_result : DT_result          (* the returned [dt_res] *)
}.

(** [decode_time], with the [#if 0] block left out as the compiler does. *)
Definition decode_time_run (st : decoder_state)
    (init_min minlen acc_minlen : Z) (buffer : list Z) (time : tm)
  : decode_run :=
  let newtime := tm_zero in
  let time := if init_min =? 2 then set_tm_isdst time (-1) else time in
  let newtime := set_tm_isdst newtime (tm_isdst time) in
  let '(r, sane) := check_time_sanity (dt_res st) minlen buffer in
  let errflags := if sane then 0 else 1 in
  let mincount :=
    if errflags =? 0 then
      let 'tt := handle_special_bits buffer in
      let mc := minute_count st + 1 in
      if mc =? 60 then 0 else mc
    else minute_count st in
  let '(partial, increase, time_inc) :=
    increase_old_time (acc_minlen_partial st) (dst_announce r)
                      init_min minlen acc_minlen time in
  let '(r, newtime, errflags) :=
    calculate_date_time r init_min errflags increase buffer time_inc
                        newtime in
  let time' := stamp_date_time r errflags newtime time_inc in
  let old_err := olderr st in
  let old_err := if old_err && (errflags =? 0) then false else old_err in
  let old_err := if negb (errflags =? 0) then true else old_err in
  mk_decode_run
    (mk_decoder_state (dst_count st) mincount r partial old_err)
    time_inc increase newtime errflags time' r.

(** [decode_time] as the caller sees it: the statics, [*time] and the
    returned structure. *)
Definition decode_time (st : decoder_state)
    (init_min minlen acc_minlen : Z) (buffer : list Z) (time : tm)
  : decoder_state * tm * DT_result :=
  let run := decode_time_run st init_min minlen acc_minlen buffer time in
  (run_state run, run_time run, run_result run).

(** The call replaced the current time by the decoded one. *)
Definition decode_commits (st : decoder_state)
    (init_min minlen acc_minlen : Z) (buffer : list Z) (time : tm) : bool :=
  let run := decode_time_run st init_min minlen acc_minlen buffer time in
  stamp_condition (run_result run) (run_errflags run).

End WithCalendar.

End DecodeTime.

(** ** [input.c]: the bit buffer, the log-file reader and the framer *)

Module Input.

(** [#define BUFLEN 61] *)
Definition BUFLEN : Z := 61.

(** [EOF] of [<stdio.h>]. *)
Definition EOF : Z := -1.

(** Modelled from the spec: [input.h] is not among the sources.  The marker
    states of [GB_result] are [none], [minute], [too_long] and [late]. *)
Inductive eGB_marker := emark_none | emark_minute | emark_toolong | emark_late.

(** Modelled from the spec: [input.h] is not among the sources.  The bit
    values of [GB_result] are [bv_00], [bv_10], [bv_11], [bv_01], [bv_bom]
    and [bv_none]. *)
Inductive eGB_bitvalue :=
  ebv_none | ebv_00 | ebv_10 | ebv_01 | ebv_11 | ebv_bom.

(** Modelled from the spec: [input.h] is not among the sources.  The
    hardware states of [GB_result] are [ok], [receive], [transmit] and
    [random]. *)
Inductive eGB_hw := ehw_ok | ehw_receive | ehw_transmit | ehw_random.

(** Modelled from the spec: [input.h] is not among the sources.
    [struct GB_result] holds [marker], [bitval], [hwstat], [bad_io], [skip]
    and [done]. *)
Record GB_result := mk_GB_result {
  bad_io : bool;
  bitval : eGB_bitvalue;
  marker : eGB_marker;
  hwstat : eGB_hw;
  done : bool;
  skip : bool
}.

(** Modelled from the spec: [input.h] is not among the sources.
    [struct bitinfo] is the running filter state: the signal snapshot, the
    sample index [t], [tlow], [tlast0], and the fixed-point (scale 10^6,
    64 bit) [realfreq], [bit0] and [bit59], with the two reset flags that
    [reset_frequency] and [reset_bitlen] set. *)
Record bitinfo := mk_bitinfo {
  signal : option (list Z);
  t : Z;
  tlow : Z;
  tlast0 : Z;
  realfreq : Z;
  bit0 : Z;
  bit59 : Z;
  freq_reset : bool;
  bitlen_reset : bool
}.

(** Modelled from the spec: [input.h] is not among the sources.
    [struct hardware] is the configuration: [pin], [active_high], the
    sample rate [freq] and the device index [iodev], all but the flag
    [unsigned]. *)
Record hardware := mk_hardware {
  pin : Z;
  active_high : bool;
  freq : Z;
  iodev : Z
}.

(** A [FILE] stream: the bytes not yet read, the end-of-file indicator and
    the bytes written so far. *)
Record FILE := mk_FILE {
  unread : list Z;
  eof_flag : bool;
  written : list Z
}.

Definition feof (f : FILE) : bool := eof_flag f.

(** [getc]: at the end of the stream it returns [EOF] and sets the
    indicator. *)
Definition getc (f : FILE) : Z * FILE :=
  match unread f with
  | [] => (EOF, mk_FILE [] true (written f))
  | c :: rest => (c, mk_FILE rest (eof_flag f) (written f))
  end.

(** [ungetc]: pushing [EOF] back fails and leaves the stream alone; a
    successful push clears the indicator. *)
Definition ungetc (c : Z) (f : FILE) : FILE :=
  if c =? EOF then f else mk_FILE (c mod 256 :: unread f) false (written f).

(** [fprintf(logfile, ...)] of a few characters. *)
Definition fputs (s : list Z) (f : FILE) : FILE :=
  mk_FILE (unread f) (eof_flag f) (written f ++ s).

(** The globals of [input.c] ([fd] and [filemode] play no part below), the
    two [static] locals of [get_bit_file], and the values the GPIO line is
    going to deliver to [get_pulse]. *)
Record input_state := mk_input_state {
  bitpos : Z;
  dec_bp : Z;
  buffer : list Z;
  logfile : option FILE;
  hw : hardware;
  bit : bitinfo;
  acc_minlen : Z;
  cutoff : Z;
  gb_res : GB_result;
  oldinch : Z;
  read_acc_minlen : bool;
  gpio : list Z
}.

Definition set_bitpos (s : input_state) (v : Z) : input_state :=
  mk_input_state v (dec_bp s) (buffer s) (logfile s) (hw s) (bit s)
    (acc_minlen s) (cutoff s) (gb_res s) (oldinch s) (read_acc_minlen s)
    (gpio s).
Definition set_dec_bp (s : input_state) (v : Z) : input_state :=
  mk_input_state (bitpos s) v (buffer s) (logfile s) (hw s) (bit s)
    (acc_minlen s) (cutoff s) (gb_res s) (oldinch s) (read_acc_minlen s)
    (gpio s).
Definition set_buffer (s : input_state) (v : list Z) : input_state :=
  mk_input_state (bitpos s) (dec_bp s) v (logfile s) (hw s) (bit s)
    (acc_minlen s) (cutoff s) (gb_res s) (oldinch s) (read_acc_minlen s)
    (gpio s).
Definition set_logfile (s : input_state) (v : option FILE) : input_state :=
  mk_input_state (bitpos s) (dec_bp s) (buffer s) v (hw s) (bit s)
    (acc_minlen s) (cutoff s) (gb_res s) (oldinch s) (read_acc_minlen s)
    (gpio s).
Definition set_bit (s : input_state) (v : bitinfo) : input_state :=
  mk_input_state (bitpos s) (dec_bp s) (buffer s) (logfile s) (hw s) v
    (acc_minlen s) (cutoff s) (gb_res s) (oldinch s) (read_acc_minlen s)
    (gpio s).
Definition set_acc_minlen (s : input_state) (v : Z) : input_state :=
  mk_input_state (bitpos s) (dec_bp s) (buffer s) (logfile s) (hw s) (bit s)
    v (cutoff s) (gb_res s) (oldinch s) (read_acc_minlen s) (gpio s).
Definition set_cutoff (s : input_state) (v : Z) : input_state :=
  mk_input_state (bitpos s) (dec_bp s) (buffer s) (logfile s) (hw s) (bit s)
    (acc_minlen s) v (gb_res s) (oldinch s) (read_acc_minlen s) (gpio s).
Definition set_gb_res (s : input_state) (v : GB_result) : input_state :=
  mk_input_state (bitpos s) (dec_bp s) (buffer s) (logfile s) (hw s) (bit s)
    (acc_minlen s) (cutoff s) v (oldinch s) (read_acc_minlen s) (gpio s).
Definition set_oldinch (s : input_state) (v : Z) : input_state :=
  mk_input_state (bitpos s) (dec_bp s) (buffer s) (logfile s) (hw s) (bit s)
    (acc_minlen s) (cutoff s) (gb_res s) v (read_acc_minlen s) (gpio s).
Definition set_read_acc_minlen (s : input_state) (v : bool) : input_state :=
  mk_input_state (bitpos s) (dec_bp s) (buffer s) (logfile s) (hw s) (bit s)
    (acc_minlen s) (cutoff s) (gb_res s) (oldinch s) v (gpio s).
Definition set_gpio (s : input_state) (v : list Z) : input_state :=
  mk_input_state (bitpos s) (dec_bp s) (buffer s) (logfile s) (hw s) (bit s)
    (acc_minlen s) (cutoff s) (gb_res s) (oldinch s) (read_acc_minlen s) v.

Definition set_bad_io (g : GB_result) (v : bool) : GB_result :=
  mk_GB_result v (bitval g) (marker g) (hwstat g) (done g) (skip g).
Definition set_bitval (g : GB_result) (v : eGB_bitvalue) : GB_result :=
  mk_GB_result (bad_io g) v (marker g) (hwstat g) (done g) (skip g).
Definition set_marker (g : GB_result) (v : eGB_marker) : GB_result :=
  mk_GB_result (bad_io g) (bitval g) v (hwstat g) (done g) (skip g).
Definition set_hwstat (g : GB_result) (v : eGB_hw) : GB_result :=
  mk_GB_result (bad_io g) (bitval g) (marker g) v (done g) (skip g).
Definition set_done (g : GB_result) (v : bool) : GB_result :=
  mk_GB_result (bad_io g) (bitval g) (marker g) (hwstat g) v (skip g).
Definition set_skip (g : GB_result) (v : bool) : GB_result :=
  mk_GB_result (bad_io g) (bitval g) (marker g) (hwstat g) (done g) v.

Definition set_signal (b : bitinfo) (v : option (list Z)) : bitinfo :=
  mk_bitinfo v (t b) (tlow b) (tlast0 b) (realfreq b) (bit0 b) (bit59 b)
    (freq_reset b) (bitlen_reset b).
Definition set_t (b : bitinfo) (v : Z) : bitinfo :=
  mk_bitinfo (signal b) v (tlow b) (tlast0 b) (realfreq b) (bit0 b) (bit59 b)
    (freq_reset b) (bitlen_reset b).
Definition set_tlow (b : bitinfo) (v : Z) : bitinfo :=
  mk_bitinfo (signal b) (t b) v (tlast0 b) (realfreq b) (bit0 b) (bit59 b)
    (freq_reset b) (bitlen_reset b).
Definition set_tlast0 (b : bitinfo) (v : Z) : bitinfo :=
  mk_bitinfo (signal b) (t b) (tlow b) v (realfreq b) (bit0 b) (bit59 b)
    (freq_reset b) (bitlen_reset b).
Definition set_realfreq (b : bitinfo) (v : Z) : bitinfo :=
  mk_bitinfo (signal b) (t b) (tlow b) (tlast0 b) v (bit0 b) (bit59 b)
    (freq_reset b) (bitlen_reset b).
Definition set_freq_reset (b : bitinfo) (v : bool) : bitinfo :=
  mk_bitinfo (signal b) (t b) (tlow b) (tlast0 b) (realfreq b) (bit0 b)
    (bit59 b) v (bitlen_reset b).

Definition marker_eqb (a b : eGB_marker) : bool :=
  match a, b with
  | emark_none, emark_none | emark_minute, emark_minute
  | emark_toolong, emark_toolong | emark_late, emark_late => true
  | _, _ => false
  end.

Definition hwstat_eqb (a b : eGB_hw) : bool :=
  match a, b with
  | ehw_ok, ehw_ok | ehw_receive, ehw_receive
  | ehw_transmit, ehw_transmit | ehw_random, ehw_random => true
  | _, _ => false
  end.

(** The zero-initialised statics. *)
Definition gb_res_zero : GB_result :=
  mk_GB_result false ebv_none emark_none ehw_ok false false.

(** [set_new_state] *)
Definition set_new_state (s : input_state) : input_state :=
  let s := if negb (skip (gb_res s)) then set_cutoff s (-1) else s in
  let g := gb_res s in
  let g := set_bad_io g false in
  let g := set_bitval g ebv_none in
  let g :=
    if negb (marker_eqb (marker g) emark_toolong) &&
       negb (marker_eqb (marker g) emark_late)
    then set_marker g emark_none else g in
  let g := set_hwstat g ehw_ok in
  let g := set_done g false in
  let g := set_skip g false in
  set_gb_res s g.

(** [strchr("012345\nxr#*_a", inch) != NULL]; the terminating NUL of the
    string matches too, [EOF] does not. *)
Definition valid_char (inch : Z) : bool :=
  existsb (Z.eqb inch)
    [48; 49; 50; 51; 52; 53; 10; 120; 114; 35; 42; 95; 97; 0].

(** The [do ... while] loop of [skip_invalid], [fuel] iterations at most. *)
Fixpoint skip_invalid_loop (fuel : nat) (inch : Z) (f : FILE) : Z * FILE :=
  match fuel with
  | O => (inch, f)
  | S fuel' =>
      let oldinch := inch in
      if feof f then (inch, f)
      else
        let '(inch, f) := getc f in
        let '(inch, f) :=
          if (oldinch =? 13) && negb (inch =? 10)
          then (10, ungetc inch f) else (inch, f) in
        if valid_char inch then (inch, f)
        else skip_invalid_loop fuel' inch f
  end.

(** [skip_invalid]: every iteration that goes on has consumed a byte or
    set the end-of-file indicator, so the fuel given suffices
    ([skip_invalid_fuel]). *)
Definition skip_invalid (f : FILE) : Z * FILE :=
  skip_invalid_loop (length (unread f) + 2) EOF f.

(** [isspace] and [isdigit] in the C locale. *)
Definition isspace (c : Z) : bool :=
  (c =? 32) || ((9 <=? c) && (c <=? 13)).
Definition isdigit (c : Z) : bool := (48 <=? c) && (c <=? 57).

(** The digits of a [%u] directive: at most [width] of them. Returns the
    value, the number of digits and the stream. *)
Fixpoint scan_digits (width : nat) (acc : Z) (count : nat) (f : FILE)
  : Z * nat * FILE :=
  match width with
  | O => (acc, count, f)
  | S width' =>
      match unread f with
      | [] => (acc, count, mk_FILE [] true (written f))
      | c :: rest =>
          if isdigit c then
            scan_digits width' (10 * acc + (c - 48)) (S count)
                        (mk_FILE rest (eof_flag f) (written f))
          else (acc, count, f)
      end
  end.

(** Leading white space of a conversion. *)
Fixpoint scan_space (l : list Z) : list Z :=
  match l with
  | c :: rest => if isspace c then scan_space rest else l
  | [] => []
  end.

(** [fscanf(logfile, "%10u", &v)]: returns the result of [fscanf] and the
    value stored (when the result is 1).  An optional sign counts in the
    field width; the value is reduced to 32 bits. *)
Definition fscanf_u10 (f : FILE) : Z * Z * FILE :=
  match scan_space (unread f) with
  | [] => (EOF, 0, mk_FILE [] true (written f))
  | c :: rest =>
      let f0 := mk_FILE (c :: rest) (eof_flag f) (written f) in
      let '(neg, width, f1) :=
        if c =? 45 then (true, 9%nat, mk_FILE rest (eof_flag f) (written f))
        else if c =? 43
        then (false, 9%nat, mk_FILE rest (eof_flag f) (written f))
        else (false, 10%nat, f0) in
      let '(v, count, f2) := scan_digits width 0 0 f1 in
      match count with
      | O => (0, 0, f2)
      | S _ => (1, wrap32 (if neg then - v else v), f2)
      end
  end.

(** The [switch (inch)] of [get_bit_file], for an [inch] that is not
    [EOF] (that case returns at once, see [get_bit_file]). *)
Definition file_switch (inch : Z) (s : input_state) : input_state :=
  if (48 <=? inch) && (inch <=? 52) then (* '0' .. '4' *)
    let s := set_buffer s (wr (buffer s) (bitpos s) (inch - 48)) in
    let s :=
      set_gb_res s
        (set_bitval (gb_res s)
           (if inch =? 48 then ebv_00
            else if inch =? 49 then ebv_10
            else if inch =? 50 then ebv_01
            else if inch =? 51 then ebv_11
            else if inch =? 52 then ebv_bom
            else ebv_none)) in
    let s := set_bit s (set_t (bit s) 1000) in
    if inch =? 52 then
      if marker_eqb (marker (gb_res s)) emark_none then
        set_gb_res s (set_marker (gb_res s) emark_minute)
      else if marker_eqb (marker (gb_res s)) emark_toolong then
        set_gb_res s (set_marker (gb_res s) emark_late)
      else s
    else s
  else if inch =? 120 then (* 'x' *)
    set_bit (set_gb_res s (set_hwstat (gb_res s) ehw_transmit))
            (set_t (bit s) 1500)
  else if inch =? 114 then (* 'r' *)
    set_bit (set_gb_res s (set_hwstat (gb_res s) ehw_receive))
            (set_t (bit s) 1500)
  else if inch =? 35 then (* '#' *)
    set_bit (set_gb_res s (set_hwstat (gb_res s) ehw_random))
            (set_t (bit s) 1500)
  else if inch =? 42 then (* '*' *)
    set_bit (set_gb_res s (set_bad_io (gb_res s) true))
            (set_t (bit s) 0)
  else if inch =? 95 then (* '_' *)
    set_bit (set_gb_res s (set_bitval (gb_res s) ebv_none))
            (set_t (bit s) 1000)
  else if inch =? 97 then (* 'a' *)
    let s := set_gb_res s (set_skip (gb_res s) true) in
    let s := set_bit s (set_t (bit s) 0) in
    let s :=
      match logfile s with
      | Some f =>
          let '(res, v, f) := fscanf_u10 f in
          let s := set_logfile s (Some f) in
          let s := if res =? 1 then set_acc_minlen s v else s in
          if negb (res =? 1)
          then set_gb_res s (set_done (gb_res s) true) else s
      | None => s
      end in
    set_read_acc_minlen s (negb (done (gb_res s)))
  else s.

(** The read-ahead at the end of [get_bit_file], from [oldinch = inch]
    on. *)
Definition file_read_ahead (inch : Z) (s : input_state) : input_state :=
  let s := set_oldinch s inch in
  match logfile s with
  | Some f =>
      let '(inch, f) := skip_invalid f in
      let s :=
        if negb (feof f) then
          if (dec_bp s =? 0) && (bitpos s >? 0) &&
             negb (oldinch s =? 10) &&
             ((inch =? 10) || (inch =? 97))
          then set_dec_bp s 1 else s
        else set_gb_res s (set_done (gb_res s) true) in
      set_logfile s (Some (ungetc inch f))
  | None => s
  end.

(** [get_bit_file].  It is installed as the bit reader only after
    [set_mode_file] has opened [logfile]; on a NULL stream the C function
    has no defined behaviour and the model returns the state as it is. *)
Definition get_bit_file (s0 : input_state) : input_state :=
  match logfile s0 with
  | None => s0
  | Some f =>
      let s := set_new_state s0 in
      let '(inch, f) := skip_invalid f in
      let s := set_logfile s (Some f) in
      if inch =? EOF then
        set_gb_res s (set_done (gb_res s) true)
      else
        let s := file_switch inch s in
        let s :=
          if negb (read_acc_minlen s)
          then set_acc_minlen s (wrap32 (acc_minlen s + t (bit s)))
          else s in
        file_read_ahead inch s
  end.

(** [is_space_bit] *)
Definition is_space_bit (bitpos : Z) : bool :=
  (bitpos =? 1) || (bitpos =? 9) || (bitpos =? 17) || (bitpos =? 25) ||
  (bitpos =? 30) || (bitpos =? 36) || (bitpos =? 39) || (bitpos =? 45) ||
  (bitpos =? 52).

(** [next_bit]; the returned structure is the [gb_res] of the state. *)
Definition next_bit (s : input_state) : input_state :=
  let s :=
    if dec_bp s =? 1
    then set_dec_bp (set_bitpos s (bitpos s - 1)) 2 else s in
  let s :=
    if marker_eqb (marker (gb_res s)) emark_minute ||
       marker_eqb (marker (gb_res s)) emark_late
    then set_dec_bp (set_bitpos s 1) 0
    else if negb (skip (gb_res s)) then set_bitpos s (bitpos s + 1)
    else s in
  if bitpos s =? BUFLEN then
    set_bitpos (set_gb_res s (set_marker (gb_res s) emark_toolong)) 0
  else if marker_eqb (marker (gb_res s)) emark_toolong then
    set_gb_res s (set_marker (gb_res s) emark_none)
  else if marker_eqb (marker (gb_res s)) emark_late then
    set_gb_res s (set_marker (gb_res s) emark_minute)
  else s.

Definition get_bitpos (s : input_state) : Z := bitpos s.
Definition get_buffer (s : input_state) : list Z := buffer s.
Definition get_acc_minlen (s : input_state) : Z := acc_minlen s.
Definition get_cutoff (s : input_state) : Z := cutoff s.

(** [reset_acc_minlen] *)
Definition reset_acc_minlen (s : input_state) : input_state :=
  set_acc_minlen s 0.

(** [get_pulse]: the next value of the GPIO line (0 or 1), or 2 when the
    read fails; an exhausted line is a failed read. *)
Definition get_pulse (s : input_state) : Z * input_state :=
  match gpio s with
  | [] => (2, s)
  | p :: rest => (p, set_gpio s rest)
  end.

(** [reset_frequency] *)
Definition reset_frequency (s : input_state) : input_state :=
  let s :=
    match logfile s with
    | Some f =>
        set_logfile s
          (Some (fputs
                   (if realfreq (bit s) <=? wrap32 (freq (hw s) * 500000)
                    then [60] (* "<" *)
                    else if realfreq (bit s) >? wrap32 (freq (hw s) * 1000000)
                    then [62] (* ">" *)
                    else []) f))
    | None => s
    end in
  set_bit s
    (set_freq_reset
       (set_realfreq (bit s) (wrap32 (freq (hw s) * 1000000))) true).

(** The locals of [collect_pulses] that live across iterations ([y], [stv])
    and the two variables of the caller it updates through pointers. *)
Record pulse_run := mk_pulse_run {
  pr_state : input_state;
  pr_y : Z;
  pr_stv : Z;
  pr_init_bit : Z;
  pr_adj_freq : bool
}.

(** The test [bit.t > bit.realfreq * 1500000] that guards the timeout
    branch of [collect_pulses]. *)
Definition timeout_test (s : input_state) : bool :=
  t (bit s) >? realfreq (bit s) * 1500000.

(** The frequency guard of [collect_pulses]:
    [bit.realfreq <= hw.freq * 500000 || bit.realfreq > hw.freq * 1000000]. *)
Definition frequency_guard (s : input_state) : bool :=
  (realfreq (bit s) <=? wrap32 (freq (hw s) * 500000)) ||
  (realfreq (bit s) >? wrap32 (freq (hw s) * 1000000)).

(** The classification inside the timeout branch. *)
Definition timeout_class (s : input_state) : eGB_hw :=
  if wrap32 (tlow (bit s)) <=? freq (hw s) / 20 then ehw_receive
  else if wrap32 (tlow (bit s) * 100) / t (bit s) >=? 99 then ehw_transmit
  else ehw_random.

(** One iteration of the sampling loop of [collect_pulses], for the filter
    constant [a] (computed in the source with the floating-point [exp2]).
    The result says whether the loop was left with [break].  Reading the
    clock and sleeping change nothing of the state and are left out, and so
    is the local [outch], which is never read. *)
Definition collect_body (a : Z) (r : pulse_run) : bool * pulse_run :=
  let s := pr_state r in
  let '(p, s) := get_pulse s in
  if p =? 2 then
    (true,
     mk_pulse_run (set_gb_res s (set_bad_io (gb_res s) true))
                  (pr_y r) (pr_stv r) (pr_init_bit r) (pr_adj_freq r))
  else
    let s :=
      match signal (bit s) with
      | Some sig =>
          let i := t (bit s) / 8 in
          let sig := if Z.land (t (bit s)) 7 =? 0 then wr sig i 0 else sig in
          let sig :=
            wr sig i
               (Z.lor (rd sig i) (Z.shiftl p (Z.land (t (bit s)) 7))
                mod 256) in
          set_bit s (set_signal (bit s) (Some sig))
      | None => s
      end in
    let y := pr_y r in
    let s :=
      if (y >=? 0) && (y <? Z.quot a 2)
      then set_bit s (set_tlast0 (bit s) (t (bit s))) else s in
    let y := y + Z.quot (a * (p * 1000000000 - y)) 1000000000 in
    let '(s, adj_freq) :=
      if frequency_guard s then (reset_frequency s, false)
      else (s, pr_adj_freq r) in
    if timeout_test s then
      (true,
       mk_pulse_run (set_gb_res s (set_hwstat (gb_res s) (timeout_class s)))
                    y (pr_stv r) (pr_init_bit r) false)
    else
      let '(y, stv, s) :=
        if (y <? 500000000) && (pr_stv r =? 1)
        then (0, 0, set_bit s (set_tlow (bit s) (t (bit s))))
        else (y, pr_stv r, s) in
      if (y >? 500000000) && (stv =? 0) then
        (true,
         mk_pulse_run s y stv
           (if pr_init_bit r =? 2 then 1 else pr_init_bit r) adj_freq)
      else
        (false, mk_pulse_run s y stv (pr_init_bit r) adj_freq).

(** [for (bit.t = start; bit.t < hw.freq; bit.t++)], at most [n]
    iterations. *)
Fixpoint collect_loop (a : Z) (n : nat) (r : pulse_run) : pulse_run :=
  match n with
  | O => r
  | S n' =>
      let s := pr_state r in
      if t (bit s) <? freq (hw s) then
        let '(brk, r) := collect_body a r in
        if brk then r
        else
          let s := pr_state r in
          collect_loop a n'
            (mk_pulse_run (set_bit s (set_t (bit s) (t (bit s) + 1)))
                          (pr_y r) (pr_stv r) (pr_init_bit r)
                          (pr_adj_freq r))
      else r
  end.

(** [collect_pulses]: the sample count it returns is [bit.t] of the
    resulting state.  The loop runs [hw.freq - start] times at most. *)
Definition collect_pulses (a : Z) (start init_bit : Z) (adj_freq : bool)
    (s : input_state) : pulse_run :=
  let s := set_bit s (set_t (bit s) start) in
  let r :=
    collect_loop a (Z.to_nat (freq (hw s) - start))
                 (mk_pulse_run s 1000000000 1 init_bit adj_freq) in
  let s := pr_state r in
  if t (bit s) >=? freq (hw s) then
    let s :=
      if hwstat_eqb (hwstat (gb_res s)) ehw_ok
      then set_gb_res s (set_hwstat (gb_res s) ehw_random) else s in
    mk_pulse_run (reset_frequency s) (pr_y r) (pr_stv r) (pr_init_bit r)
                 false
  else r.

End Input.

(** ** [mainloop.c] *)

Module Mainloop.

(** Modelled from the spec: [setclock.h] is not among the sources.  The
    result of a clock-set request is one of [unset], [ok], [unsafe] and
    [fail]. *)
Inductive eSC_status := esc_unset | esc_ok | esc_unsafe | esc_fail.

(** Modelled from the spec: [mainloop.h] is not among the sources.
    [struct ML_result] holds [logfilename], [settime], [settime_result] and
    [quit]. *)
Record ML_result := mk_ML_result {
  logfilename : option (list Z);
  settime : bool;
  settime_result : eSC_status;
  quit : bool
}.

(** [memset(&mlr, 0, sizeof(mlr))] *)
Definition mlr_zero : ML_result := mk_ML_result None false esc_unset false.

(** The display hooks are sinks; a call of one is recorded as an event. *)
Inductive event :=
| display_bit (bit : Input.GB_result) (bitpos : Z)
| display_long_minute
| display_minute (minlen : Z)
| display_new_second
| display_time (dt : DT_result) (time : tm).

(** The locals of [mainloop], the state of [input.c] and of
    [decode_time.c] they work on, and the calls of the display hooks so
    far (latest last). *)
Record main_state := mk_main_state {
  input : Input.input_state;
  decoder : DecodeTime.decoder_state;
  trace : list event;
  minlen : Z;
  bitpos : Z;
  old_bitpos : Z;
  init_min : Z;
  curtime : tm;
  mlr : ML_result;
  was_toolong : bool
}.

Definition is_minute_or_late (bit : Input.GB_result) : bool :=
  Input.marker_eqb (Input.marker bit) Input.emark_minute ||
  Input.marker_eqb (Input.marker bit) Input.emark_late.

Section WithHooks.

Context (cal : Calendar).

(** [setclock_ok] and [setclock] of [setclock.c], which is not among the
    sources. *)
Context (setclock_ok : Z -> DT_result -> Input.GB_result -> bool).
Context (setclock : tm -> eSC_status).

(** The bit reader and the hooks [mainloop] is called with; a NULL hook is
    [None].  [display_new_second] is the only display hook tested for
    NULL. *)
Context (get_bit : Input.input_state -> Input.input_state).
Context (has_display_new_second : bool).
Context (process_setclock_result : option (ML_result -> Z -> ML_result)).
Context (process_input : option (ML_result -> Z -> ML_result)).
Context (post_process_input : option (ML_result -> Z -> ML_result)).

(** [check_handle_new_minute(bit, &mlr, bitpos, &curtime, minlen,
    was_toolong, &init_min, ...)] on the locals of [mainloop]. *)
Definition check_handle_new_minute (bit : Input.GB_result) (m : main_state)
  : main_state :=
  let '(have_result, m) :=
    if is_minute_or_late bit && negb (was_toolong m) then
      let tr := trace m ++ [display_minute (minlen m)] in
      let '(dec, cur, dt) :=
        DecodeTime.decode_time cal (decoder m) (init_min m) (minlen m)
          (Input.get_acc_minlen (input m)) (Input.get_buffer (input m))
          (curtime m) in
      let tr := tr ++ [display_time dt cur] in
      let '(have_result, ml) :=
        if settime (mlr m) then
          (true,
           mk_ML_result (logfilename (mlr m)) (settime (mlr m))
             (if setclock_ok (init_min m) dt bit
              then setclock cur else esc_unsafe)
             (quit (mlr m)))
        else (false, mlr m) in
      let inp :=
        if is_minute_or_late bit
        then Input.reset_acc_minlen (input m) else input m in
      let im := if init_min m >? 0 then init_min m - 1 else init_min m in
      (have_result,
       mk_main_state inp dec tr (minlen m) (bitpos m) (old_bitpos m) im cur
                     ml (was_toolong m))
    else (false, m) in
  match process_setclock_result with
  | Some f =>
      if have_result then
        mk_main_state (input m) (decoder m) (trace m) (minlen m) (bitpos m)
          (old_bitpos m) (init_min m) (curtime m) (f (mlr m) (bitpos m))
          (was_toolong m)
      else m
  | None => m
  end.

Definition with_input (m : main_state) (v : Input.input_state) : main_state :=
  mk_main_state v (decoder m) (trace m) (minlen m) (bitpos m)
    (old_bitpos m) (init_min m) (curtime m) (mlr m) (was_toolong m).
Definition with_trace (m : main_state) (v : list event) : main_state :=
  mk_main_state (input m) (decoder m) v (minlen m) (bitpos m)
    (old_bitpos m) (init_min m) (curtime m) (mlr m) (was_toolong m).
Definition with_minlen (m : main_state) (v : Z) : main_state :=
  mk_main_state (input m) (decoder m) (trace m) v (bitpos m)
    (old_bitpos m) (init_min m) (curtime m) (mlr m) (was_toolong m).
Definition with_bitpos (m : main_state) (v : Z) : main_state :=
  mk_main_state (input m) (decoder m) (trace m) (minlen m) v
    (old_bitpos m) (init_min m) (curtime m) (mlr m) (was_toolong m).
Definition with_old_bitpos (m : main_state) (v : Z) : main_state :=
  mk_main_state (input m) (decoder m) (trace m) (minlen m) (bitpos m)
    v (init_min m) (curtime m) (mlr m) (was_toolong m).
Definition with_mlr (m : main_state) (v : ML_result) : main_state :=
  mk_main_state (input m) (decoder m) (trace m) (minlen m) (bitpos m)
    (old_bitpos m) (init_min m) (curtime m) v (was_toolong m).
Definition with_was_toolong (m : main_state) (v : bool) : main_state :=
  mk_main_state (input m) (decoder m) (trace m) (minlen m) (bitpos m)
    (old_bitpos m) (init_min m) (curtime m) (mlr m) v.

(** One iteration of the [for (;;)] loop of [mainloop]; the result says
    whether the loop was left with [break]. *)
Definition mainloop_body (m : main_state) : bool * main_state :=
  let m := with_input m (get_bit (input m)) in
  let bit := Input.gb_res (input m) in
  let '(brk, m) :=
    match process_input with
    | Some f =>
        let m := with_mlr m (f (mlr m) (bitpos m)) in
        (Input.done bit || quit (mlr m), m)
    | None => (false, m)
    end in
  if brk then (true, m)
  else
    let m := with_bitpos m (Input.get_bitpos (input m)) in
    let m :=
      match post_process_input with
      | Some f => with_mlr m (f (mlr m) (bitpos m))
      | None => m
      end in
    let m :=
      if negb (Input.skip bit) && negb (quit (mlr m))
      then with_trace m (trace m ++ [display_bit bit (bitpos m)]) else m in
    let m := with_input m (Input.next_bit (input m)) in
    let bit := Input.gb_res (input m) in
    let m :=
      if minlen m =? -1
      then with_was_toolong (check_handle_new_minute bit m) true else m in
    let m :=
      if Input.marker_eqb (Input.marker bit) Input.emark_minute then
        with_minlen m (old_bitpos m)
      else if Input.marker_eqb (Input.marker bit) Input.emark_toolong ||
              Input.marker_eqb (Input.marker bit) Input.emark_late then
        let m := with_minlen m (-1) in
        with_trace m (trace m ++ [display_long_minute])
      else m in
    let m :=
      if has_display_new_second
      then with_trace m (trace m ++ [display_new_second]) else m in
    let m := with_was_toolong (check_handle_new_minute bit m) false in
    if Input.done bit || quit (mlr m) then (true, m)
    else (false, with_old_bitpos m (bitpos m)).

(** The [for (;;)] loop, [fuel] iterations at most. *)
Fixpoint mainloop_loop (fuel : nat) (m : main_state) : main_state :=
  match fuel with
  | O => m
  | S fuel' =>
      let '(brk, m) := mainloop_body m in
      if brk then m else mainloop_loop fuel' m
  end.

(** The state [mainloop] starts its loop in. *)
Definition mainloop_start (name : option (list Z))
    (inp : Input.input_state) (dec : DecodeTime.decoder_state) : main_state :=
  mk_main_state inp dec [] 0 0 0 2 tm_zero
    (mk_ML_result name false esc_unset false) false.

End WithHooks.

End Mainloop.

(** ** [nplpi-analyze.c]: the display functions of the log analyser *)

Module Analyze.

(** The decimal digits of [n >= 0], most significant first, in front of
    [acc]; [fuel] bounds their number. *)
Fixpoint digits (fuel : nat) (n : Z) (acc : list Z) : list Z :=
  match fuel with
  | O => acc
  | S fuel' =>
      let acc := (48 + n mod 10) :: acc in
      if n <? 10 then acc else digits fuel' (n / 10) acc
  end.

(** [printf("%i", v)]: the characters written.  A number has no more
    decimal digits than binary ones. *)
Definition print_int (v : Z) : list Z :=
  let n := Z.abs v in
  (if v <? 0 then [45] else []) ++ digits (S (Z.to_nat (Z.log2 n))) n [].

Definition bitvalue_eqb (a b : Input.eGB_bitvalue) : bool :=
  match a, b with
  | Input.ebv_none, Input.ebv_none | Input.ebv_00, Input.ebv_00
  | Input.ebv_10, Input.ebv_10 | Input.ebv_01, Input.ebv_01
  | Input.ebv_11, Input.ebv_11 | Input.ebv_bom, Input.ebv_bom => true
  | _, _ => false
  end.

(** [display_bit]: the characters it writes to the standard output, in
    the state [s] of [input.c] that [get_buffer] reads. *)
Definition display_bit (s : Input.input_state) (bit : Input.GB_result)
    (bitpos : Z) : list Z :=
  (if Input.is_space_bit bitpos then [32] else []) ++
  (if Input.hwstat_eqb (Input.hwstat bit) Input.ehw_receive then [114]
   else if Input.hwstat_eqb (Input.hwstat bit) Input.ehw_transmit
   then [120]
   else if Input.hwstat_eqb (Input.hwstat bit) Input.ehw_random then [35]
   else if bitvalue_eqb (Input.bitval bit) Input.ebv_none then [95]
   else print_int (rd (Input.get_buffer s) bitpos)).

End Analyze.


(** ** A calendar for running the decoder *)

Module SpecCalendar.

(** Modelled from the spec: [calendar.c] is not among the sources.  The
    Gregorian leap rule: divisible by 4, except by 100 unless by 400. *)
Definition isleapyear (year : Z) : bool :=
  ((year mod 4 =? 0) && negb (year mod 100 =? 0)) || (year mod 400 =? 0).

(** Modelled from the spec: [calendar.c] is not among the sources.
    [last_day_of_month(t)] is 28, 29, 30 or 31 by the Gregorian rule. *)
Definition lastday (time : tm) : Z :=
  if (tm_mon time =? 4) || (tm_mon time =? 6) || (tm_mon time =? 9) ||
     (tm_mon time =? 11) then 30
  else if tm_mon time =? 2 then
    (if isleapyear (tm_year time) then 29 else 28)
  else 31.

(** Modelled from the spec: [calendar.c] is not among the sources.  The
    day of the week of a Gregorian date by Zeller's congruence, Monday = 1
    to Sunday = 7. *)
Definition weekday (year mon mday : Z) : Z :=
  let m := if mon <? 3 then mon + 12 else mon in
  let y := if mon <? 3 then year - 1 else year in
  let k := y mod 100 in
  let j := y / 100 in
  let h := (mday + 13 * (m + 1) / 5 + k + k / 4 + j / 4 + 5 * j) mod 7 in
  (h + 5) mod 7 + 1.

(** Modelled from the spec: [calendar.c] is not among the sources.
    [century_offset(t)] is the number (0..3) of centuries above
    [base_year] (1900) for which year-within-century, month and day fall on
    the weekday of [t], and -1 when no century matches. *)
Definition century_offset (time : tm) : Z :=
  let fits c :=
    weekday (1900 + 100 * c + tm_year time) (tm_mon time) (tm_mday time)
      mod 7 =? tm_wday time mod 7 in
  if fits 0 then 0 else if fits 1 then 1 else if fits 2 then 2
  else if fits 3 then 3 else -1.

(** Modelled from the spec: [calendar.c] is not among the sources.  Is the
    date the last Sunday of its month? *)
Definition last_sunday (time : tm) : bool :=
  (weekday (tm_year time) (tm_mon time) (tm_mday time) =? 7) &&
  (tm_mday time + 7 >? lastday time).

(** Modelled from the spec: [calendar.c] is not among the sources.
    [add_minute(t, dst_announce)] advances the minute with the carries
    into hour, day, month and year; when a change of DST is announced and
    the hour wraps on the last Sunday of March at 01:00 (forward) or of
    October at 02:00 (back), the hour and the DST flag are adjusted. *)
Definition add_minute (time : tm) (dst_announce : bool) : tm :=
  let time := set_tm_min time (tm_min time + 1) in
  if tm_min time =? 60 then
    let time := set_tm_min time 0 in
    let time := set_tm_hour time (tm_hour time + 1) in
    let time :=
      if dst_announce && last_sunday time then
        if (tm_mon time =? 3) && (tm_hour time =? 1) &&
           (tm_isdst time =? 0)
        then set_tm_isdst (set_tm_hour time 2) 1
        else if (tm_mon time =? 10) && (tm_hour time =? 2) &&
                (tm_isdst time =? 1)
        then set_tm_isdst (set_tm_hour time 1) 0
        else time
      else time in
    if tm_hour time =? 24 then
      let time := set_tm_hour time 0 in
      let time :=
        set_tm_wday time (if tm_wday time >=? 7 then 1 else tm_wday time + 1)
      in
      let time := set_tm_mday time (tm_mday time + 1) in
      if tm_mday time >? lastday time then
        let time := set_tm_mday time 1 in
        let time := set_tm_mon time (tm_mon time + 1) in
        if tm_mon time =? 13 then
          set_tm_year (set_tm_mon time 1) (tm_year time + 1)
        else time
      else time
    else time
  else time.

(** Modelled from the spec: [calendar.c] is not among the sources.
    [subtract_minute(t, dst_announce)] is the inverse of [add_minute]. *)
Definition substract_minute (time : tm) (dst_announce : bool) : tm :=
  let time := set_tm_min time (tm_min time - 1) in
  if tm_min time =? -1 then
    let time := set_tm_min time 59 in
    let time := set_tm_hour time (tm_hour time - 1) in
    let time :=
      if dst_announce && last_sunday time then
        if (tm_mon time =? 3) && (tm_hour time =? 1) &&
           (tm_isdst time =? 1)
        then set_tm_isdst (set_tm_hour time 0) 0
        else if (tm_mon time =? 10) && (tm_hour time =? 0) &&
                (tm_isdst time =? 0)
        then set_tm_isdst (set_tm_hour time 1) 1
        else time
      else time in
    if tm_hour time =? -1 then
      let time := set_tm_hour time 23 in
      let time :=
        set_tm_wday time (if tm_wday time <=? 1 then 7 else tm_wday time - 1)
      in
      let time := set_tm_mday time (tm_mday time - 1) in
      if tm_mday time =? 0 then
        let time := set_tm_mon time (tm_mon time - 1) in
        let time :=
          if tm_mon time =? 0
          then set_tm_year (set_tm_mon time 12) (tm_year time - 1)
          else time in
        set_tm_mday time (lastday time)
      else time
    else time
  else time.

(** Modelled from the spec: [calendar.c] is not among the sources.  The
    calendar of the specification, with [base_year] 1900. *)
Definition calendar : Calendar :=
  mk_Calendar 1900 add_minute substract_minute century_offset lastday.

End SpecCalendar.

(** ** The properties' vocabulary and sample inputs *)

(** The A bit ([bit & 1]) and the B bit ([bit & 2]) of a buffer entry, each
    counted as 0 or 1. *)
Definition A_bit (x : Z) : Z := if Z.land x 1 =? 0 then 0 else 1.
Definition B_bit (x : Z) : Z := if Z.land x 2 =? 0 then 0 else 1.

(** The indices [start], [start + 1], ..., [stop]. *)
Definition indices (start stop : Z) : list Z :=
  map (fun k => start + Z.of_nat k) (seq 0 (Z.to_nat (stop + 1 - start))).

(** The number of set A bits among [buffer[start..stop]]. *)
Definition count_A (buffer : list Z) (start stop : Z) : Z :=
  Z.of_nat
    (length (List.filter (fun i => A_bit (rd buffer i) =? 1)
                         (indices start stop))).

(** The number that the A bits of the [n] entries ending at [buffer[last]]
    spell in binary, the entry sent first (lowest index) being the most
    significant. *)
Fixpoint group_value (buffer : list Z) (n : nat) (last : Z) : Z :=
  match n with
  | O => 0
  | S n' => A_bit (rd buffer last) + 2 * group_value buffer n' (last - 1)
  end.

(** The lowest (units) BCD group of the field [start..stop]: its last four
    bits, or all of them when the field is shorter. *)
Definition units_group (buffer : list Z) (start stop : Z) : Z :=
  group_value buffer (Nat.min 4 (Z.to_nat (stop + 1 - start))) stop.

(** The bits of the field [start..stop] above its units group. *)
Definition upper_group (buffer : list Z) (start stop : Z) : Z :=
  group_value buffer (Z.to_nat (stop + 1 - start) - 4) (stop - 4).

(** A minute frame for Friday 2019-03-15 12:34, winter time: the marker at
    second 0, the A bits of year 19, month 3, day 15, weekday 5, hour 12
    and minute 34 in seconds 17 to 51, the A bits of seconds 53 to 58 set,
    and the B bit of second 56 set. *)
Definition frame_2019_03_15_12_34 : list Z :=
  [4; 0; 0; 0; 0; 0; 0; 0; 0; 0; 0; 0; 0; 0; 0; 0; 0;
   0; 0; 0; 1; 1; 0; 0; 1;
   0; 0; 0; 1; 1;
   0; 1; 0; 1; 0; 1;
   1; 0; 1;
   0; 1; 0; 0; 1; 0;
   0; 1; 1; 0; 1; 0; 0;
   0; 1; 1; 1; 3; 1; 1; 0; 0].

(** A buffer of 61 zero entries. *)
Definition frame_zero : list Z := repeat 0 61.

(** The frame of 12:34 with the year field replaced by tens digit 15 and
    units digit 0 (seconds 17 to 24 = 1111 0000). *)
Definition frame_year_tens_15 : list Z :=
  [4; 0; 0; 0; 0; 0; 0; 0; 0; 0; 0; 0; 0; 0; 0; 0; 0;
   1; 1; 1; 1; 0; 0; 0; 0;
   0; 0; 0; 1; 1;
   0; 1; 0; 1; 0; 1;
   1; 0; 1;
   0; 1; 0; 0; 1; 0;
   0; 1; 1; 0; 1; 0; 0;
   0; 1; 1; 1; 3; 1; 1; 0; 0].

(** Friday 2019-03-15 at 12:[minute], winter time. *)
Definition friday_noon (minute : Z) : tm :=
  mk_tm 0 minute 12 15 3 2019 5 0 0.

(** The frame of Friday 2019-03-15 13:00, winter time (hour 13 and
    minute 00 in seconds 39 to 51). *)
Definition frame_2019_03_15_13_00 : list Z :=
  [4; 0; 0; 0; 0; 0; 0; 0; 0; 0; 0; 0; 0; 0; 0; 0; 0;
   0; 0; 0; 1; 1; 0; 0; 1;
   0; 0; 0; 1; 1;
   0; 1; 0; 1; 0; 1;
   1; 0; 1;
   0; 1; 0; 0; 1; 1;
   0; 0; 0; 0; 0; 0; 0;
   0; 1; 1; 1; 3; 1; 1; 0; 0].

(** A stream freshly opened on the bytes [content]. *)
Definition open_file (content : list Z) : Input.FILE :=
  Input.mk_FILE content false [].

(** The state of [input.c] once [set_mode_file] has opened the log file:
    every other variable still has its zero initial value. *)
Definition file_mode_start (content : list Z) : Input.input_state :=
  Input.mk_input_state 0 0 (repeat 0 61) (Some (open_file content))
    (Input.mk_hardware 0 false 0 0)
    (Input.mk_bitinfo None 0 0 0 0 0 0 false false)
    0 0 Input.gb_res_zero 0 false [].

(** The states that file mode can be in: whatever sequence of calls of
    [get_bit_file], [next_bit] and [reset_acc_minlen] follows the opening
    of a log file. *)
Inductive file_reachable : Input.input_state -> Prop :=
| reach_start content : file_reachable (file_mode_start content)
| reach_get_bit_file s :
    file_reachable s -> file_reachable (Input.get_bit_file s)
| reach_next_bit s :
    file_reachable s -> file_reachable (Input.next_bit s)
| reach_reset_acc_minlen s :
    file_reachable s -> file_reachable (Input.reset_acc_minlen s).

(** The character [get_bit_file] is going to consume in state [s]. *)
Definition next_char (s : Input.input_state) : Z :=
  match Input.logfile s with
  | Some f => fst (Input.skip_invalid f)
  | None => Input.EOF
  end.





(** The log ["4a60000\n01"]: a minute marker, the record of the minute
    length and two bits. *)
Definition log_marker : list Z :=
  [52; 97; 54; 48; 48; 48; 48; 10; 48; 49].


(** The filter constant [a] that [collect_pulses] computes for
    [hw.freq = 1000]. *)
Definition filter_a_1000 : Z := 13767296.

(** Live mode at 1000 samples per second with the estimated rate at 600
    samples per second ([realfreq] = 600 * 10^6, inside the guarded
    range), no log file, and [future] the samples the line is going to
    deliver. *)
Definition live_state_600 (future : list Z) : Input.input_state :=
  Input.mk_input_state 0 0 (repeat 0 61) None
    (Input.mk_hardware 17 true 1000 0)
    (Input.mk_bitinfo (Some (repeat 0 500)) 0 (-1) (-1) 600000000
                      500000000 100000000 false false)
    0 (-1) Input.gb_res_zero 0 false future.

(** A second that lasts 930 samples: the line is low for 880 samples and
    then high. *)
Definition long_second : list Z := repeat 0 880 ++ repeat 1 120.

(** The line held high for 1000 samples. *)
Definition line_high : list Z := repeat 1 1000.

(** The marker that [set_new_state] keeps: a pending too-long or late
    marker, and no other. *)
Definition pending_marker (m : Input.eGB_marker) : Input.eGB_marker :=
  match m with
  | Input.emark_toolong => Input.emark_toolong
  | Input.emark_late => Input.emark_late
  | _ => Input.emark_none
  end.

(** The bit value, hardware status, I/O error, skip flag and marker that
    belong to the character [c] of a log, for a reader whose marker was
    [m0] before. *)
Definition char_result (m0 : Input.eGB_marker) (c : Z)
    (g : Input.GB_result) : Prop :=
  Input.bitval g =
    (if c =? 48 then Input.ebv_00 else if c =? 49 then Input.ebv_10
     else if c =? 50 then Input.ebv_01 else if c =? 51 then Input.ebv_11
     else if c =? 52 then Input.ebv_bom else Input.ebv_none) /\
  Input.hwstat g =
    (if c =? 120 then Input.ehw_transmit
     else if c =? 114 then Input.ehw_receive
     else if c =? 35 then Input.ehw_random else Input.ehw_ok) /\
  Input.bad_io g = (c =? 42) /\
  Input.skip g = (c =? 97) /\
  Input.marker g =
    (if c =? 52
     then match pending_marker m0 with
          | Input.emark_none => Input.emark_minute
          | Input.emark_toolong => Input.emark_late
          | m => m
          end
     else pending_marker m0).

(** The minute lengths given to [display_minute] in a trace, and the
    number of calls of [display_time]; [check_handle_new_minute] calls the
    one before and the other after [decode_time]. *)
Definition minutes_shown (tr : list Mainloop.event) : list Z :=
  flat_map (fun e => match e with
                     | Mainloop.display_minute n => [n]
                     | _ => []
                     end) tr.

Definition decodes (tr : list Mainloop.event) : Z :=
  Z.of_nat
    (length (List.filter (fun e => match e with
                                   | Mainloop.display_time _ _ => true
                                   | _ => false
                                   end) tr)).

(** The trace of [m] is the one of [m0] and more, with the minute lengths
    [shown] and [n] calls of [decode_time] in the new part. *)
Definition trace_grew (m0 m : Mainloop.main_state) (shown : list Z) (n : Z)
  : Prop :=
  exists tr,
    Mainloop.trace m = Mainloop.trace m0 ++ tr /\
    minutes_shown tr = shown /\ decodes tr = n.

(** The test of the first [break] of the main loop: it is made only when
    there is a [process_input] hook. *)
Definition left_early
    (process_input : option (Mainloop.ML_result -> Z -> Mainloop.ML_result))
    (bit : Input.GB_result) (m : Mainloop.main_state) : bool :=
  match process_input with
  | Some f =>
      Input.done bit ||
      Mainloop.quit (f (Mainloop.mlr m) (Mainloop.bitpos m))
  | None => false
  end.

(** What an iteration of the main loop that is left at the first
    [break] has done: nothing but to read a bit. *)
Definition iteration_left (m : Mainloop.main_state)
    (s1 : Input.input_state) (r : bool * Mainloop.main_state) : Prop :=
  fst r = true /\
  Mainloop.input (snd r) = s1 /\
  Mainloop.trace (snd r) = Mainloop.trace m /\
  Mainloop.init_min (snd r) = Mainloop.init_min m /\
  Mainloop.was_toolong (snd r) = false /\
  Input.done (Input.gb_res s1) || Mainloop.quit (Mainloop.mlr (snd r)) = true.

(** What an iteration of the main loop that gets past the first [break]
    has done, for the marker [is_minute] and the state [s2] of [input.c]
    that [next_bit] left: the minute is decoded when there is a marker,
    with the length -1 after a minute that was too long and the previous
    bit position otherwise; the loop is left when the reader is done or
    a hook asked to quit. *)
Definition iteration_done (m : Mainloop.main_state) (is_minute : bool)
    (s2 : Input.input_state) (r : bool * Mainloop.main_state) : Prop :=
  Mainloop.was_toolong (snd r) = false /\
  fst r = Input.done (Input.gb_res s2) || Mainloop.quit (Mainloop.mlr (snd r)) /\
  Mainloop.input (snd r) =
    (if is_minute then Input.reset_acc_minlen s2 else s2) /\
  Mainloop.init_min (snd r) =
    (if is_minute && (Mainloop.init_min m >? 0)
     then Mainloop.init_min m - 1 else Mainloop.init_min m) /\
  trace_grew m (snd r)
    (if is_minute
     then [if Mainloop.minlen m =? -1 then -1 else Mainloop.old_bitpos m]
     else [])
    (if is_minute then 1 else 0).

(** The two of them. *)
Definition iteration_summary
    (process_input : option (Mainloop.ML_result -> Z -> Mainloop.ML_result))
    (m : Mainloop.main_state) (s1 : Input.input_state)
    (r : bool * Mainloop.main_state) : Prop :=
  if left_early process_input (Input.gb_res s1) m
  then iteration_left m s1 r
  else
    iteration_done m
      (Input.marker_eqb (Input.marker (Input.gb_res (Input.next_bit s1)))
         Input.emark_minute)
      (Input.next_bit s1) r.

(** A value of the GPIO line as [get_pulse] returns it: low, high, or 2
    for a failed read. *)
Definition pulse_value (p : Z) : Prop := p = 0 \/ p = 1 \/ p = 2.

(** The filter state of [collect_pulses] is in range: the filter value
    between 0 and 10^9, the Schmitt trigger 0 or 1, and the line delivers
    pulse values only. *)
Definition filter_in_range (r : Input.pulse_run) : Prop :=
  0 <= Input.pr_y r <= 1000000000 /\
  (Input.pr_stv r = 0 \/ Input.pr_stv r = 1) /\
  Forall pulse_value (Input.gpio (Input.pr_state r)).

(** The falling edge was seen at or after sample [start]: the trigger is
    still high, or [bit.tlow] is a sample of this call. *)
Definition falling_edge_seen (start : Z) (r : Input.pulse_run) : Prop :=
  Input.pr_stv r = 1 \/
  start <= Input.tlow (Input.bit (Input.pr_state r))
        <= Input.t (Input.bit (Input.pr_state r)).

(** The estimated sample rate is inside the range the frequency guard of
    [collect_pulses] allows. *)
Definition realfreq_in_range (s : Input.input_state) : Prop :=
  Input.freq (Input.hw s) * 500000 < Input.realfreq (Input.bit s)
    <= Input.freq (Input.hw s) * 1000000.

(** How the sampling loop of [collect_pulses] can have ended after a run
    from [r] to [r'] with [n] iterations allowed: by its test, all of
    [hw.freq] samples read; by a failed read; at a rising edge, the start
    of a new second; or not yet, [n] samples on. *)
Definition loop_ended (n : nat) (r r' : Input.pulse_run) : Prop :=
  Input.freq (Input.hw (Input.pr_state r))
    <= Input.t (Input.bit (Input.pr_state r')) \/
  Input.bad_io (Input.gb_res (Input.pr_state r')) = true \/
  (Input.pr_stv r' = 0 /\ 500000000 < Input.pr_y r' /\
   Input.pr_init_bit r' =
     (if Input.pr_init_bit r =? 2 then 1 else Input.pr_init_bit r)) \/
  Input.t (Input.bit (Input.pr_state r')) =
    Input.t (Input.bit (Input.pr_state r)) + Z.of_nat n.


(** A field status that is no parity and no BCD error. *)
Definition ok_or_jump (s : eDT_tval) : Prop := s = eval_ok \/ s = eval_jump.

(** * Properties of [decode_time.c] *)

Section BitFields.

Import DecodeTime.

Lemma A_bit_land (x : Z) : A_bit x = Z.land x 1.
Proof.
  unfold A_bit. change 1 with (Z.ones 1) at 1 3.
  rewrite Z.land_ones by lia. change (2 ^ 1) with 2.
  pose proof (Z.mod_pos_bound x 2 ltac:(lia)).
  destruct (Z.eqb_spec (x mod 2) 0); lia.
Qed.

Lemma A_bit_odd (x : Z) : A_bit x = b2z (Z.odd x).
Proof.
  rewrite A_bit_land. change 1 with (Z.ones 1).
  rewrite Z.land_ones by lia. change (2 ^ 1) with 2.
  rewrite Zmod_odd. unfold b2z. reflexivity.
Qed.

Lemma B_bit_testbit (x : Z) : B_bit x = b2z (Z.testbit x 1).
Proof.
  unfold B_bit.
  assert (H : Z.land x 2 = if Z.testbit x 1 then 2 else 0).
  { apply Z.bits_inj'. intros n Hn. rewrite Z.land_spec.
    destruct (Z.eq_dec n 1) as [-> | Hne].
    - destruct (Z.testbit x 1); reflexivity.
    - replace (Z.testbit 2 n) with false.
      + rewrite andb_false_r.
        destruct (Z.testbit x 1); [| now rewrite Z.bits_0].
        change 2 with (2 ^ 1). symmetry. apply Z.pow2_bits_false. lia.
      + change 2 with (2 ^ 1). symmetry. apply Z.pow2_bits_false. lia. }
  rewrite H. destruct (Z.testbit x 1); reflexivity.
Qed.

Lemma odd_b2z (b : bool) : Z.odd (b2z b) = b.
Proof. destruct b; reflexivity. Qed.

Lemma land_one_odd (x : Z) : (Z.land x 1 =? 1) = Z.odd x.
Proof.
  rewrite <- A_bit_land, A_bit_odd. destruct (Z.odd x); reflexivity.
Qed.

(** The loop of [getpar] adds the number of set A bits to [par]. *)
Lemma getpar_loop_count (buffer : list Z) (n : nat) :
  forall i par,
    getpar_loop buffer n i par =
    par + Z.of_nat
            (length (List.filter (fun i => A_bit (rd buffer i) =? 1)
                       (map (fun k => i + Z.of_nat k) (seq 0 n)))).
Proof.
  induction n as [| n IH]; intros i par.
  - simpl. lia.
  - cbn [getpar_loop]. rewrite IH.
    rewrite <- cons_seq, <- seq_shift, map_cons, map_map.
    cbn [List.filter]. replace (i + Z.of_nat 0) with i by lia.
    rewrite (map_ext (fun k => i + Z.of_nat (S k))
                     (fun k => i + 1 + Z.of_nat k)) by (intros; lia).
    rewrite <- A_bit_land.
    destruct (Z.eqb_spec (A_bit (rd buffer i)) 1) as [E | E].
    + rewrite E. cbn [length]. lia.
    + assert (A_bit (rd buffer i) = 0)
        by (unfold A_bit in *; destruct (Z.land (rd buffer i) 1 =? 0); lia).
      lia.
Qed.

(** C1 (as the code has it): [getpar] is an odd-parity check.  For every
    buffer, data bits [start..stop] and parity position, it returns true
    exactly when the number of set A bits among the data bits plus the B
    bit of the parity position is odd. *)
Theorem getpar_odd_parity (buffer : list Z) (start stop parity : Z) :
  getpar buffer start stop parity =
  Z.odd (count_A buffer start stop + B_bit (rd buffer parity)).
Proof.
  unfold getpar, count_A, indices.
  rewrite land_one_odd, getpar_loop_count, Z.add_0_l.
  rewrite !Z.odd_add. f_equal.
  rewrite B_bit_testbit, odd_b2z. symmetry. apply Z.testbit_odd.
Qed.

(** C1, refuted as stated: on the all-zero buffer the year field has no
    set A bit and a clear B bit, an even count, and [getpar] returns
    false. *)
Lemma getpar_even_parity_fails :
  ~ (getpar frame_zero 17 24 54 = true <->
     Z.even (count_A frame_zero 17 24 + B_bit (rd frame_zero 54)) = true).
Proof.
  vm_compute. intros [_ H]. specialize (H eq_refl). discriminate H.
Qed.

(** Once [mul] is past 8 it never equals 16 again, and the loop of
    [getbcd] adds [mul] times the binary value of the remaining bits. *)
Lemma getbcd_loop_upper (buffer : list Z) (n : nat) :
  forall i mul val,
    8 < mul ->
    getbcd_loop buffer n i mul val = val + mul * group_value buffer n i.
Proof.
  induction n as [| n IH]; intros i mul val Hmul.
  - simpl. lia.
  - cbn [getbcd_loop group_value].
    destruct (Z.eqb_spec (mul * 2) 16) as [E | _]; [lia |].
    rewrite IH by lia. rewrite A_bit_land. ring.
Qed.

(** Evaluates the doubling of [mul] in an unrolled [getbcd_loop]. *)
Ltac fold_muls :=
  change (1 * 2) with 2; change (2 * 2) with 4; change (4 * 2) with 8;
  change (8 * 2) with 16;
  change (2 =? 16) with false; change (4 =? 16) with false;
  change (8 =? 16) with false; change (16 =? 16) with true;
  cbv iota.

Lemma A_bit_range (x : Z) : 0 <= A_bit x <= 1.
Proof. unfold A_bit. destruct (Z.land x 1 =? 0); lia. Qed.

(** C4 (as the code has it): [getbcd] tests only the lowest 4-bit group.
    It returns the sentinel 100 when the units group of the field is
    greater than 9; otherwise it returns the units plus ten times the
    binary value of the bits above them, whatever that value is, so that
    a tens group greater than 9 gives a result of 100 or more but not the
    sentinel in general. *)
Theorem getbcd_units_sentinel (buffer : list Z) (start stop : Z) :
  getbcd buffer start stop =
  if units_group buffer start stop >? 9 then 100
  else units_group buffer start stop + 10 * upper_group buffer start stop.
Proof.
  unfold getbcd, units_group, upper_group.
  generalize (Z.to_nat (stop + 1 - start)) as n. intros n.
  destruct n as [| [| [| [| n]]]].
  - reflexivity.
  - cbn [getbcd_loop group_value Nat.min Nat.sub]. fold_muls.
    rewrite <- A_bit_land. pose proof (A_bit_range (rd buffer stop)).
    destruct (Z.gtb_spec (A_bit (rd buffer stop) + 2 * 0) 9); lia.
  - cbn [getbcd_loop group_value Nat.min Nat.sub]. fold_muls.
    rewrite <- !A_bit_land.
    pose proof (A_bit_range (rd buffer stop)).
    pose proof (A_bit_range (rd buffer (stop - 1))).
    match goal with |- context [?x >? 9] => destruct (Z.gtb_spec x 9) end; lia.
  - cbn [getbcd_loop group_value Nat.min Nat.sub]. fold_muls.
    rewrite <- !A_bit_land.
    pose proof (A_bit_range (rd buffer stop)).
    pose proof (A_bit_range (rd buffer (stop - 1))).
    pose proof (A_bit_range (rd buffer (stop - 1 - 1))).
    match goal with |- context [?x >? 9] => destruct (Z.gtb_spec x 9) end; lia.
  - change (Nat.min 4 (S (S (S (S n))))) with 4%nat.
    change (S (S (S (S n))) - 4)%nat with (n - 0)%nat.
    rewrite Nat.sub_0_r.
    cbn [getbcd_loop group_value]. fold_muls.
    rewrite <- !A_bit_land.
    set (u := 0 + 1 * A_bit (rd buffer stop) +
              2 * A_bit (rd buffer (stop - 1)) +
              4 * A_bit (rd buffer (stop - 1 - 1)) +
              8 * A_bit (rd buffer (stop - 1 - 1 - 1))).
    match goal with
    | |- context [if ?x >? 9 then 100 else ?y + _] =>
        replace x with u by (unfold u; ring);
        replace y with u by (unfold u; ring)
    end.
    destruct (u >? 9); [reflexivity |].
    rewrite getbcd_loop_upper by lia.
    replace (stop - 1 - 1 - 1 - 1) with (stop - 4) by lia. reflexivity.
Qed.

(** C4, refuted as stated: a year field with tens group 15 and units 0
    makes [getbcd] return 150, not the sentinel. *)
Lemma getbcd_tens_group_not_sentinel :
  upper_group frame_year_tens_15 17 24 > 9 /\
  getbcd frame_year_tens_15 17 24 <> 100.
Proof. vm_compute. split; [reflexivity | discriminate]. Qed.

End BitFields.

Section DecodeProofs.

Import DecodeTime.

Context (cal : Calendar).

Ltac stage_cases :=
  repeat match goal with
         | H : context [if ?c then _ else _] |- _ => destruct c eqn:?
         end.

Ltac zify_bools :=
  repeat match goal with
         | H : (_ =? _) = true |- _ => apply Z.eqb_eq in H
         | H : (_ =? _) = false |- _ => apply Z.eqb_neq in H
         | H : (_ >? _) = true |- _ => apply Z.gtb_gt in H
         | H : (_ >? _) = false |- _ =>
             rewrite Z.gtb_ltb in H; apply Z.ltb_ge in H
         | H : (_ <=? _) = true |- _ => apply Z.leb_le in H
         | H : (_ <=? _) = false |- _ => apply Z.leb_gt in H
         | H : (_ <? _) = true |- _ => apply Z.ltb_lt in H
         | H : (_ <? _) = false |- _ => apply Z.ltb_ge in H
         | H : negb _ = true |- _ => apply negb_true_iff in H
         | H : negb _ = false |- _ => apply negb_false_iff in H
         | H : _ && _ = true |- _ => apply andb_true_iff in H; destruct H
         | H : _ || _ = false |- _ => apply orb_false_iff in H; destruct H
         end.

(** What each block of [calculate_date_time] leaves alone, what its
    parity flag stands for, and when it marks a jump. *)
Lemma date_year_spec r im ef inc buffer nt r' nt' p :
  date_year r im ef inc buffer nt = (r', nt', p) ->
  minute_length r' = minute_length r /\
  leapsecond_status r' = leapsecond_status r /\
  tm_isdst nt' = tm_isdst nt /\
  (p = true -> year_status r' = eval_ok) /\
  (may_assign im ef inc p = true -> tm_year nt' = getbcd buffer 17 24).
Proof.
  unfold date_year. intros E.
  stage_cases; inversion E; subst; cbn in *; zify_bools.
  all: repeat split; intros; try reflexivity; try discriminate;
    try congruence; auto; try lia.
Qed.

Lemma date_month_mday_spec r im ef inc buffer time nt r' nt' p :
  date_month_mday r im ef inc buffer time nt = (r', nt', p) ->
  (minute_length r' = minute_length r /\
   leapsecond_status r' = leapsecond_status r /\
   year_status r' = year_status r /\
   tm_isdst nt' = tm_isdst nt /\
   tm_year nt' = tm_year nt) /\
  (p = true -> ok_or_jump (month_status r') /\ ok_or_jump (mday_status r')) /\
  (may_assign im ef inc p = true ->
   tm_mon nt' = getbcd buffer 25 29 /\ tm_mday nt' = getbcd buffer 30 35) /\
  (im = 0 -> may_assign im ef inc p = true ->
   (getbcd buffer 25 29 <> tm_mon time -> month_status r' = eval_jump) /\
   (getbcd buffer 30 35 <> tm_mday time -> mday_status r' = eval_jump)) /\
  (p = true ->
   getpar buffer 25 35 55 = true /\
   getbcd buffer 25 29 <> 0 /\ getbcd buffer 25 29 <= 12 /\
   getbcd buffer 30 35 <> 0 /\ getbcd buffer 30 35 <= 31) /\
  (getpar buffer 25 35 55 = true ->
   getbcd buffer 25 29 <> 0 -> getbcd buffer 25 29 <= 12 ->
   getbcd buffer 30 35 <> 0 -> getbcd buffer 30 35 <= 31 ->
   p = true).
Proof.
  unfold date_month_mday, ok_or_jump. intros E.
  stage_cases; inversion E; subst; cbn in *; zify_bools.
  all: repeat split; intros; try reflexivity; try discriminate;
    try congruence; auto; try lia.
Qed.

Lemma date_wday_spec r im ef inc buffer time nt r' nt' p :
  date_wday r im ef inc buffer time nt = (r', nt', p) ->
  (minute_length r' = minute_length r /\
   leapsecond_status r' = leapsecond_status r /\
   year_status r' = year_status r /\
   month_status r' = month_status r /\
   mday_status r' = mday_status r /\
   tm_isdst nt' = tm_isdst nt /\
   tm_year nt' = tm_year nt /\
   tm_mon nt' = tm_mon nt /\
   tm_mday nt' = tm_mday nt) /\
  (p = true -> ok_or_jump (wday_status r')) /\
  (may_assign im ef inc p = true -> tm_wday nt' = getbcd buffer 36 38) /\
  (im = 0 -> may_assign im ef inc p = true ->
   getbcd buffer 36 38 <> tm_wday time -> wday_status r' = eval_jump) /\
  (p = true ->
   getpar buffer 36 38 56 = true /\ getbcd buffer 36 38 <> 7) /\
  (getpar buffer 36 38 56 = true -> getbcd buffer 36 38 <> 7 -> p = true).
Proof.
  unfold date_wday, ok_or_jump. intros E.
  stage_cases; inversion E; subst; cbn in *; zify_bools.
  all: repeat split; intros; try reflexivity; try discriminate;
    try congruence; auto; try lia.
Qed.

Lemma date_century_spec r im time nt p1 p2 p3 r' nt' p1' p2' p3' :
  date_century cal r im time nt p1 p2 p3 = (r', nt', p1', p2', p3') ->
  (minute_length r' = minute_length r /\
   leapsecond_status r' = leapsecond_status r /\
   month_status r' = month_status r /\
   wday_status r' = wday_status r /\
   tm_isdst nt' = tm_isdst nt /\
   tm_mon nt' = tm_mon nt /\
   tm_mday nt' = tm_mday nt /\
   tm_wday nt' = tm_wday nt) /\
  (p1' = true ->
   p1 = true /\
   (year_status r' = year_status r \/ year_status r' = eval_jump) /\
   tm_year nt' =
     tm_year nt + (base_year cal + 100 * century_offset cal nt) /\
   (im = 0 -> tm_year time <> tm_year nt' -> year_status r' = eval_jump)) /\
  (p2' = true -> p2 = true /\ mday_status r' = mday_status r) /\
  (p3' = true -> p3 = true) /\
  (im = 0 -> century_offset cal nt <> -1 ->
   tm_year time <> base_year cal + 100 * century_offset cal nt + tm_year nt ->
   year_status r' = eval_jump) /\
  (century_offset cal nt <> -1 ->
   tm_mday nt <= lastday cal
     (set_tm_year nt
        (tm_year nt + (base_year cal + 100 * century_offset cal nt))) ->
   p1' = p1 /\ p2' = p2 /\ p3' = p3 /\ mday_status r' = mday_status r).
Proof.
  unfold date_century. intros E.
  stage_cases; inversion E; subst; cbn in *; zify_bools.
  all: repeat split; intros; try reflexivity; try discriminate;
    try congruence; auto; try lia.
Qed.

Lemma date_hour_minute_spec r im ef inc buffer time nt r' nt' p :
  date_hour_minute r im ef inc buffer time nt = (r', nt', p) ->
  (minute_length r' = minute_length r /\
   leapsecond_status r' = leapsecond_status r /\
   year_status r' = year_status r /\
   month_status r' = month_status r /\
   mday_status r' = mday_status r /\
   wday_status r' = wday_status r /\
   tm_isdst nt' = tm_isdst nt /\
   tm_year nt' = tm_year nt /\
   tm_mon nt' = tm_mon nt /\
   tm_mday nt' = tm_mday nt /\
   tm_wday nt' = tm_wday nt) /\
  (p = true -> ok_or_jump (hour_status r') /\ ok_or_jump (minute_status r')) /\
  (may_assign im ef inc p = true ->
   tm_hour nt' = getbcd buffer 39 44 /\ tm_min nt' = getbcd buffer 45 51) /\
  (im = 0 -> may_assign im ef inc p = true ->
   (getbcd buffer 39 44 <> tm_hour time -> hour_status r' = eval_jump) /\
   (getbcd buffer 45 51 <> tm_min time -> minute_status r' = eval_jump)) /\
  (p = true ->
   getpar buffer 39 51 57 = true /\
   getbcd buffer 39 44 <= 23 /\ getbcd buffer 45 51 <= 59) /\
  (getpar buffer 39 51 57 = true ->
   getbcd buffer 39 44 <= 23 -> getbcd buffer 45 51 <= 59 -> p = true).
Proof.
  unfold date_hour_minute, ok_or_jump. intros E.
  stage_cases; inversion E; subst; cbn in *; zify_bools.
  all: repeat split; intros; try reflexivity; try discriminate;
    try congruence; auto; try lia.
Qed.


Lemma date_errflags_zero ef p1 p2 p3 p4 :
  0 <= ef <= 1 ->
  Z.land (date_errflags ef p1 p2 p3 p4) 31 = 0 ->
  ef = 0 /\ p1 = true /\ p2 = true /\ p3 = true /\ p4 = true.
Proof.
  intros H. assert (ef = 0 \/ ef = 1) as [-> | ->] by lia;
    destruct p1, p2, p3, p4; vm_compute; intros; try discriminate; auto.
Qed.


(** Names the results of the five blocks of [calculate_date_time] in the
    equation [E] and brings in what is known about each. *)
Ltac open_blocks E :=
  unfold calculate_date_time in E;
  match type of E with
  | context [date_year ?a ?b ?c ?d ?e ?f] =>
      let E1 := fresh "E1" in
      destruct (date_year a b c d e f) as [[?r1 ?nt1] ?q1] eqn:E1;
      apply date_year_spec in E1
  end;
  match type of E with
  | context [date_month_mday ?a ?b ?c ?d ?e ?f ?g] =>
      let E2 := fresh "E2" in
      destruct (date_month_mday a b c d e f g) as [[?r2 ?nt2] ?q2] eqn:E2;
      apply date_month_mday_spec in E2
  end;
  match type of E with
  | context [date_wday ?a ?b ?c ?d ?e ?f ?g] =>
      let E3 := fresh "E3" in
      destruct (date_wday a b c d e f g) as [[?r3 ?nt3] ?q3] eqn:E3;
      apply date_wday_spec in E3
  end;
  match type of E with
  | context [date_century ?k ?a ?b ?c ?d ?e ?f ?g] =>
      let E4 := fresh "E4" in
      destruct (date_century k a b c d e f g)
        as [[[[?r4 ?nt4] ?q1'] ?q2'] ?q3'] eqn:E4;
      apply date_century_spec in E4
  end;
  match type of E with
  | context [date_hour_minute ?a ?b ?c ?d ?e ?f ?g] =>
      let E5 := fresh "E5" in
      destruct (date_hour_minute a b c d e f g) as [[?r5 ?nt5] ?q4] eqn:E5;
      apply date_hour_minute_spec in E5
  end;
  inversion E; subst; clear E.

Ltac split_all :=
  repeat match goal with
         | H : _ /\ _ |- _ => destruct H
         end.

(** [calculate_date_time] touches neither the minute length, nor the
    leap second status, nor the DST flag of [newtime]. *)
Lemma calculate_date_time_frame r0 im ef inc buffer time nt0 r nt ef' :
  calculate_date_time cal r0 im ef inc buffer time nt0 = (r, nt, ef') ->
  minute_length r = minute_length r0 /\
  leapsecond_status r = leapsecond_status r0 /\
  tm_isdst nt = tm_isdst nt0.
Proof.
  intros E. open_blocks E. split_all. repeat split; congruence.
Qed.

(** With the low five error flags clear, the sanity check had passed and
    no status is a parity or BCD error. *)
Lemma calculate_date_time_commit r0 im ef inc buffer time nt0 r nt ef' :
  calculate_date_time cal r0 im ef inc buffer time nt0 = (r, nt, ef') ->
  0 <= ef <= 1 ->
  Z.land ef' 31 = 0 ->
  ef = 0 /\
  ok_or_jump (minute_status r) /\ ok_or_jump (hour_status r) /\
  ok_or_jump (mday_status r) /\ ok_or_jump (wday_status r) /\
  ok_or_jump (month_status r) /\ ok_or_jump (year_status r).
Proof.
  intros E Hef Hz. open_blocks E.
  apply date_errflags_zero in Hz; [| exact Hef].
  destruct Hz as (-> & -> & -> & -> & ->).
  split_all.
  repeat match goal with
         | H : true = true -> _ |- _ => specialize (H eq_refl)
         end.
  split_all. subst.
  repeat match goal with
         | H : true = true -> _ |- _ => specialize (H eq_refl)
         end.
  split_all. unfold ok_or_jump in *.
  repeat split; try congruence.
Qed.



Lemma eDT_length_eqb_eq a b : eDT_length_eqb a b = true -> a = b.
Proof. destruct a, b; cbn; congruence. Qed.

(** Names the results of the steps of [decode_time_run]. *)
Ltac open_run :=
  unfold decode_commits, decode_time_run in *;
  match goal with
  | |- context [check_time_sanity ?a ?b ?c] =>
      destruct (check_time_sanity a b c) as [?r0 ?sane] eqn:?Es
  | H : context [check_time_sanity ?a ?b ?c] |- _ =>
      destruct (check_time_sanity a b c) as [?r0 ?sane] eqn:?Es
  end;
  match goal with
  | |- context [increase_old_time ?k ?a ?b ?c ?d ?e ?f] =>
      destruct (increase_old_time k a b c d e f)
        as [[?partial ?inc] ?ti] eqn:?Ei
  | H : context [increase_old_time ?k ?a ?b ?c ?d ?e ?f] |- _ =>
      destruct (increase_old_time k a b c d e f)
        as [[?partial ?inc] ?ti] eqn:?Ei
  end;
  match goal with
  | |- context [calculate_date_time ?k ?a ?b ?c ?d ?e ?f ?g] =>
      destruct (calculate_date_time k a b c d e f g)
        as [[?r ?nt] ?ef] eqn:?Ec
  | H : context [calculate_date_time ?k ?a ?b ?c ?d ?e ?f ?g] |- _ =>
      destruct (calculate_date_time k a b c d e f g)
        as [[?r ?nt] ?ef] eqn:?Ec
  end;
  cbn [run_state run_time_before run_increase run_newtime run_errflags
       run_time run_result] in *.

Lemma stamp_condition_true r ef :
  stamp_condition r ef = true ->
  minute_length r = emin_ok /\ Z.land ef 31 = 0.
Proof.
  unfold stamp_condition. intros H. apply andb_true_iff in H.
  destruct H as [H1 H2]. split.
  - now apply eDT_length_eqb_eq.
  - now apply Z.eqb_eq.
Qed.

(** C2 (as the code has it): when a call of [decode_time] commits, the
    minute length is [emin_ok] and each of the six field statuses is
    [eval_ok] or [eval_jump]: none is a parity or BCD error, but a jump
    does not keep the decoded time from being committed. *)
Theorem commit_statuses (st : decoder_state) (init_min minlen acc_minlen : Z)
    (buffer : list Z) (time : tm) :
  decode_commits cal st init_min minlen acc_minlen buffer time = true ->
  let r :=
    run_result
      (decode_time_run cal st init_min minlen acc_minlen buffer time) in
  minute_length r = emin_ok /\
  ok_or_jump (minute_status r) /\ ok_or_jump (hour_status r) /\
  ok_or_jump (mday_status r) /\ ok_or_jump (wday_status r) /\
  ok_or_jump (month_status r) /\ ok_or_jump (year_status r).
Proof.
  intros H. open_run. apply stamp_condition_true in H.
  destruct H as [Hlen Hz]. split; [exact Hlen |].
  eapply calculate_date_time_commit in Ec; [| | exact Hz].
  - tauto.
  - destruct sane; lia.
Qed.

(** [increase_old_time] leaves the DST flag of the time alone when
    [init_min] is 2, whatever the calendar. *)
Lemma increase_old_time_init partial ann minlen acc time :
  snd (increase_old_time cal partial ann 2 minlen acc time) = time.
Proof.
  unfold increase_old_time.
  repeat match goal with
         | |- context [let '(_, _) := ?x in _] => destruct x
         end.
  reflexivity.
Qed.

Lemma stamp_date_time_isdst r ef nt time :
  tm_isdst nt = tm_isdst time ->
  tm_isdst (stamp_date_time r ef nt time) = tm_isdst time.
Proof.
  intros H. unfold stamp_date_time.
  destruct (stamp_condition r ef); [| reflexivity].
  destruct (negb _); cbn; congruence.
Qed.

(** C10: on a call of [decode_time] with [init_min = 2] the DST flag of
    the current time is -1 when decoding starts, the candidate [newtime]
    carries -1, and so does the current time on return. *)
Theorem init_min_2_dst_unknown (st : decoder_state) (minlen acc_minlen : Z)
    (buffer : list Z) (time : tm) :
  let run := decode_time_run cal st 2 minlen acc_minlen buffer time in
  tm_isdst (run_time_before run) = -1 /\
  tm_isdst (run_newtime run) = -1 /\
  tm_isdst (run_time run) = -1.
Proof.
  cbv zeta. open_run.
  apply calculate_date_time_frame in Ec. destruct Ec as (_ & _ & Hnt).
  pose proof (increase_old_time_init (acc_minlen_partial st)
                (dst_announce r0) minlen acc_minlen
                (set_tm_isdst time (-1))) as Hi.
  change (2 =? 2) with true in *. cbv iota in *.
  rewrite Ei in Hi. cbn in Hi. subst ti. cbn in Hnt.
  repeat split.
  - exact Hnt.
  - rewrite stamp_date_time_isdst; [reflexivity | exact Hnt].
Qed.

Lemma check_time_sanity_leap r minlen buffer :
  leapsecond_status (fst (check_time_sanity r minlen buffer)) =
  leapsecond_status r.
Proof.
  unfold check_time_sanity.
  destruct ((minlen =? -1) || (minlen >? 61)); [reflexivity |].
  destruct (minlen <? 59); reflexivity.
Qed.

(** C5 (as the code has it): the call of [handle_leap_second] in
    [decode_time] is compiled out, so a call of [decode_time] returns the
    leap second status it found in [dt_res] ([els_none] from the start of
    the program on); [handle_leap_second] itself, given a time whose minute
    is 0, sets the status to [els_done], or to [els_one] when [minlen] is 61
    and [buffer[17]] is 1. *)
Theorem leap_second_status_untouched (st : decoder_state)
    (init_min minlen acc_minlen : Z) (buffer : list Z) (time : tm) :
  leapsecond_status
    (run_result
       (decode_time_run cal st init_min minlen acc_minlen buffer time)) =
  leapsecond_status (dt_res st) /\
  forall r errflags,
    leapsecond_status
      (fst (handle_leap_second r errflags minlen buffer
              (set_tm_min time 0))) =
    if (minlen =? 61) && (rd buffer 17 =? 1) then els_one else els_done.
Proof.
  split.
  - open_run. apply calculate_date_time_frame in Ec.
    destruct Ec as (_ & -> & _).
    pose proof (check_time_sanity_leap (dt_res st) minlen buffer) as H.
    rewrite Es in H. exact H.
  - intros r errflags. unfold handle_leap_second.
    change (tm_min (set_tm_min time 0) =? 0) with true. cbv iota.
    destruct (Z.eqb_spec minlen 60); destruct (Z.eqb_spec minlen 61);
      try lia; destruct (rd buffer 17 =? 1); reflexivity.
Qed.





(** ** The counter of split minutes, the statics and the commit *)

(** [check_time_sanity] passes exactly the minutes of 59 to 61 bits that
    begin with the marker and end with a zero; it sets the DST status to
    [eDST_ok] and leaves the field statuses, bit 52 and the DST
    announcement alone. *)
Lemma check_time_sanity_spec r minlen buffer r0 sane :
  check_time_sanity r minlen buffer = (r0, sane) ->
  (sane = true <->
   59 <= minlen <= 61 /\ rd buffer 0 = 4 /\ rd buffer 59 = 0) /\
  (minute_length r0 = emin_ok <-> 59 <= minlen <= 61) /\
  dst_status r0 = eDST_ok /\
  dst_announce r0 = dst_announce r /\
  bit52_ok r0 = bit52_ok r.
Proof.
  unfold check_time_sanity. intros E.
  destruct (Z.eqb_spec minlen (-1)); destruct (Z.gtb_spec minlen 61);
    destruct (Z.ltb_spec minlen 59);
    destruct (Z.eqb_spec (rd buffer 0) 4);
    destruct (Z.eqb_spec (rd buffer 59) 0);
    cbn in E; inversion E; subst; cbn.
  all: repeat split; intros; try reflexivity; try discriminate; try lia;
    try tauto.
  all: try (exfalso; lia).
Qed.

(** The guard of the assignment blocks fails on a split minute
    ([increase == 0]) of a decoder past its first minute, and whenever an
    error flag is set. *)
Lemma may_assign_false im ef inc p :
  (im <> 2 /\ inc = 0) \/ ef <> 0 -> may_assign im ef inc p = false.
Proof.
  unfold may_assign. intros [[H1 H2] | H].
  - apply Z.eqb_neq in H1. rewrite H1. subst inc. reflexivity.
  - apply Z.eqb_neq in H. rewrite H. apply andb_false_r.
Qed.

(** A parity flag that is false keeps the guard from holding. *)
Ltac no_assign_without_parity :=
  match goal with
  | H : may_assign _ _ _ ?p = true, Hp : ?p = false |- _ =>
      rewrite Hp in H; unfold may_assign in H;
      rewrite andb_false_r in H; cbn in H; discriminate
  end.

(** What the blocks of [calculate_date_time] do besides: they leave the
    DST part of [dt_res] and bit 52 alone, mark no jump unless [init_min]
    is 0, assign nothing to [newtime] unless the guard holds, and set
    status [eval_parity] when the parity check fails. *)
Lemma date_year_more r im ef inc buffer nt r' nt' p :
  date_year r im ef inc buffer nt = (r', nt', p) ->
  (dst_status r' = dst_status r /\ dst_announce r' = dst_announce r /\
   bit52_ok r' = bit52_ok r) /\
  year_status r' <> eval_jump /\
  (may_assign im ef inc p = false -> nt' = nt) /\
  (tm_min nt' = tm_min nt /\ tm_hour nt' = tm_hour nt /\
   tm_mday nt' = tm_mday nt /\ tm_mon nt' = tm_mon nt /\
   tm_wday nt' = tm_wday nt) /\
  (p = true -> getpar buffer 17 24 54 = true /\ getbcd buffer 17 24 <= 99) /\
  (getpar buffer 17 24 54 = false ->
   p = false /\ year_status r' = eval_parity).
Proof.
  unfold date_year. intros E.
  stage_cases; inversion E; subst; cbn in *; zify_bools.
  all: repeat split; intros; try reflexivity; try discriminate;
    try congruence; auto; try lia.
  all: no_assign_without_parity.
Qed.

Lemma date_month_mday_more r im ef inc buffer time nt r' nt' p :
  date_month_mday r im ef inc buffer time nt = (r', nt', p) ->
  (dst_status r' = dst_status r /\ dst_announce r' = dst_announce r /\
   bit52_ok r' = bit52_ok r) /\
  (im <> 0 -> month_status r' <> eval_jump /\ mday_status r' <> eval_jump) /\
  (may_assign im ef inc p = false -> nt' = nt) /\
  (tm_min nt' = tm_min nt /\ tm_hour nt' = tm_hour nt /\
   tm_wday nt' = tm_wday nt) /\
  (getpar buffer 25 35 55 = false ->
   p = false /\ month_status r' = eval_parity /\
   mday_status r' = eval_parity).
Proof.
  unfold date_month_mday. intros E.
  stage_cases; inversion E; subst; cbn in *; zify_bools.
  all: repeat split; intros; try reflexivity; try discriminate;
    try congruence; auto; try lia.
  all: no_assign_without_parity.
Qed.

Lemma date_wday_more r im ef inc buffer time nt r' nt' p :
  date_wday r im ef inc buffer time nt = (r', nt', p) ->
  (dst_status r' = dst_status r /\ dst_announce r' = dst_announce r /\
   bit52_ok r' = bit52_ok r) /\
  (im <> 0 -> wday_status r' <> eval_jump) /\
  (may_assign im ef inc p = false -> nt' = nt) /\
  (tm_min nt' = tm_min nt /\ tm_hour nt' = tm_hour nt) /\
  (getpar buffer 36 38 56 = false ->
   p = false /\ wday_status r' = eval_parity).
Proof.
  unfold date_wday. intros E.
  stage_cases; inversion E; subst; cbn in *; zify_bools.
  all: repeat split; intros; try reflexivity; try discriminate;
    try congruence; auto; try lia.
  all: no_assign_without_parity.
Qed.

Lemma date_century_more r im time nt p1 p2 p3 r' nt' p1' p2' p3' :
  date_century cal r im time nt p1 p2 p3 = (r', nt', p1', p2', p3') ->
  (dst_status r' = dst_status r /\ dst_announce r' = dst_announce r /\
   bit52_ok r' = bit52_ok r) /\
  (im <> 0 -> year_status r <> eval_jump -> year_status r' <> eval_jump) /\
  (mday_status r <> eval_jump -> mday_status r' <> eval_jump) /\
  (tm_min nt' = tm_min nt /\ tm_hour nt' = tm_hour nt) /\
  (year_status r = eval_parity ->
   year_status r' = eval_parity \/ year_status r' = eval_bcd \/
   year_status r' = eval_jump) /\
  (mday_status r = eval_parity ->
   mday_status r' = eval_parity \/ mday_status r' = eval_bcd) /\
  (p1 = false -> p1' = false) /\
  (p2 = false -> p2' = false) /\
  (p3 = false -> p3' = false).
Proof.
  unfold date_century. intros E.
  stage_cases; inversion E; subst; cbn in *; zify_bools.
  all: repeat split; intros; try reflexivity; try discriminate;
    try congruence; auto; try lia.
  all: no_assign_without_parity.
Qed.

Lemma date_hour_minute_more r im ef inc buffer time nt r' nt' p :
  date_hour_minute r im ef inc buffer time nt = (r', nt', p) ->
  (dst_status r' = dst_status r /\ dst_announce r' = dst_announce r /\
   bit52_ok r' = bit52_ok r) /\
  (im <> 0 -> hour_status r' <> eval_jump /\ minute_status r' <> eval_jump) /\
  (may_assign im ef inc p = false -> nt' = nt) /\
  (getpar buffer 39 51 57 = false ->
   p = false /\ hour_status r' = eval_parity /\
   minute_status r' = eval_parity).
Proof.
  unfold date_hour_minute. intros E.
  stage_cases; inversion E; subst; cbn in *; zify_bools.
  all: repeat split; intros; try reflexivity; try discriminate;
    try congruence; auto; try lia.
  all: no_assign_without_parity.
Qed.

(** As [open_blocks], with the facts of the lemmas above as well. *)
Ltac open_blocks_more E :=
  unfold calculate_date_time in E;
  match type of E with
  | context [date_year ?a ?b ?c ?d ?e ?f] =>
      let E1 := fresh "E1" in
      destruct (date_year a b c d e f) as [[?r1 ?nt1] ?q1] eqn:E1;
      pose proof (date_year_more _ _ _ _ _ _ _ _ _ E1);
      apply date_year_spec in E1
  end;
  match type of E with
  | context [date_month_mday ?a ?b ?c ?d ?e ?f ?g] =>
      let E2 := fresh "E2" in
      destruct (date_month_mday a b c d e f g) as [[?r2 ?nt2] ?q2] eqn:E2;
      pose proof (date_month_mday_more _ _ _ _ _ _ _ _ _ _ E2);
      apply date_month_mday_spec in E2
  end;
  match type of E with
  | context [date_wday ?a ?b ?c ?d ?e ?f ?g] =>
      let E3 := fresh "E3" in
      destruct (date_wday a b c d e f g) as [[?r3 ?nt3] ?q3] eqn:E3;
      pose proof (date_wday_more _ _ _ _ _ _ _ _ _ _ E3);
      apply date_wday_spec in E3
  end;
  match type of E with
  | context [date_century ?k ?a ?b ?c ?d ?e ?f ?g] =>
      let E4 := fresh "E4" in
      destruct (date_century k a b c d e f g)
        as [[[[?r4 ?nt4] ?q1'] ?q2'] ?q3'] eqn:E4;
      pose proof (date_century_more _ _ _ _ _ _ _ _ _ _ _ _ E4);
      apply date_century_spec in E4
  end;
  match type of E with
  | context [date_hour_minute ?a ?b ?c ?d ?e ?f ?g] =>
      let E5 := fresh "E5" in
      destruct (date_hour_minute a b c d e f g) as [[?r5 ?nt5] ?q4] eqn:E5;
      pose proof (date_hour_minute_more _ _ _ _ _ _ _ _ _ _ E5);
      apply date_hour_minute_spec in E5
  end;
  inversion E; subst; clear E.

(** [calculate_date_time] leaves the DST status, the DST announcement and
    bit 52 of [dt_res] alone. *)
Lemma calculate_date_time_dst r0 im ef inc buffer time nt0 r nt ef' :
  calculate_date_time cal r0 im ef inc buffer time nt0 = (r, nt, ef') ->
  dst_status r = dst_status r0 /\
  dst_announce r = dst_announce r0 /\
  bit52_ok r = bit52_ok r0.
Proof.
  intros E. open_blocks_more E. split_all. repeat split; congruence.
Qed.

(** No block marks a jump unless the decoder is settled. *)
Lemma calculate_date_time_no_jump r0 im ef inc buffer time nt0 r nt ef' :
  calculate_date_time cal r0 im ef inc buffer time nt0 = (r, nt, ef') ->
  im <> 0 ->
  minute_status r <> eval_jump /\ hour_status r <> eval_jump /\
  mday_status r <> eval_jump /\ wday_status r <> eval_jump /\
  month_status r <> eval_jump /\ year_status r <> eval_jump.
Proof.
  intros E Him. open_blocks_more E. split_all.
  repeat match goal with
         | H : im <> 0 -> _ |- _ => specialize (H Him)
         end.
  split_all.
  repeat split; try congruence.
  all: repeat match goal with
         | H : ?a <> eval_jump -> _ |- _ =>
             let K := fresh in
             assert (K : a <> eval_jump) by congruence; specialize (H K)
         end; congruence.
Qed.

(** When the guard of the assignment blocks fails, the minute, hour, day,
    month and weekday of [newtime] are the ones it came with. *)
Lemma calculate_date_time_unassigned r0 im ef inc buffer time nt0 r nt ef' :
  calculate_date_time cal r0 im ef inc buffer time nt0 = (r, nt, ef') ->
  (im <> 2 /\ inc = 0) \/ ef <> 0 ->
  tm_min nt = tm_min nt0 /\ tm_hour nt = tm_hour nt0 /\
  tm_mday nt = tm_mday nt0 /\ tm_mon nt = tm_mon nt0 /\
  tm_wday nt = tm_wday nt0.
Proof.
  intros E Hg. open_blocks_more E. split_all.
  repeat match goal with
         | H : may_assign im ef inc ?p = false -> _ |- _ =>
             specialize (H (may_assign_false im ef inc p Hg))
         end.
  subst. repeat split; congruence.
Qed.

(** The parity flags that survive stand for a parity check that passed and
    a value in range. *)
Lemma calculate_date_time_checks r0 im ef inc buffer time nt0 r nt ef' :
  calculate_date_time cal r0 im ef inc buffer time nt0 = (r, nt, ef') ->
  0 <= ef <= 1 ->
  Z.land ef' 31 = 0 ->
  (getpar buffer 17 24 54 = true /\ getpar buffer 25 35 55 = true /\
   getpar buffer 36 38 56 = true /\ getpar buffer 39 51 57 = true) /\
  getbcd buffer 17 24 <= 99 /\
  (getbcd buffer 25 29 <> 0 /\ getbcd buffer 25 29 <= 12) /\
  (getbcd buffer 30 35 <> 0 /\ getbcd buffer 30 35 <= 31) /\
  getbcd buffer 36 38 <> 7 /\
  getbcd buffer 39 44 <= 23 /\ getbcd buffer 45 51 <= 59.
Proof.
  intros E Hef Hz. open_blocks_more E.
  apply date_errflags_zero in Hz; [| exact Hef].
  destruct Hz as (-> & -> & -> & -> & ->).
  split_all.
  repeat match goal with
         | H : true = true -> _ |- _ => specialize (H eq_refl)
         end.
  split_all. subst.
  repeat match goal with
         | H : true = true -> _ |- _ => specialize (H eq_refl)
         end.
  split_all. repeat split; assumption.
Qed.

Lemma date_errflags_low ef p1 p2 p3 p4 :
  0 <= ef <= 1 ->
  Z.land (date_errflags ef p1 p2 p3 p4) 31 = 0 <->
  ef = 0 /\ p1 = true /\ p2 = true /\ p3 = true /\ p4 = true.
Proof.
  intros H. split; [now apply date_errflags_zero |].
  intros (-> & -> & -> & -> & ->). reflexivity.
Qed.

(** A parity check that fails ends in an error flag and, for the month,
    the weekday, the hour and the minute, in status [eval_parity]. *)
Lemma calculate_date_time_parity r0 im ef inc buffer time nt0 r nt ef' :
  calculate_date_time cal r0 im ef inc buffer time nt0 = (r, nt, ef') ->
  0 <= ef <= 1 ->
  (getpar buffer 17 24 54 = false ->
   Z.land ef' 31 <> 0 /\ year_status r <> eval_ok) /\
  (getpar buffer 25 35 55 = false ->
   Z.land ef' 31 <> 0 /\ month_status r = eval_parity /\
   (mday_status r = eval_parity \/ mday_status r = eval_bcd)) /\
  (getpar buffer 36 38 56 = false ->
   Z.land ef' 31 <> 0 /\ wday_status r = eval_parity) /\
  (getpar buffer 39 51 57 = false ->
   Z.land ef' 31 <> 0 /\ hour_status r = eval_parity /\
   minute_status r = eval_parity).
Proof.
  intros E Hef. open_blocks_more E. split_all.
  split; [| split; [| split]]; intros Hp.
  all: repeat match goal with
         | H : ?g = false -> _, Hp : ?g = false |- _ => specialize (H Hp)
         end; split_all; subst.
  all: repeat match goal with
         | H : false = false -> _ |- _ => specialize (H eq_refl)
         end; subst.
  all: split;
    [ intros Hz; apply date_errflags_low in Hz; [| lia];
      destruct Hz as (_ & ? & ? & ? & ?); congruence | ].
  all: repeat match goal with
         | H : ?a = eval_parity -> _ |- _ =>
             let K := fresh in
             assert (K : a = eval_parity) by congruence; specialize (H K)
         end.
  - match goal with
    | H : _ \/ _ \/ _ |- _ => destruct H as [H | [H | H]]
    end; congruence.
  - split; [congruence |].
    match goal with
    | H : mday_status _ = eval_parity \/ _ |- _ => destruct H as [H | H]
    end; [left | right]; congruence.
  - congruence.
  - split; congruence.
Qed.

(** X1: [increase_old_time], for an [acc_minlen] as the unsigned type has
    it: the counter of split minutes is below 60000 afterwards, whatever
    it was; [increase] is never negative, so that the time is advanced by
    [increase] calls of [add_minute] (never moved back by
    [substract_minute]) unless [init_min] is 2, when it is left alone;
    and a minute of more than 59 and at most 119 seconds gives an
    increase of one. *)
Theorem increase_old_time_invariant (partial : Z) (announce : bool)
    (init_min minlen acc_minlen : Z) (time : tm) :
  0 <= acc_minlen ->
  let '(partial', increase, time') :=
    increase_old_time cal partial announce init_min minlen acc_minlen time in
  0 <= partial' < 60000 /\
  0 <= increase /\
  time' =
    (if init_min <? 2
     then Nat.iter (Z.to_nat increase)
                   (fun t => add_minute cal t announce) time
     else time) /\
  (59000 < acc_minlen <= 119000 -> increase = 1).
Proof.
  intros Hacc. unfold increase_old_time.
  pose proof (Z.mod_pos_bound (partial + acc_minlen) (2 ^ 32) ltac:(lia))
    as Hw. fold (wrap32 (partial + acc_minlen)) in Hw.
  set (w := wrap32 (partial + acc_minlen)) in *. clearbody w.
  assert (Hiter : forall inc t, 0 <= inc ->
            Nat.iter (Z.to_nat (- inc))
              (fun t => substract_minute cal t announce) t = t).
  { intros inc t Hinc. rewrite Z2Nat.nonpos by lia. reflexivity. }
  destruct (Z.leb_spec acc_minlen 59000) as [Hle | Hgt].
  - destruct (Z.geb_spec w 60000) as [Hge | Hlt]; cbv beta iota zeta;
      rewrite ?Zmod_mod.
    + pose proof (Z.mod_pos_bound w 60000 ltac:(lia)) as Hm.
      pose proof (Z.mod_pos_bound (w mod 60000) 60000 ltac:(lia)) as Hmm.
      pose proof (Z.div_pos w 60000 ltac:(lia) ltac:(lia)) as Hd.
      destruct (Z.geb_spec w 60000) as [_ | ?]; [| lia].
      destruct (Z.gtb_spec (w mod 60000) 59000);
        (split; [lia |]); (split; [lia |]);
        (split; [| intros; lia]);
        destruct (init_min <? 2); try reflexivity; apply Hiter; lia.
    + destruct (Z.geb_spec acc_minlen 60000) as [? | _]; [lia |].
      rewrite (Z.mod_small acc_minlen 60000) by lia.
      rewrite (Z.div_small acc_minlen 60000) by lia.
      destruct (Z.gtb_spec acc_minlen 59000) as [? | _]; [lia |].
      (split; [lia |]); (split; [lia |]);
        (split; [| intros; lia]).
      destruct (init_min <? 2); reflexivity.
  - cbv beta iota zeta. rewrite ?Zmod_mod.
    pose proof (Z.mod_pos_bound partial 60000 ltac:(lia)) as Hm.
    pose proof (Z.mod_pos_bound (partial mod 60000) 60000 ltac:(lia)) as Hmm.
    pose proof (Z.div_pos acc_minlen 60000 ltac:(lia) ltac:(lia)) as Hd.
    pose proof (Z.mod_pos_bound acc_minlen 60000 ltac:(lia)) as Ha.
    pose proof (Z.div_mod acc_minlen 60000 ltac:(lia)) as Hdm.
    destruct (Z.geb_spec acc_minlen 60000) as [Hge | Hlt];
      destruct (Z.gtb_spec (acc_minlen mod 60000) 59000) as [Hr | Hr].
    all: try (exfalso; rewrite Z.mod_small in Hr by lia; lia).
    all: (split; [lia |]); (split; [lia |]); split.
    all: try (destruct (init_min <? 2); try reflexivity; apply Hiter; lia).
    all: intros; nia.
Qed.

(** X2: the leap second and DST handling of [decode_time] is compiled out:
    a call leaves [dst_count] and the DST announcement as it found them,
    never sets bit 52, and always returns DST status [eDST_ok]. *)
Theorem dst_handling_compiled_out (st : decoder_state)
    (init_min minlen acc_minlen : Z) (buffer : list Z) (time : tm) :
  let run := decode_time_run cal st init_min minlen acc_minlen buffer time in
  dst_count (run_state run) = dst_count st /\
  dst_announce (run_result run) = dst_announce (dt_res st) /\
  bit52_ok (run_result run) = bit52_ok (dt_res st) /\
  dst_status (run_result run) = eDST_ok.
Proof.
  cbv zeta. open_run.
  apply calculate_date_time_dst in Ec. destruct Ec as (Hs & Ha & Hb).
  apply check_time_sanity_spec in Es. destruct Es as (_ & _ & Hs0 & Ha0 & Hb0).
  repeat split; congruence.
Qed.

(** X3: the statics of [decode_time].  The minute counter counts the
    minutes that pass the sanity check, modulo 60; [olderr] is true after
    the call exactly when an error flag is set; and the structure returned
    is the static [dt_res]. *)
Theorem decoder_statics (st : decoder_state)
    (init_min minlen acc_minlen : Z) (buffer : list Z) (time : tm) :
  0 <= minute_count st < 60 ->
  let run := decode_time_run cal st init_min minlen acc_minlen buffer time in
  minute_count (run_state run) =
    (if snd (check_time_sanity (dt_res st) minlen buffer)
     then (minute_count st + 1) mod 60 else minute_count st) /\
  0 <= minute_count (run_state run) < 60 /\
  olderr (run_state run) = negb (run_errflags run =? 0) /\
  dt_res (run_state run) = run_result run.
Proof.
  intros Hmc. cbv zeta. open_run. cbn [minute_count olderr dt_res snd].
  assert (Hcount :
    (if (if sane then 0 else 1) =? 0
     then let 'tt := handle_special_bits buffer in
          if minute_count st + 1 =? 60 then 0 else minute_count st + 1
     else minute_count st) =
    (if sane then (minute_count st + 1) mod 60 else minute_count st)).
  { destruct sane; cbn; [| reflexivity].
    destruct (Z.eqb_spec (minute_count st + 1) 60) as [E | E].
    - rewrite E. reflexivity.
    - rewrite Z.mod_small by lia. reflexivity. }
  rewrite Hcount. repeat split.
  - destruct sane; [| lia].
    apply Z.mod_pos_bound. lia.
  - destruct sane; [| lia].
    apply Z.mod_pos_bound. lia.
  - destruct (olderr st); destruct (ef =? 0); reflexivity.
Qed.

(** [calculate_date_time] is called with error flags 0 or 1. *)
Lemma sanity_flag (sane : bool) : 0 <= (if sane then 0 else 1) <= 1.
Proof. destruct sane; lia. Qed.

(** X4: what [decode_time] does to the current time after the increment.
    Without a commit the time is the incremented one.  In any case the
    seconds and the day of the year are those of the incremented time; and
    a commit puts the DST flag back to the value it had when the call began
    (-1 when [init_min] is 2), whatever [add_minute] made of it. *)
Theorem time_after_decode (st : decoder_state)
    (init_min minlen acc_minlen : Z) (buffer : list Z) (time : tm) :
  let run := decode_time_run cal st init_min minlen acc_minlen buffer time in
  (decode_commits cal st init_min minlen acc_minlen buffer time = false ->
   run_time run = run_time_before run) /\
  (decode_commits cal st init_min minlen acc_minlen buffer time = true ->
   tm_isdst (run_time run) =
   if init_min =? 2 then -1 else tm_isdst time) /\
  tm_sec (run_time run) = tm_sec (run_time_before run) /\
  tm_yday (run_time run) = tm_yday (run_time_before run).
Proof.
  cbv zeta. open_run.
  pose proof (calculate_date_time_dst _ _ _ _ _ _ _ _ _ _ Ec)
    as (Hs & _ & _).
  pose proof (calculate_date_time_frame _ _ _ _ _ _ _ _ _ _ Ec)
    as (_ & _ & Hd).
  apply check_time_sanity_spec in Es. destruct Es as (_ & _ & Hs0 & _ & _).
  unfold stamp_date_time.
  destruct (stamp_condition r ef).
  - rewrite Hs, Hs0. cbn [eDT_DST_eqb negb]. cbv iota.
    repeat split; try discriminate.
    intros _. cbn. rewrite Hd. cbn.
    destruct (init_min =? 2); reflexivity.
  - repeat split; try discriminate.
Qed.

(** The minute is committed only if the four parity checks pass. *)
Lemma decode_commits_parity st init_min minlen acc_minlen buffer time :
  decode_commits cal st init_min minlen acc_minlen buffer time = true ->
  getpar buffer 17 24 54 = true /\ getpar buffer 25 35 55 = true /\
  getpar buffer 36 38 56 = true /\ getpar buffer 39 51 57 = true.
Proof.
  intros H. open_run. apply stamp_condition_true in H.
  destruct H as [_ Hz].
  eapply calculate_date_time_checks in Ec; [| apply sanity_flag | exact Hz].
  tauto.
Qed.

(** X5: [decode_time] commits a minute only if it has 59 to 61 bits, begins
    with the marker (4) and ends with a 0 at second 59, all four parity
    checks pass, and every field is in range: year at most 99, month 1 to
    12, day 1 to 31, weekday not 7, hour at most 23 and minute at most
    59. *)
Theorem commit_only_if (st : decoder_state)
    (init_min minlen acc_minlen : Z) (buffer : list Z) (time : tm) :
  decode_commits cal st init_min minlen acc_minlen buffer time = true ->
  (59 <= minlen <= 61 /\ rd buffer 0 = 4 /\ rd buffer 59 = 0) /\
  (getpar buffer 17 24 54 = true /\ getpar buffer 25 35 55 = true /\
   getpar buffer 36 38 56 = true /\ getpar buffer 39 51 57 = true) /\
  getbcd buffer 17 24 <= 99 /\
  (getbcd buffer 25 29 <> 0 /\ getbcd buffer 25 29 <= 12) /\
  (getbcd buffer 30 35 <> 0 /\ getbcd buffer 30 35 <= 31) /\
  getbcd buffer 36 38 <> 7 /\
  getbcd buffer 39 44 <= 23 /\ getbcd buffer 45 51 <= 59.
Proof.
  intros H. open_run. apply stamp_condition_true in H.
  destruct H as [_ Hz].
  pose proof (calculate_date_time_commit _ _ _ _ _ _ _ _ _ _ Ec
                (sanity_flag sane) Hz) as (Hef & _).
  eapply calculate_date_time_checks in Ec; [| apply sanity_flag | exact Hz].
  split; [| exact Ec].
  apply check_time_sanity_spec in Es. destruct Es as (Hsane & _).
  apply Hsane. destruct sane; [reflexivity | discriminate].
Qed.

(** X6: a decoder that is not settled ([init_min] not 0) marks no jump:
    none of the six field statuses it returns is [eval_jump]. *)
Theorem no_jump_before_settled (st : decoder_state)
    (init_min minlen acc_minlen : Z) (buffer : list Z) (time : tm) :
  init_min <> 0 ->
  let r :=
    run_result
      (decode_time_run cal st init_min minlen acc_minlen buffer time) in
  minute_status r <> eval_jump /\ hour_status r <> eval_jump /\
  mday_status r <> eval_jump /\ wday_status r <> eval_jump /\
  month_status r <> eval_jump /\ year_status r <> eval_jump.
Proof.
  intros Him. cbv zeta. open_run.
  eapply calculate_date_time_no_jump; eauto.
Qed.

(** X7: on a split minute ([increase] is 0) of a decoder past its first
    minute, and on any minute that fails the sanity check, no value of the
    buffer reaches [newtime]: its minute, hour, day, month and weekday
    are the zeros of the [memset]; if such a call commits, these zeros
    become the current time. *)
Theorem unassigned_newtime (st : decoder_state)
    (init_min minlen acc_minlen : Z) (buffer : list Z) (time : tm) :
  let run := decode_time_run cal st init_min minlen acc_minlen buffer time in
  (init_min <> 2 /\ run_increase run = 0) \/
  snd (check_time_sanity (dt_res st) minlen buffer) = false ->
  (tm_min (run_newtime run) = 0 /\ tm_hour (run_newtime run) = 0 /\
   tm_mday (run_newtime run) = 0 /\ tm_mon (run_newtime run) = 0 /\
   tm_wday (run_newtime run) = 0) /\
  (decode_commits cal st init_min minlen acc_minlen buffer time = true ->
   tm_min (run_time run) = 0 /\ tm_hour (run_time run) = 0 /\
   tm_mday (run_time run) = 0 /\ tm_mon (run_time run) = 0 /\
   tm_wday (run_time run) = 0).
Proof.
  cbv zeta. intros Hg. open_run. cbn [snd] in Hg.
  assert (Hn : tm_min nt = 0 /\ tm_hour nt = 0 /\ tm_mday nt = 0 /\
               tm_mon nt = 0 /\ tm_wday nt = 0).
  { eapply calculate_date_time_unassigned in Ec.
    - exact Ec.
    - destruct Hg as [Hg | ->]; [left; exact Hg | right; discriminate]. }
  split; [exact Hn |].
  intros Hc. unfold stamp_date_time. rewrite Hc.
  destruct (negb (eDT_DST_eqb (dst_status r) eDST_jump)); cbn; exact Hn.
Qed.

(** X8: a parity check that fails keeps the minute from being committed
    and shows in the statuses: [eval_parity] for the month, the weekday,
    the hour and the minute; for the year and the day of the month the
    century check may turn it into another error status. *)
Theorem parity_error_status (st : decoder_state)
    (init_min minlen acc_minlen : Z) (buffer : list Z) (time : tm) :
  let run := decode_time_run cal st init_min minlen acc_minlen buffer time in
  let r := run_result run in
  getpar buffer 17 24 54 = false \/ getpar buffer 25 35 55 = false \/
  getpar buffer 36 38 56 = false \/ getpar buffer 39 51 57 = false ->
  decode_commits cal st init_min minlen acc_minlen buffer time = false /\
  (getpar buffer 17 24 54 = false -> year_status r <> eval_ok) /\
  (getpar buffer 25 35 55 = false ->
   month_status r = eval_parity /\
   (mday_status r = eval_parity \/ mday_status r = eval_bcd)) /\
  (getpar buffer 36 38 56 = false -> wday_status r = eval_parity) /\
  (getpar buffer 39 51 57 = false ->
   hour_status r = eval_parity /\ minute_status r = eval_parity).
Proof.
  cbv zeta. intros Hp. open_run.
  pose proof (calculate_date_time_parity _ _ _ _ _ _ _ _ _ _ Ec
                (sanity_flag sane)) as (H1 & H2 & H3 & H4).
  split.
  - unfold stamp_condition.
    assert (Hz : Z.land ef 31 <> 0) by
      (destruct Hp as [Hp | [Hp | [Hp | Hp]]];
       [apply H1 | apply H2 | apply H3 | apply H4]; exact Hp).
    apply Z.eqb_neq in Hz. rewrite Hz. apply andb_false_r.
  - split; [| split; [| split]]; intros Hq;
      [ destruct (H1 Hq) as [_ K] | destruct (H2 Hq) as [_ K]
      | destruct (H3 Hq) as [_ K] | destruct (H4 Hq) as [_ K] ];
      exact K.
Qed.

(** X25: [handle_leap_second] (compiled out of [decode_time]) and its
    error flag.  It sets flag 5 exactly for a minute of 60 bits at minute
    0 (status short) and for a minute of 61 bits at another minute
    (status long); any other minute keeps its flags and its length
    status, a minute of 61 bits at minute 0 whatever [buffer[17]] is. *)
Theorem handle_leap_second_flags (r : DT_result) (errflags minlen : Z)
    (buffer : list Z) (time : tm) :
  let r' := fst (handle_leap_second r errflags minlen buffer time) in
  let errflags' := snd (handle_leap_second r errflags minlen buffer time) in
  errflags' =
    (if ((tm_min time =? 0) && (minlen =? 60)) ||
        (negb (tm_min time =? 0) && (minlen =? 61))
     then Z.lor errflags 32 else errflags) /\
  minute_length r' =
    (if (tm_min time =? 0) && (minlen =? 60) then emin_short
     else if negb (tm_min time =? 0) && (minlen =? 61) then emin_long
     else minute_length r) /\
  leapsecond_status r' =
    (if tm_min time =? 0
     then if (minlen =? 61) && (rd buffer 17 =? 1) then els_one else els_done
     else els_none).
Proof.
  cbv zeta. unfold handle_leap_second.
  destruct (tm_min time =? 0);
    destruct (Z.eqb_spec minlen 60); destruct (Z.eqb_spec minlen 61);
    try lia; destruct (rd buffer 17 =? 1); cbn; auto.
Qed.

(** X26: [handle_dst] (compiled out of [decode_time]).  At minute 0 it
    leaves the announcement cleared and [dst_count] at 0.  It marks a
    jump only together with error flag 6 and without touching [newtime];
    when it marks none, the flags are unchanged; and the only value it
    ever stores as the DST flag of [newtime] is [buffer[17]]. *)
Theorem handle_dst_flags (dstcount mincount : Z) (r : DT_result)
    (errflags : Z) (old_err : bool) (buffer : list Z) (time newtime : tm) :
  dst_status r <> eDST_jump ->
  let '(dstcount', r', newtime', errflags') :=
    handle_dst dstcount mincount r errflags old_err buffer time newtime in
  (tm_min time = 0 -> dstcount' = 0 /\ dst_announce r' = false) /\
  (dst_status r' = eDST_jump ->
   errflags' = Z.lor errflags 64 /\ newtime' = newtime) /\
  (dst_status r' <> eDST_jump -> errflags' = errflags) /\
  (newtime' = newtime \/ newtime' = set_tm_isdst newtime (rd buffer 17)).
Proof.
  intros Hr. unfold handle_dst.
  repeat match goal with
         | |- context [if ?c then _ else _] => destruct c eqn:?
         end; cbn in *.
  all: repeat split; intros; auto; try congruence; try discriminate;
    try (apply Z.eqb_neq in H; congruence).
  all: try match goal with
           | H : (tm_min ?x =? 0) = false, H' : tm_min ?x = 0 |- _ =>
               rewrite H' in H; discriminate
           end.
  all: exfalso;
    repeat match goal with
           | H : _ || _ = false |- _ => apply orb_false_iff in H; destruct H
           end; try congruence; zify_bools; lia.
Qed.

End DecodeProofs.

Section DecodeExamples.

Import DecodeTime.

(** The frame of 12:34 received when the current time is 12:33: the time
    is incremented to 12:34, every status is [eval_ok] and the minute is
    committed. *)
Lemma commit_statuses_witness :
  decode_commits SpecCalendar.calendar decoder_init 0 59 60000
    frame_2019_03_15_12_34 (friday_noon 33) = true /\
  let r :=
    run_result
      (decode_time_run SpecCalendar.calendar decoder_init 0 59 60000
         frame_2019_03_15_12_34 (friday_noon 33)) in
  minute_length r = emin_ok /\
  ok_or_jump (minute_status r) /\ ok_or_jump (hour_status r) /\
  ok_or_jump (mday_status r) /\ ok_or_jump (wday_status r) /\
  ok_or_jump (month_status r) /\ ok_or_jump (year_status r).
Proof.
  assert (H : decode_commits SpecCalendar.calendar decoder_init 0 59 60000
                frame_2019_03_15_12_34 (friday_noon 33) = true)
    by (vm_compute; reflexivity).
  split; [exact H |].
  exact (commit_statuses SpecCalendar.calendar decoder_init 0 59 60000
           frame_2019_03_15_12_34 (friday_noon 33) H).
Defined.

(** C2, refuted as stated: the frame of 12:34 received when the current
    time is 12:32 is committed although the minute status is not
    [eval_ok] (it is [eval_jump]). *)
Lemma commit_with_jump_status :
  decode_commits SpecCalendar.calendar decoder_init 0 59 60000
    frame_2019_03_15_12_34 (friday_noon 32) = true /\
  minute_status
    (run_result
       (decode_time_run SpecCalendar.calendar decoder_init 0 59 60000
          frame_2019_03_15_12_34 (friday_noon 32))) <> eval_ok.
Proof. vm_compute. split; [reflexivity | discriminate]. Qed.



(** C5, refuted as stated: the frame of 13:00 received at 12:59 by a
    settled decoder brings the current minute to 0, before and after the
    commit, and the leap second status returned is [els_none]. *)
Lemma leap_second_status_not_done :
  let run :=
    decode_time_run SpecCalendar.calendar decoder_init 0 59 60000
      frame_2019_03_15_13_00 (friday_noon 59) in
  tm_min (run_time_before run) = 0 /\
  tm_min (run_time run) = 0 /\
  leapsecond_status (run_result run) <> els_done.
Proof. vm_compute. repeat split. discriminate. Qed.

End DecodeExamples.

(** * Properties of [input.c] *)

Section InputProofs.

Import Input.

Ltac if_cases :=
  repeat match goal with
         | |- context [if ?c then _ else _] => destruct c eqn:?
         end.

Lemma set_new_state_frame s :
  bitpos (set_new_state s) = bitpos s /\
  dec_bp (set_new_state s) = dec_bp s /\
  buffer (set_new_state s) = buffer s /\
  acc_minlen (set_new_state s) = acc_minlen s /\
  bit (set_new_state s) = bit s /\
  read_acc_minlen (set_new_state s) = read_acc_minlen s /\
  logfile (set_new_state s) = logfile s.
Proof. unfold set_new_state. if_cases; cbn; repeat split. Qed.

(** What is left for [skip_invalid] to do on a stream: the unread bytes,
    and one more read to find the end of the file. *)
Lemma skip_invalid_loop_more (n : nat) :
  forall inch f,
    (length (unread f) + (if eof_flag f then 0 else 1) < n)%nat ->
    skip_invalid_loop (S n) inch f = skip_invalid_loop n inch f.
Proof.
  induction n as [| n IH]; intros inch f Hn; [lia |].
  cbn [skip_invalid_loop]. unfold feof.
  destruct (eof_flag f) eqn:Ee; [reflexivity |].
  unfold getc. destruct (unread f) as [| c rest] eqn:Eu.
  - destruct ((inch =? 13) && negb (EOF =? 10)); cbn [ungetc].
    + reflexivity.
    + change (valid_char EOF) with false. cbv iota.
      destruct n; reflexivity.
  - destruct ((inch =? 13) && negb (c =? 10)).
    + reflexivity.
    + destruct (valid_char c); [reflexivity |].
      apply IH. cbn [unread eof_flag length] in *. rewrite Ee. lia.
Qed.

(** The fuel of [skip_invalid] suffices: more of it changes nothing. *)
Lemma skip_invalid_fuel (k : nat) (f : FILE) :
  skip_invalid_loop (length (unread f) + 2 + k) EOF f = skip_invalid f.
Proof.
  unfold skip_invalid. induction k as [| k IH].
  - rewrite Nat.add_0_r. reflexivity.
  - rewrite Nat.add_succ_r, skip_invalid_loop_more; [exact IH |].
    destruct (eof_flag f); lia.
Qed.


Lemma file_switch_frame inch s :
  bitpos (file_switch inch s) = bitpos s /\
  dec_bp (file_switch inch s) = dec_bp s /\
  buffer (file_switch inch s) =
    (if (48 <=? inch) && (inch <=? 52)
     then wr (buffer s) (bitpos s) (inch - 48) else buffer s) /\
  (is_Some (logfile s) -> is_Some (logfile (file_switch inch s))).
Proof.
  unfold file_switch.
  destruct ((48 <=? inch) && (inch <=? 52)).
  { if_cases; cbn; repeat split; auto. }
  if_cases; try (cbn; repeat split; auto; fail).
  cbn [logfile set_bit set_gb_res].
  destruct (logfile s) as [f |].
  - destruct (fscanf_u10 f) as [[res v] f']. if_cases; cbn; repeat split; eauto.
  - cbn. repeat split; auto. intros [? ?]; discriminate.
Qed.

Lemma file_read_ahead_frame inch s :
  bitpos (file_read_ahead inch s) = bitpos s /\
  buffer (file_read_ahead inch s) = buffer s /\
  acc_minlen (file_read_ahead inch s) = acc_minlen s /\
  bit (file_read_ahead inch s) = bit s /\
  read_acc_minlen (file_read_ahead inch s) = read_acc_minlen s /\
  (is_Some (logfile s) -> is_Some (logfile (file_read_ahead inch s))) /\
  (dec_bp (file_read_ahead inch s) = dec_bp s \/
   dec_bp (file_read_ahead inch s) = 1 /\ 0 < bitpos s).
Proof.
  unfold file_read_ahead. cbn [logfile set_oldinch].
  destruct (logfile s) as [f |]; [| cbn; repeat split; auto; intros [? ?]; discriminate].
  destruct (skip_invalid f) as [c f'].
  destruct (negb (feof f')); [| cbn; repeat split; eauto].
  match goal with |- context [if ?c then _ else _] => destruct c eqn:E end;
    cbn; repeat split; eauto.
  right. split; [reflexivity |].
  cbn in E. repeat (apply andb_true_iff in E; destruct E as [E ?]). lia.
Qed.

(** What [get_bit_file] does to [bitpos], [dec_bp] and the buffer. *)
Lemma get_bit_file_frame s :
  bitpos (get_bit_file s) = bitpos s /\
  (dec_bp (get_bit_file s) = dec_bp s \/
   dec_bp (get_bit_file s) = 1 /\ 0 < bitpos s) /\
  buffer (get_bit_file s) =
    (if (48 <=? next_char s) && (next_char s <=? 52)
     then wr (buffer s) (bitpos s) (next_char s - 48) else buffer s) /\
  (is_Some (logfile s) -> is_Some (logfile (get_bit_file s))).
Proof.
  unfold get_bit_file, next_char.
  destruct (logfile s) as [f |] eqn:Hf.
  2: { repeat split; auto. intros [? ?]; discriminate. }
  destruct (skip_invalid f) as [inch f1]. cbn [fst].
  pose proof (set_new_state_frame s) as (Hb & Hd & Hbuf & _).
  revert Hb Hd Hbuf. generalize (set_new_state s) as s1. intros s1 Hb Hd Hbuf.
  destruct (Z.eqb_spec inch EOF) as [-> | Hne].
  { cbn. repeat split; eauto. }
  set (s2 := set_logfile s1 (Some f1)).
  assert (H2 : bitpos s2 = bitpos s /\ dec_bp s2 = dec_bp s /\
               buffer s2 = buffer s /\ is_Some (logfile s2))
    by (cbn; eauto).
  destruct H2 as (H2b & H2d & H2buf & H2l).
  pose proof (file_switch_frame inch s2) as (H3b & H3d & H3buf & H3l).
  revert H3b H3d H3buf H3l. generalize (file_switch inch s2) as s3.
  intros s3 H3b H3d H3buf H3l.
  set (s4 := if negb (read_acc_minlen s3)
             then set_acc_minlen s3 (wrap32 (acc_minlen s3 + t (bit s3)))
             else s3).
  assert (H4 : bitpos s4 = bitpos s3 /\ dec_bp s4 = dec_bp s3 /\
               buffer s4 = buffer s3 /\ logfile s4 = logfile s3)
    by (unfold s4; destruct (negb (read_acc_minlen s3)); cbn; auto).
  destruct H4 as (H4b & H4d & H4buf & H4l).
  pose proof (file_read_ahead_frame inch s4)
    as (H5b & H5buf & _ & _ & _ & H5l & H5d).
  repeat split.
  - congruence.
  - destruct H5d as [H5d | [H5d Hpos]]; [left; congruence | right].
    split; [exact H5d | lia].
  - rewrite H5buf, H4buf, H3buf, H2buf, H2b. reflexivity.
  - intros _. apply H5l. rewrite H4l. auto.
Qed.


Lemma wrap32_range x : 0 <= wrap32 x < 2 ^ 32.
Proof. unfold wrap32. apply Z.mod_pos_bound. lia. Qed.

Lemma wrap32_small x : 0 <= x < 2 ^ 32 -> wrap32 x = x.
Proof. intros H. unfold wrap32. apply Z.mod_small. exact H. Qed.

Lemma fscanf_u10_range f res v f' :
  fscanf_u10 f = (res, v, f') -> 0 <= v < 2 ^ 32.
Proof.
  unfold fscanf_u10. destruct (scan_space (unread f)) as [| c rest].
  - intros E. inversion E. lia.
  - repeat match goal with
           | |- context [let '(_, _) := ?x in _] => destruct x
           | |- context [if ?c then _ else _] => destruct c
           end.
    all: intros E; inversion E; subst; try lia; apply wrap32_range.
Qed.

Lemma file_switch_acc inch s :
  (0 <= t (bit s) <= 1500 -> 0 <= t (bit (file_switch inch s)) <= 1500) /\
  (0 <= acc_minlen s < 2 ^ 32 ->
   0 <= acc_minlen (file_switch inch s) < 2 ^ 32) /\
  (inch <> 97 ->
   acc_minlen (file_switch inch s) = acc_minlen s /\
   read_acc_minlen (file_switch inch s) = read_acc_minlen s).
Proof.
  unfold file_switch.
  destruct ((48 <=? inch) && (inch <=? 52)).
  { if_cases; cbn; repeat split; auto; lia. }
  destruct (Z.eqb_spec inch 120); [cbn; repeat split; auto; lia |].
  destruct (Z.eqb_spec inch 114); [cbn; repeat split; auto; lia |].
  destruct (Z.eqb_spec inch 35); [cbn; repeat split; auto; lia |].
  destruct (Z.eqb_spec inch 42); [cbn; repeat split; auto; lia |].
  destruct (Z.eqb_spec inch 95); [cbn; repeat split; auto; lia |].
  destruct (Z.eqb_spec inch 97); [| repeat split; auto; lia].
  cbn [logfile set_bit set_gb_res].
  destruct (logfile s) as [f |]; [| cbn; repeat split; auto; lia].
  destruct (fscanf_u10 f) as [[res v] f'] eqn:Ef.
  apply fscanf_u10_range in Ef.
  if_cases; cbn; repeat split; auto; lia.
Qed.

(** What [get_bit_file] does to [acc_minlen] and [bit.t]. *)
Lemma get_bit_file_acc s :
  (0 <= t (bit s) <= 1500 -> 0 <= t (bit (get_bit_file s)) <= 1500) /\
  (0 <= acc_minlen s < 2 ^ 32 ->
   0 <= acc_minlen (get_bit_file s) < 2 ^ 32) /\
  (next_char s <> 97 -> 0 <= t (bit s) <= 1500 ->
   0 <= acc_minlen s -> acc_minlen s + 1500 < 2 ^ 32 ->
   acc_minlen s <= acc_minlen (get_bit_file s) <= acc_minlen s + 1500).
Proof.
  unfold get_bit_file, next_char.
  destruct (logfile s) as [f |] eqn:Hf.
  2: { repeat split; auto; lia. }
  destruct (skip_invalid f) as [inch f1]. cbn [fst].
  pose proof (set_new_state_frame s) as (_ & _ & _ & Ha & Hb & Hr & _).
  revert Ha Hb Hr. generalize (set_new_state s) as s1. intros s1 Ha Hb Hr.
  destruct (Z.eqb_spec inch EOF) as [-> | Hne].
  { cbn. rewrite Ha, Hb. repeat split; auto; lia. }
  set (s2 := set_logfile s1 (Some f1)).
  assert (H2 : acc_minlen s2 = acc_minlen s /\ bit s2 = bit s)
    by (cbn; auto).
  destruct H2 as (H2a & H2b).
  pose proof (file_switch_acc inch s2) as (H3t & H3a & H3n).
  rewrite H2a, H2b in *.
  revert H3t H3a H3n. generalize (file_switch inch s2) as s3.
  intros s3 H3t H3a H3n.
  pose proof (file_read_ahead_frame inch
    (if negb (read_acc_minlen s3)
     then set_acc_minlen s3 (wrap32 (acc_minlen s3 + t (bit s3)))
     else s3)) as (_ & _ & H5a & H5b & _).
  rewrite H5a, H5b.
  pose proof (wrap32_range (acc_minlen s3 + t (bit s3))) as Hw.
  split; [| split].
  - intros Ht. specialize (H3t Ht).
    destruct (negb (read_acc_minlen s3)); cbn; lia.
  - intros Hacc. specialize (H3a Hacc).
    destruct (negb (read_acc_minlen s3)); cbn; lia.
  - intros Hn Ht Hacc0 Hacc. destruct (H3n Hn) as [E _].
    specialize (H3t Ht).
    destruct (negb (read_acc_minlen s3)); cbn; [| lia].
    rewrite wrap32_small; lia.
Qed.


Lemma next_bit_acc s :
  acc_minlen (next_bit s) = acc_minlen s /\ bit (next_bit s) = bit s /\
  buffer (next_bit s) = buffer s /\ logfile (next_bit s) = logfile s.
Proof. unfold next_bit. if_cases; cbn; auto. Qed.

Lemma next_bit_bitpos s :
  0 <= bitpos s <= 60 -> (dec_bp s = 1 -> 1 <= bitpos s) ->
  0 <= bitpos (next_bit s) <= 60 /\ dec_bp (next_bit s) <> 1.
Proof.
  intros Hr Hd. unfold next_bit, BUFLEN.
  destruct (Z.eqb_spec (dec_bp s) 1) as [E | E];
    cbn [bitpos dec_bp gb_res set_bitpos set_dec_bp set_gb_res].
  - specialize (Hd E).
    destruct (marker_eqb (marker (gb_res s)) emark_minute ||
              marker_eqb (marker (gb_res s)) emark_late);
      [| destruct (negb (skip (gb_res s)))];
      cbn [bitpos dec_bp gb_res set_bitpos set_dec_bp set_gb_res];
      match goal with
      | |- context [?x =? 61] => destruct (Z.eqb_spec x 61)
      end; if_cases; cbn; lia.
  - destruct (marker_eqb (marker (gb_res s)) emark_minute ||
              marker_eqb (marker (gb_res s)) emark_late);
      [| destruct (negb (skip (gb_res s)))];
      cbn [bitpos dec_bp gb_res set_bitpos set_dec_bp set_gb_res];
      match goal with
      | |- context [?x =? 61] => destruct (Z.eqb_spec x 61)
      end; if_cases; cbn; lia.
Qed.

Lemma wr_length b i v : length (wr b i v) = length b.
Proof. unfold wr. destruct (i <? 0); [reflexivity | apply length_insert]. Qed.

Lemma rd_wr_other b i j v : i <> j -> rd (wr b i v) j = rd b j.
Proof.
  intros H. unfold rd, wr.
  destruct (Z.ltb_spec j 0); [reflexivity |].
  destruct (Z.ltb_spec i 0); [reflexivity |].
  rewrite list_lookup_insert_ne by lia. reflexivity.
Qed.

Lemma rd_wr_same b i v :
  0 <= i < Z.of_nat (length b) -> rd (wr b i v) i = v.
Proof.
  intros H. unfold rd, wr.
  destruct (Z.ltb_spec i 0); [lia |].
  rewrite list_lookup_insert_eq by lia. reflexivity.
Qed.

(** The invariant of file mode. *)
Lemma file_reachable_inv s :
  file_reachable s ->
  0 <= bitpos s <= 60 /\
  (dec_bp s = 1 -> 1 <= bitpos s) /\
  length (buffer s) = 61%nat /\
  is_Some (logfile s) /\
  0 <= t (bit s) <= 1500 /\
  0 <= acc_minlen s < 2 ^ 32.
Proof.
  induction 1 as [content | s _ IH | s _ IH | s _ IH].
  - cbn. repeat split; eauto; lia.
  - destruct IH as (Hb & Hd & Hl & Hf & Ht & Ha).
    pose proof (get_bit_file_frame s) as (Eb & Ed & Ebuf & Ef).
    pose proof (get_bit_file_acc s) as (Et & Ea & _).
    rewrite Eb.
    split; [exact Hb |]. split.
    { destruct Ed as [Ed | [_ Hpos]]; [rewrite Ed; exact Hd | lia]. }
    split.
    { rewrite Ebuf. destruct (_ && _); [rewrite wr_length |]; exact Hl. }
    split; [exact (Ef Hf) |]. split; [exact (Et Ht) | exact (Ea Ha)].
  - destruct IH as (Hb & Hd & Hl & Hf & Ht & Ha).
    pose proof (next_bit_bitpos s Hb Hd) as (Hb' & Hd').
    pose proof (next_bit_acc s) as (Ea & Ebit & Ebuf & Ef).
    rewrite Ea, Ebit, Ebuf, Ef.
    split; [exact Hb' |]. split; [intros E; contradiction |].
    repeat split; auto; lia.
  - destruct IH as (Hb & Hd & Hl & Hf & Ht & Ha).
    cbn. repeat split; auto; lia.
Qed.

(** C7: in file mode, after every call of [next_bit] the bit position is
    in 0..60; after a minute or late marker it is 1; when the advance
    reaches [BUFLEN] = 61 the marker becomes too-long and the position 0;
    and the roll-back requested by [dec_bp] does not take the position
    below 0. *)
Theorem next_bit_bitpos_range (s : input_state) :
  file_reachable s ->
  0 <= bitpos (next_bit s) <= 60 /\
  (Mainloop.is_minute_or_late (gb_res s) = true ->
   bitpos (next_bit s) = 1) /\
  (Mainloop.is_minute_or_late (gb_res s) = false ->
   skip (gb_res s) = false ->
   bitpos s - (if dec_bp s =? 1 then 1 else 0) + 1 = BUFLEN ->
   marker (gb_res (next_bit s)) = emark_toolong /\
   bitpos (next_bit s) = 0) /\
  (dec_bp s = 1 -> 0 <= bitpos s - 1).
Proof.
  intros H. apply file_reachable_inv in H.
  destruct H as (Hb & Hd & _).
  split; [apply next_bit_bitpos; assumption |].
  unfold Mainloop.is_minute_or_late, next_bit, BUFLEN.
  split; [| split].
  - intros Hm.
    destruct (dec_bp s =? 1);
      cbn [bitpos dec_bp gb_res set_bitpos set_dec_bp set_gb_res];
      rewrite Hm; cbn; if_cases; reflexivity.
  - intros Hm Hs Hr.
    destruct (dec_bp s =? 1);
      cbn [bitpos dec_bp gb_res set_bitpos set_dec_bp set_gb_res];
      rewrite Hm, Hs; cbn [negb bitpos set_bitpos];
      match goal with
      | |- context [?x =? 61] => destruct (Z.eqb_spec x 61); [| lia]
      end; split; reflexivity.
  - intros E. specialize (Hd E). lia.
Qed.

(** C9: a call of [get_bit_file] that consumes a character '0'..'4'
    stores that digit in [buffer[bitpos]] and changes no other entry; a
    call that consumes any other character, or meets the end of the file,
    leaves the whole buffer as it was. *)
Theorem get_bit_file_buffer (s : input_state) :
  file_reachable s ->
  (48 <= next_char s <= 52 ->
   rd (buffer (get_bit_file s)) (bitpos s) = next_char s - 48 /\
   forall i, i <> bitpos s ->
             rd (buffer (get_bit_file s)) i = rd (buffer s) i) /\
  (~ 48 <= next_char s <= 52 -> buffer (get_bit_file s) = buffer s).
Proof.
  intros H. apply file_reachable_inv in H.
  destruct H as (Hb & _ & Hl & _).
  pose proof (get_bit_file_frame s) as (_ & _ & Ebuf & _).
  rewrite Ebuf. split.
  - intros Hc.
    destruct (Z.leb_spec 48 (next_char s)); [| lia].
    destruct (Z.leb_spec (next_char s) 52); [| lia]. cbn [andb].
    split.
    + apply rd_wr_same. lia.
    + intros i Hi. apply rd_wr_other. congruence.
  - intros Hc.
    destruct (Z.leb_spec 48 (next_char s));
      destruct (Z.leb_spec (next_char s) 52); cbn [andb]; try reflexivity.
    lia.
Qed.

(** ** The characters of the log file *)

(** What the loop of [skip_invalid] returns on a stream that is not at its
    end: a valid character, or [EOF] with the end-of-file indicator set.
    It writes nothing, never leaves more bytes unread than it found, and
    has consumed at least one unless it returns [EOF] or started on a
    carriage return. *)
Lemma skip_invalid_loop_result (n : nat) :
  forall inch f,
    (length (unread f) + 1 < n)%nat ->
    eof_flag f = false ->
    (valid_char (skip_invalid_loop n inch f).1 = true \/
     (skip_invalid_loop n inch f).1 = EOF /\
     eof_flag (skip_invalid_loop n inch f).2 = true) /\
    written (skip_invalid_loop n inch f).2 = written f /\
    (length (unread (skip_invalid_loop n inch f).2) <= length (unread f))%nat /\
    (inch <> 13 -> (skip_invalid_loop n inch f).1 <> EOF ->
     (length (unread (skip_invalid_loop n inch f).2) < length (unread f))%nat).
Proof.
  induction n as [| n IH]; intros inch f Hn Hf; [lia |].
  cbn [skip_invalid_loop]. unfold feof. rewrite Hf.
  unfold getc. destruct (unread f) as [| c rest] eqn:Eu.
  - destruct (Z.eqb_spec inch 13) as [-> | Hne].
    + cbn. repeat split; auto; try lia.
    + change (negb (EOF =? 10)) with true.
      cbn [andb]. change (valid_char EOF) with false. cbv iota.
      destruct n as [| n]; [cbn in Hn; lia |].
      cbn. repeat split; auto. intros _ H. contradiction.
  - cbn [length] in Hn.
    destruct (Z.eqb_spec inch 13) as [-> | Hne];
      [destruct (Z.eqb_spec c 10) as [-> | Hc] |]; cbn [andb negb].
    + cbn. repeat split; auto; try lia.
    + change (valid_char 10) with true. cbv iota.
      unfold ungetc. destruct (c =? EOF); cbn; repeat split; auto; try lia.
    + destruct (valid_char c) eqn:Ev.
      * cbn. repeat split; auto; lia.
      * specialize (IH c (mk_FILE rest false (written f))).
        cbn [unread eof_flag written] in IH.
        specialize (IH ltac:(lia) eq_refl).
        destruct IH as (H1 & H2 & H3 & _).
        rewrite Hf. cbn [length].
        repeat split; auto; try lia.
Qed.

(** [skip_invalid] returns a valid character, or [EOF] with the
    end-of-file indicator set; it writes nothing, never leaves more bytes
    unread than it found, and has consumed at least one byte when it
    returns a character. *)
Lemma skip_invalid_returns (f : FILE) :
  (valid_char (skip_invalid f).1 = true \/
   (skip_invalid f).1 = EOF /\ eof_flag (skip_invalid f).2 = true) /\
  written (skip_invalid f).2 = written f /\
  (length (unread (skip_invalid f).2) <= length (unread f))%nat /\
  ((skip_invalid f).1 <> EOF ->
   (length (unread (skip_invalid f).2) < length (unread f))%nat).
Proof.
  destruct (eof_flag f) eqn:Hf.
  - unfold skip_invalid.
    replace (length (unread f) + 2)%nat with (S (length (unread f) + 1))
      by lia.
    cbn [skip_invalid_loop]. unfold feof. rewrite Hf. cbn.
    repeat split; auto; try congruence.
  - pose proof (skip_invalid_loop_result (length (unread f) + 2) EOF f
                  ltac:(lia) Hf) as (H1 & H2 & H3 & H4).
    fold (skip_invalid f) in *.
    split; [exact H1 |]. split; [exact H2 |]. split; [exact H3 |].
    apply H4. discriminate.
Qed.

(** X11: [skip_invalid] returns a character of ["012345\nxr#*_a"] (or the
    NUL that [strchr] accepts too), or [EOF] with the end-of-file
    indicator set; it writes nothing to the stream, never leaves more
    bytes unread than it found, and has consumed at least one byte when
    it returns a character.  On a stream whose end-of-file indicator is
    set it returns [EOF] at once and leaves the stream as it is. *)
Theorem skip_invalid_result (f : FILE) :
  (valid_char (skip_invalid f).1 = true \/
   (skip_invalid f).1 = EOF /\ eof_flag (skip_invalid f).2 = true) /\
  written (skip_invalid f).2 = written f /\
  (length (unread (skip_invalid f).2) <= length (unread f))%nat /\
  ((skip_invalid f).1 <> EOF ->
   (length (unread (skip_invalid f).2) < length (unread f))%nat) /\
  (eof_flag f = true -> skip_invalid f = (EOF, f)).
Proof.
  pose proof (skip_invalid_returns f) as (H1 & H2 & H3 & H4).
  split; [exact H1 |]. split; [exact H2 |]. split; [exact H3 |].
  split; [exact H4 |].
  intros Hf. unfold skip_invalid.
  replace (length (unread f) + 2)%nat with (S (length (unread f) + 1))
    by lia.
  cbn [skip_invalid_loop]. unfold feof. rewrite Hf. reflexivity.
Qed.

(** On a stream that is not at its end the loop of [skip_invalid] does
    not depend on the character it starts with, unless that is a carriage
    return. *)
Lemma skip_invalid_loop_start (n : nat) (inch : Z) (f : FILE) :
  eof_flag f = false -> inch <> 13 ->
  skip_invalid_loop (S n) inch f = skip_invalid_loop (S n) EOF f.
Proof.
  intros Hf Hne. cbn [skip_invalid_loop]. unfold feof. rewrite Hf.
  destruct (getc f) as [c f1].
  apply Z.eqb_neq in Hne. rewrite Hne. reflexivity.
Qed.

(** X12: the line ends of a log.  [skip_invalid] reads a carriage return
    followed by a line feed as one line feed, and a carriage return
    followed by another byte, or by the end of the file, as a line feed
    that leaves that byte unread. *)
Theorem skip_invalid_line_ends (rest w : list Z) (c : Z) :
  skip_invalid (mk_FILE (13 :: 10 :: rest) false w) =
    (10, mk_FILE rest false w) /\
  (0 <= c < 256 -> c <> 10 ->
   skip_invalid (mk_FILE (13 :: c :: rest) false w) =
     (10, mk_FILE (c :: rest) false w)) /\
  skip_invalid (mk_FILE [13] false w) = (10, mk_FILE [] true w).
Proof.
  split; [| split].
  - reflexivity.
  - intros Hc Hne. unfold skip_invalid.
    cbn [unread length Nat.add].
    cbn [skip_invalid_loop feof eof_flag getc unread written].
    change (EOF =? 13) with false. cbn [andb]. cbv iota.
    change (valid_char 13) with false. cbv iota.
    cbn [skip_invalid_loop feof eof_flag getc unread written].
    change (13 =? 13) with true. apply Z.eqb_neq in Hne. rewrite Hne.
    cbn [andb negb]. cbv iota. change (valid_char 10) with true. cbv iota.
    unfold ungetc, EOF. destruct (Z.eqb_spec c (-1)); [lia |].
    cbn [unread written]. rewrite Z.mod_small by lia. reflexivity.
  - reflexivity.
Qed.

(** X13: [skip_invalid] skips a byte that is no character of the log
    (and no carriage return): the result is the one for the rest of the
    stream. *)
Theorem skip_invalid_skips (c : Z) (rest w : list Z) :
  valid_char c = false -> c <> 13 ->
  skip_invalid (mk_FILE (c :: rest) false w) =
  skip_invalid (mk_FILE rest false w).
Proof.
  intros Hv Hne. unfold skip_invalid at 1.
  cbn [unread length Nat.add skip_invalid_loop feof eof_flag getc written].
  change (EOF =? 13) with false. cbn [andb]. cbv iota. rewrite Hv.
  replace (length rest + 2)%nat with (S (length rest + 1)) by lia.
  rewrite skip_invalid_loop_start by (auto; fail).
  replace (S (length rest + 1)) with (length rest + 2)%nat by lia.
  reflexivity.
Qed.

(** Every character that [skip_invalid] accepts is a byte. *)
Lemma valid_char_byte (c : Z) : valid_char c = true -> 0 <= c < 256.
Proof.
  unfold valid_char. cbn [existsb]. intros H.
  repeat (apply orb_true_iff in H; destruct H as [H | H];
          [apply Z.eqb_eq in H; lia |]).
  discriminate.
Qed.

(** A valid character pushed back is the next one [skip_invalid]
    returns. *)
Lemma skip_invalid_ungetc (c : Z) (f : FILE) :
  valid_char c = true ->
  skip_invalid (ungetc c f) = (c, mk_FILE (unread f) false (written f)).
Proof.
  intros Hv. pose proof (valid_char_byte c Hv) as Hb.
  unfold ungetc, EOF. destruct (Z.eqb_spec c (-1)); [lia |].
  rewrite Z.mod_small by lia. unfold skip_invalid.
  cbn [unread length Nat.add skip_invalid_loop feof eof_flag getc written].
  change (EOF =? 13) with false. cbn [andb]. cbv iota.
  rewrite Hv. reflexivity.
Qed.

(** The read-ahead of [get_bit_file] loses nothing: the character it
    looked at is the one that the next call is going to consume ([EOF]
    when it found the end of the file). *)
Lemma file_read_ahead_next_char (inch : Z) (s : input_state) (f : FILE) :
  logfile s = Some f ->
  next_char (file_read_ahead inch s) = (skip_invalid f).1.
Proof.
  intros Hf. unfold file_read_ahead, next_char.
  cbn [logfile set_oldinch]. rewrite Hf.
  pose proof (skip_invalid_returns f) as (Hr & _).
  destruct (skip_invalid f) as [c f1]. cbn [fst snd] in *.
  assert (Hl : forall s', logfile (set_logfile s' (Some (ungetc c f1))) =
                          Some (ungetc c f1)) by reflexivity.
  rewrite Hl.
  destruct Hr as [Hv | [-> He]].
  - rewrite skip_invalid_ungetc by exact Hv. reflexivity.
  - unfold ungetc. change (EOF =? EOF) with true. cbv iota.
    unfold skip_invalid.
    replace (length (unread f1) + 2)%nat with (S (length (unread f1) + 1))
      by lia.
    cbn [skip_invalid_loop]. unfold feof. rewrite He. reflexivity.
Qed.

(** What the read-ahead decides from the character it looked at: the
    roll-back of the bit position is requested only before a line feed or
    an [a] record, and the end of the file is reported as [done]. *)
Lemma file_read_ahead_decides (inch : Z) (s : input_state) (f : FILE) :
  logfile s = Some f ->
  (dec_bp (file_read_ahead inch s) = 1 -> dec_bp s <> 1 ->
   (skip_invalid f).1 = 10 \/ (skip_invalid f).1 = 97) /\
  ((skip_invalid f).1 = EOF ->
   done (gb_res (file_read_ahead inch s)) = true) /\
  (done (gb_res (file_read_ahead inch s)) = true ->
   done (gb_res s) = true \/ eof_flag (skip_invalid f).2 = true) /\
  exists f',
    logfile (file_read_ahead inch s) = Some f' /\
    (length (unread f') <= length (unread f))%nat.
Proof.
  intros Hf. unfold file_read_ahead. cbn [logfile set_oldinch]. rewrite Hf.
  pose proof (skip_invalid_returns f) as (Hr & _ & Hle & Hlt).
  destruct (skip_invalid f) as [c f1]. cbn [fst snd] in *.
  assert (Hlen : (length (unread (ungetc c f1)) <= length (unread f))%nat).
  { unfold ungetc. destruct (Z.eqb_spec c EOF) as [-> | Hc]; [exact Hle |].
    cbn [unread length]. specialize (Hlt Hc). lia. }
  unfold feof. destruct (eof_flag f1) eqn:He; cbn [negb].
  - cbn. repeat split; eauto. intros H1 H2. congruence.
  - match goal with
    | |- context [if ?c then _ else _] => destruct c eqn:Ec
    end; cbn; repeat split; eauto; try congruence.
    + intros _ _. cbn in Ec.
      apply andb_true_iff in Ec. destruct Ec as [_ Ec].
      apply orb_true_iff in Ec. destruct Ec as [Ec | Ec];
        apply Z.eqb_eq in Ec; auto.
    + intros ->. destruct Hr as [Hv | [_ Hr]]; [discriminate | congruence].
    + intros ->. destruct Hr as [Hv | [_ Hr]]; [discriminate | congruence].
Qed.

Lemma scan_space_length (l : list Z) :
  (length (scan_space l) <= length l)%nat.
Proof.
  induction l as [| c l IH]; cbn [scan_space]; [lia |].
  destruct (isspace c); cbn [length] in *; lia.
Qed.

Lemma scan_digits_length (width : nat) :
  forall acc count f,
    (length (unread (scan_digits width acc count f).2) <=
     length (unread f))%nat.
Proof.
  induction width as [| width IH]; intros acc count f; cbn [scan_digits].
  - cbn. lia.
  - destruct (unread f) as [| c rest] eqn:Eu; [cbn; lia |].
    destruct (isdigit c).
    + etransitivity; [apply IH |]. cbn. lia.
    + cbn. rewrite Eu. cbn. lia.
Qed.

(** [fscanf] pushes nothing back. *)
Lemma fscanf_u10_length (f : FILE) :
  (length (unread (fscanf_u10 f).2) <= length (unread f))%nat.
Proof.
  unfold fscanf_u10. pose proof (scan_space_length (unread f)) as Hs.
  destruct (scan_space (unread f)) as [| c rest]; [cbn; lia |].
  cbn [length] in Hs.
  destruct (c =? 45); [| destruct (c =? 43)]; cbv beta iota zeta;
    match goal with
    | |- context [scan_digits ?w ?a ?k ?g] =>
        pose proof (scan_digits_length w a k g) as Hd;
        destruct (scan_digits w a k g) as [[v count] f2]
    end; cbn [unread length snd] in *;
    destruct count; cbn; lia.
Qed.

Lemma file_switch_logfile (inch : Z) (s : input_state) (f : FILE) :
  logfile s = Some f ->
  exists f',
    logfile (file_switch inch s) = Some f' /\
    (length (unread f') <= length (unread f))%nat.
Proof.
  intros Hf. unfold file_switch.
  destruct ((48 <=? inch) && (inch <=? 52)).
  { if_cases; cbn; eauto. }
  if_cases; try (cbn; eauto; fail).
  cbn [logfile set_bit set_gb_res]. rewrite Hf.
  pose proof (fscanf_u10_length f) as Hl.
  destruct (fscanf_u10 f) as [[res v] f']. cbn [snd] in Hl.
  if_cases; cbn; eauto.
Qed.

(** A call of [get_bit_file] reports [done] or has consumed at least one
    byte of the log; if it requests the roll-back of the bit position
    ([dec_bp] becomes 1), the next character is a line feed or starts an
    [a] record; and when the end of the file comes next, it has reported
    [done]. *)
Lemma get_bit_file_reads (s : input_state) (f : FILE) :
  logfile s = Some f ->
  (done (gb_res (get_bit_file s)) = true \/
   exists f',
     logfile (get_bit_file s) = Some f' /\
     (length (unread f') < length (unread f))%nat) /\
  (dec_bp (get_bit_file s) = 1 -> dec_bp s <> 1 ->
   next_char (get_bit_file s) = 10 \/ next_char (get_bit_file s) = 97) /\
  (next_char (get_bit_file s) = EOF ->
   done (gb_res (get_bit_file s)) = true).
Proof.
  intros Hf. unfold get_bit_file. rewrite Hf.
  pose proof (skip_invalid_returns f) as (Hr & _ & _ & Hlt).
  destruct (skip_invalid f) as [inch f1]. cbn [fst snd] in *.
  pose proof (set_new_state_frame s) as (_ & Hd & _).
  revert Hd. generalize (set_new_state s) as s1. intros s1 Hd.
  destruct (Z.eqb_spec inch EOF) as [-> | Hne].
  { cbn. repeat split; auto. intros H1 H2. congruence. }
  specialize (Hlt Hne).
  destruct (file_switch_logfile inch (set_logfile s1 (Some f1)) f1 eq_refl)
    as (f2 & Hf2 & Hl2).
  pose proof (file_switch_frame inch (set_logfile s1 (Some f1)))
    as (_ & Hd2 & _).
  revert Hf2 Hd2. generalize (file_switch inch (set_logfile s1 (Some f1))).
  intros s2 Hf2 Hd2. cbn [dec_bp set_logfile] in Hd2.
  set (s3 := if negb (read_acc_minlen s2)
             then set_acc_minlen s2 (wrap32 (acc_minlen s2 + t (bit s2)))
             else s2).
  assert (H3 : logfile s3 = Some f2 /\ dec_bp s3 = dec_bp s)
    by (unfold s3; destruct (negb (read_acc_minlen s2)); cbn; split;
        congruence).
  destruct H3 as [Hf3 Hd3]. clearbody s3.
  pose proof (file_read_ahead_next_char inch s3 f2 Hf3) as Hn.
  pose proof (file_read_ahead_decides inch s3 f2 Hf3)
    as (Hdec & Heof & _ & f4 & Hf4 & Hl4).
  rewrite Hn. split; [| split].
  - right. exists f4. split; [exact Hf4 | lia].
  - intros H1 H2. apply Hdec; congruence.
  - exact Heof.
Qed.

(** X14: the read-ahead of [get_bit_file] announces what comes next.  If
    the call requests the roll-back of the bit position ([dec_bp] becomes
    1), the character the next call is going to consume is a line feed or
    starts an [a] record; and if the end of the file comes next, the call
    has reported [done]. *)
Theorem get_bit_file_look_ahead (s : input_state) :
  is_Some (logfile s) ->
  (dec_bp (get_bit_file s) = 1 -> dec_bp s <> 1 ->
   next_char (get_bit_file s) = 10 \/ next_char (get_bit_file s) = 97) /\
  (next_char (get_bit_file s) = EOF ->
   done (gb_res (get_bit_file s)) = true).
Proof.
  intros [f Hf]. pose proof (get_bit_file_reads s f Hf) as (_ & H).
  exact H.
Qed.

(** ** Markers and the bit position *)

(** [next_bit] never returns the marker [emark_late]. *)
Lemma next_bit_not_late (s : input_state) :
  marker (gb_res (next_bit s)) <> emark_late.
Proof.
  unfold next_bit, BUFLEN.
  set (s1 := if dec_bp s =? 1 then _ else s). clearbody s1.
  destruct (marker (gb_res s1)) eqn:Em; cbn [marker_eqb orb]; cbn.
  all: if_cases; cbn in *; rewrite ?Em in *; cbn in *; congruence.
Qed.

Lemma next_bit_done (s : input_state) :
  done (gb_res (next_bit s)) = done (gb_res s).
Proof. unfold next_bit. if_cases; reflexivity. Qed.

(** X15: [next_bit] never returns the marker [emark_late]: it returns
    [emark_minute] exactly when the reader found a minute or late marker,
    and [emark_toolong] only with the bit position back at 0; the other
    parts of the result are those of the reader. *)
Theorem next_bit_marker (s : input_state) :
  marker (gb_res (next_bit s)) <> emark_late /\
  (marker (gb_res (next_bit s)) = emark_minute <->
   Mainloop.is_minute_or_late (gb_res s) = true) /\
  (marker (gb_res (next_bit s)) = emark_toolong -> bitpos (next_bit s) = 0) /\
  done (gb_res (next_bit s)) = done (gb_res s) /\
  skip (gb_res (next_bit s)) = skip (gb_res s) /\
  bitval (gb_res (next_bit s)) = bitval (gb_res s) /\
  hwstat (gb_res (next_bit s)) = hwstat (gb_res s) /\
  bad_io (gb_res (next_bit s)) = bad_io (gb_res s).
Proof.
  unfold next_bit, Mainloop.is_minute_or_late, BUFLEN.
  set (s1 := if dec_bp s =? 1 then _ else s).
  assert (E1 : gb_res s1 = gb_res s)
    by (unfold s1; destruct (dec_bp s =? 1); reflexivity).
  clearbody s1. rewrite <- E1. clear E1.
  destruct (marker (gb_res s1)) eqn:Em; cbn [marker_eqb orb]; cbn.
  all: if_cases; cbn in *; rewrite ?Em in *; cbn in *.
  all: repeat split; intros; try congruence; try discriminate; try lia.
Qed.

(** What [set_new_state] leaves in [gb_res]: a pending too-long or late
    marker, and nothing else. *)
Lemma set_new_state_result s :
  gb_res (set_new_state s) =
  mk_GB_result false ebv_none
    (match marker (gb_res s) with
     | emark_toolong => emark_toolong
     | emark_late => emark_late
     | _ => emark_none
     end) ehw_ok false false.
Proof.
  unfold set_new_state.
  destruct (negb (skip (gb_res s))); cbn;
    destruct (marker (gb_res s)) eqn:E; cbn;
    unfold set_skip, set_done, set_hwstat, set_marker, set_bitval,
      set_bad_io; cbn; rewrite ?E; reflexivity.
Qed.

Lemma file_read_ahead_result inch s :
  bitval (gb_res (file_read_ahead inch s)) = bitval (gb_res s) /\
  hwstat (gb_res (file_read_ahead inch s)) = hwstat (gb_res s) /\
  bad_io (gb_res (file_read_ahead inch s)) = bad_io (gb_res s) /\
  skip (gb_res (file_read_ahead inch s)) = skip (gb_res s) /\
  marker (gb_res (file_read_ahead inch s)) = marker (gb_res s).
Proof.
  unfold file_read_ahead. cbn [logfile set_oldinch].
  destruct (logfile s) as [f |]; [| cbn; auto].
  destruct (skip_invalid f) as [c f'].
  if_cases; cbn; auto.
Qed.

(** The result that the [switch] of [get_bit_file] makes of the fresh
    [gb_res], by the character read. *)
Lemma file_switch_result inch s m0 :
  gb_res s = mk_GB_result false ebv_none (pending_marker m0) ehw_ok false false ->
  inch <> EOF ->
  char_result m0 inch (gb_res (file_switch inch s)).
Proof.
  intros Hg Hne. unfold char_result, file_switch.
  destruct (Z.eqb_spec inch 48) as [-> | ?].
  { cbn. rewrite Hg. cbn. auto. }
  destruct (Z.eqb_spec inch 49) as [-> | ?].
  { cbn. rewrite Hg. cbn. auto. }
  destruct (Z.eqb_spec inch 50) as [-> | ?].
  { cbn. rewrite Hg. cbn. auto. }
  destruct (Z.eqb_spec inch 51) as [-> | ?].
  { cbn. rewrite Hg. cbn. auto. }
  destruct (Z.eqb_spec inch 52) as [-> | ?].
  { cbn. rewrite Hg. cbn. destruct m0; cbn; rewrite ?Hg; cbn; auto. }
  replace ((48 <=? inch) && (inch <=? 52)) with false
    by (destruct (Z.leb_spec 48 inch); destruct (Z.leb_spec inch 52);
        cbn; try reflexivity; lia).
  destruct (Z.eqb_spec inch 120) as [-> | ?].
  { cbn. rewrite Hg. cbn. auto. }
  destruct (Z.eqb_spec inch 114) as [-> | ?].
  { cbn. rewrite Hg. cbn. auto. }
  destruct (Z.eqb_spec inch 35) as [-> | ?].
  { cbn. rewrite Hg. cbn. auto. }
  destruct (Z.eqb_spec inch 42) as [-> | ?].
  { cbn. rewrite Hg. cbn. auto. }
  destruct (Z.eqb_spec inch 95) as [-> | ?].
  { cbn. rewrite Hg. cbn. auto. }
  destruct (Z.eqb_spec inch 97) as [-> | ?].
  { cbn [logfile set_bit set_gb_res].
    destruct (logfile s) as [f |].
    - destruct (fscanf_u10 f) as [[res v] f'].
      destruct (res =? 1); cbn; rewrite Hg; cbn; auto.
    - cbn. rewrite Hg. cbn. auto. }
  rewrite Hg. cbn. auto.
Qed.

(** The result of [get_bit_file] by the character it consumes. *)
Lemma get_bit_file_result s :
  is_Some (logfile s) ->
  char_result (marker (gb_res s)) (next_char s) (gb_res (get_bit_file s)).
Proof.
  intros [f Hf]. unfold get_bit_file, next_char. rewrite Hf.
  destruct (skip_invalid f) as [inch f1]. cbn [fst].
  pose proof (set_new_state_result s) as Hg.
  fold (pending_marker (marker (gb_res s))) in Hg.
  revert Hg. generalize (set_new_state s) as s1. intros s1 Hg.
  destruct (Z.eqb_spec inch EOF) as [-> | Hne].
  { unfold char_result. cbn. rewrite Hg. cbn. auto. }
  pose proof (file_switch_result inch (set_logfile s1 (Some f1))
                (marker (gb_res s)) Hg Hne) as Hsw.
  revert Hsw. generalize (file_switch inch (set_logfile s1 (Some f1))).
  intros s2 Hsw.
  match goal with
  | |- context [file_read_ahead inch ?x] =>
      pose proof (file_read_ahead_result inch x) as (H1 & H2 & H3 & H4 & H5);
      assert (Hx : gb_res x = gb_res s2)
        by (destruct (negb (read_acc_minlen s2)); reflexivity)
  end.
  unfold char_result in *. rewrite H1, H2, H3, H4, H5, Hx. exact Hsw.
Qed.

(** X16: recovery from a minute that was too long.  When [next_bit] has
    set the marker [emark_toolong] (with the bit position 0) and the log
    goes on, the next bit ends the condition: a minute marker (['4'])
    comes out as [emark_minute] at position 1, having been late, and any
    other character clears the marker. *)
Theorem toolong_recovers (s : input_state) :
  is_Some (logfile s) ->
  marker (gb_res s) = emark_toolong ->
  bitpos s = 0 -> dec_bp s <> 1 ->
  marker (gb_res (get_bit_file s)) =
    (if next_char s =? 52 then emark_late else emark_toolong) /\
  marker (gb_res (next_bit (get_bit_file s))) =
    (if next_char s =? 52 then emark_minute else emark_none) /\
  (next_char s = 52 -> bitpos (next_bit (get_bit_file s)) = 1) /\
  0 <= bitpos (next_bit (get_bit_file s)) <= 1.
Proof.
  intros Hl Hm Hb Hd.
  pose proof (get_bit_file_result s Hl) as (_ & _ & _ & _ & Hmk).
  pose proof (get_bit_file_frame s) as (Eb & Ed & _).
  rewrite Hm in Hmk. cbn [pending_marker] in Hmk.
  assert (Hd' : dec_bp (get_bit_file s) <> 1)
    by (destruct Ed as [Ed | [_ Ed]]; [congruence | lia]).
  rewrite Hb in Eb.
  revert Hmk Eb Hd'. generalize (get_bit_file s) as s1.
  intros s1 Hmk Eb Hd'.
  split; [exact Hmk |].
  unfold next_bit, BUFLEN. apply Z.eqb_neq in Hd'. rewrite Hd'.
  destruct (Z.eqb_spec (next_char s) 52) as [E | E]; rewrite Hmk;
    cbn [marker_eqb orb].
  - cbn. rewrite Hmk. cbn. repeat split; auto; lia.
  - destruct (negb (skip (gb_res s1))); cbn; rewrite Eb; cbn; rewrite Hmk;
      cbn; change (0 + 1 =? 61) with false; cbn;
      repeat split; try congruence; lia.
Qed.

(** In file mode [dec_bp] is 0, 1 or 2. *)
Lemma file_reachable_dec_bp s :
  file_reachable s -> dec_bp s = 0 \/ dec_bp s = 1 \/ dec_bp s = 2.
Proof.
  induction 1 as [content | s _ IH | s _ IH | s _ IH].
  - left. reflexivity.
  - pose proof (get_bit_file_frame s) as (_ & [Ed | [Ed _]] & _);
      [rewrite Ed; exact IH | auto].
  - unfold next_bit.
    destruct (Z.eqb_spec (dec_bp s) 1) as [E | E]; if_cases; cbn; auto.
    all: destruct IH as [IH | [IH | IH]]; auto.
  - exact IH.
Qed.

(** X17: the roll-back of the bit position in file mode.  [dec_bp] is 0,
    1 or 2; [get_bit_file] takes it from 0 to 1 or leaves it alone;
    [next_bit] takes it to 0 at a minute or late marker and from 1 to 2
    otherwise; so once it is 2, the position is not rolled back again
    before the next marker: short of a marker and of the wrap at
    [BUFLEN], [next_bit] then keeps the position or advances it by
    one. *)
Theorem dec_bp_protocol (s : input_state) :
  file_reachable s ->
  (dec_bp s = 0 \/ dec_bp s = 1 \/ dec_bp s = 2) /\
  (dec_bp (get_bit_file s) = dec_bp s \/
   dec_bp s = 0 /\ dec_bp (get_bit_file s) = 1) /\
  dec_bp (next_bit s) =
    (if Mainloop.is_minute_or_late (gb_res s) then 0
     else if dec_bp s =? 1 then 2 else dec_bp s) /\
  (dec_bp s = 2 ->
   dec_bp (get_bit_file s) = 2 /\
   (Mainloop.is_minute_or_late (gb_res (get_bit_file s)) = false ->
    dec_bp (next_bit (get_bit_file s)) = 2 /\
    (marker (gb_res (next_bit (get_bit_file s))) <> emark_toolong ->
     bitpos s <= bitpos (next_bit (get_bit_file s)) <= bitpos s + 1))).
Proof.
  intros Hr.
  assert (Hnb : forall s0,
    dec_bp (next_bit s0) =
      (if Mainloop.is_minute_or_late (gb_res s0) then 0
       else if dec_bp s0 =? 1 then 2 else dec_bp s0)).
  { intros s0. unfold next_bit, Mainloop.is_minute_or_late.
    destruct (dec_bp s0 =? 1);
      cbn [bitpos dec_bp gb_res set_bitpos set_dec_bp set_gb_res];
      destruct (marker_eqb (marker (gb_res s0)) emark_minute ||
                marker_eqb (marker (gb_res s0)) emark_late);
      if_cases; reflexivity. }
  pose proof (file_reachable_dec_bp s Hr) as H012.
  pose proof (get_bit_file_frame s) as (Eb & Ed & _).
  assert (Hg : dec_bp (get_bit_file s) = dec_bp s \/
               dec_bp s = 0 /\ dec_bp (get_bit_file s) = 1).
  { destruct Ed as [Ed | [Ed _]]; [left; exact Ed |].
    destruct (Z.eq_dec (dec_bp s) 1) as [E1 | E1]; [left; congruence |].
    destruct (Z.eq_dec (dec_bp s) 2) as [E2 | E2].
    - exfalso. revert Ed. unfold get_bit_file.
      destruct (logfile s) as [f |]; [| congruence].
      destruct (skip_invalid f) as [inch f1].
      pose proof (set_new_state_frame s) as (_ & Hd & _).
      revert Hd. generalize (set_new_state s) as s1. intros s1 Hd.
      destruct (inch =? EOF); [cbn; congruence |].
      pose proof (file_switch_frame inch (set_logfile s1 (Some f1)))
        as (_ & Hd2 & _).
      revert Hd2. generalize (file_switch inch (set_logfile s1 (Some f1))).
      intros s2 Hd2. cbn [dec_bp set_logfile] in Hd2.
      set (s3 := if negb (read_acc_minlen s2)
                 then set_acc_minlen s2 (wrap32 (acc_minlen s2 + t (bit s2)))
                 else s2).
      assert (Hd3 : dec_bp s3 = 2)
        by (unfold s3; destruct (negb (read_acc_minlen s2)); cbn; congruence).
      clearbody s3. unfold file_read_ahead. cbn [logfile set_oldinch].
      destruct (logfile s3) as [f3 |]; [| cbn; congruence].
      destruct (skip_invalid f3) as [c f4].
      cbn [dec_bp set_oldinch]. rewrite Hd3. cbn [Z.eqb andb].
      change (2 =? 0) with false. cbn [andb].
      destruct (negb (feof f4)); cbn; congruence.
    - right. split; [lia | exact Ed]. }
  split; [exact H012 |]. split; [exact Hg |]. split; [apply Hnb |].
  intros H2. assert (Hg2 : dec_bp (get_bit_file s) = 2)
    by (destruct Hg as [Hg | [Hg _]]; congruence).
  split; [exact Hg2 |]. intros Hm.
  rewrite Hnb, Hm, Hg2. split; [reflexivity |].
  revert Hm Hg2 Eb. generalize (get_bit_file s) as s1. intros s1 Hm Hg2 Eb.
  unfold next_bit, BUFLEN. rewrite Hg2. change (2 =? 1) with false.
  cbv iota. unfold Mainloop.is_minute_or_late in Hm. rewrite Hm.
  destruct (negb (skip (gb_res s1)));
    cbn [bitpos dec_bp gb_res set_bitpos set_dec_bp set_gb_res];
    match goal with
    | |- context [?x =? 61] => destruct (x =? 61)
    end; cbn; try congruence.
  all: intros _; if_cases; cbn; lia.
Qed.

(** ** The symbols of the log as [nplpi-analyze] displays them *)

(** X18: [nplpi-analyze] echoes the log.  For a bit ['0'] to ['4'], a
    hardware status ['x'], ['r'] or ['#'] and an unknown bit ['_'] that
    [get_bit_file] has consumed, [display_bit] writes that very character
    (after a space at the start of a field); for an I/O error ['*'], and
    for ['5'], a line feed and NUL, which the reader accepts too, it
    writes ['_']. *)
Theorem display_bit_echo (s : input_state) :
  file_reachable s ->
  let c := next_char s in
  let s' := get_bit_file s in
  let shown := Analyze.display_bit s' (gb_res s') (get_bitpos s') in
  let space := if is_space_bit (bitpos s) then [32] else [] in
  ((48 <= c <= 52 \/ c = 120 \/ c = 114 \/ c = 35 \/ c = 95) ->
   shown = space ++ [c]) /\
  ((c = 42 \/ c = 53 \/ c = 10 \/ c = 0) -> shown = space ++ [95]).
Proof.
  intros Hr. cbv zeta.
  pose proof (file_reachable_inv s Hr) as (Hb & _ & Hlen & Hl & _).
  pose proof (get_bit_file_result s Hl) as (Hbv & Hhw & _).
  pose proof (get_bit_file_frame s) as (Eb & _ & Ebuf & _).
  unfold Analyze.display_bit, get_bitpos, get_buffer.
  rewrite Eb, Ebuf, Hbv, Hhw.
  assert (Hrd : forall v, rd (wr (buffer s) (bitpos s) v) (bitpos s) = v)
    by (intros v; apply rd_wr_same; lia).
  split.
  - intros [Hc | [-> | [-> | [-> | ->]]]]; try reflexivity.
    assert (next_char s = 48 \/ next_char s = 49 \/ next_char s = 50 \/
            next_char s = 51 \/ next_char s = 52)
      as [-> | [-> | [-> | [-> | ->]]]] by lia;
      cbn [Z.eqb Pos.eqb hwstat_eqb Analyze.bitvalue_eqb Z.leb Z.compare
           Pos.compare Pos.compare_cont andb];
      rewrite Hrd; reflexivity.
  - intros [-> | [-> | [-> | ->]]]; reflexivity.
Qed.

End InputProofs.

(** * Properties of [mainloop.c] *)

Section MainloopProofs.

Import Input Mainloop.

Context (cal : Calendar).
Context (setclock_ok : Z -> DT_result -> GB_result -> bool).
Context (setclock : tm -> eSC_status).
Context (process_setclock_result : option (ML_result -> Z -> ML_result)).








(** ** One iteration of the main loop *)

Lemma trace_grew_start m0 m :
  trace m = trace m0 -> trace_grew m0 m [] 0.
Proof. intros H. exists []. rewrite app_nil_r. auto. Qed.

Lemma trace_grew_same m0 m m' shown n :
  trace_grew m0 m shown n -> trace m' = trace m ->
  trace_grew m0 m' shown n.
Proof. intros (tr & Ht & H) E. exists tr. rewrite E. auto. Qed.

Lemma trace_grew_events m0 m m' shown n tr' :
  trace_grew m0 m shown n -> trace m' = trace m ++ tr' ->
  trace_grew m0 m' (shown ++ minutes_shown tr') (n + decodes tr').
Proof.
  intros (tr & Ht & Hs & Hn) E. exists (tr ++ tr').
  rewrite E, Ht, app_assoc. split; [reflexivity |].
  unfold minutes_shown, decodes in *.
  rewrite flat_map_app, List.filter_app, length_app, Hs. split; [reflexivity |].
  lia.
Qed.

(** [check_handle_new_minute] does nothing unless the marker is minute or
    late and [was_toolong] is false; then it runs [decode_time] once,
    between [display_minute] and [display_time], resets [acc_minlen] and
    counts [init_min] down. *)
Lemma check_handle_new_minute_cases bit m :
  let m' := check_handle_new_minute cal setclock_ok setclock
              process_setclock_result bit m in
  (is_minute_or_late bit && negb (was_toolong m) = false -> m' = m) /\
  (is_minute_or_late bit && negb (was_toolong m) = true ->
   input m' = reset_acc_minlen (input m) /\
   init_min m' = (if init_min m >? 0 then init_min m - 1 else init_min m) /\
   minlen m' = minlen m /\ old_bitpos m' = old_bitpos m /\
   bitpos m' = bitpos m /\ was_toolong m' = was_toolong m /\
   exists dt cur,
     trace m' = trace m ++ [display_minute (minlen m); display_time dt cur]).
Proof.
  cbv zeta. unfold check_handle_new_minute.
  destruct (is_minute_or_late bit && negb (was_toolong m)) eqn:Ec.
  - split; [discriminate | intros _].
    apply andb_true_iff in Ec. destruct Ec as [Em _]. rewrite Em.
    destruct (DecodeTime.decode_time cal (decoder m) (init_min m) (minlen m)
                (get_acc_minlen (input m)) (get_buffer (input m))
                (curtime m)) as [[dec cur] dt].
    destruct (settime (mlr m)); destruct process_setclock_result; cbn;
      repeat split; try reflexivity;
      exists dt, cur; rewrite <- app_assoc; reflexivity.
  - split; [intros _ | discriminate].
    destruct process_setclock_result; reflexivity.
Qed.

(** Names the value bound by the outermost [let] of the result the goal
    speaks about. *)
Ltac name_step x :=
  lazymatch goal with
  | |- ?Q (let m := ?X in @?body m) =>
      set (x := X); change (Q (body x)); cbv beta
  end.

(** One iteration of the main loop, begun with [was_toolong] false. *)
Lemma mainloop_body_summary (get_bit : input_state -> input_state)
    (has_display_new_second : bool)
    (process_input post_process_input : option (ML_result -> Z -> ML_result))
    (m : main_state) :
  was_toolong m = false ->
  iteration_summary process_input m (get_bit (input m))
    (mainloop_body cal setclock_ok setclock get_bit has_display_new_second
       process_setclock_result process_input post_process_input m).
Proof.
  intros Hw. unfold iteration_summary.
  set (s1 := get_bit (input m)). set (s2 := next_bit s1).
  assert (Hlate : marker (gb_res s2) <> emark_late)
    by apply next_bit_not_late.
  match goal with
  | |- context [mainloop_body ?a ?b ?c ?d ?e ?f ?g ?h ?i] =>
      pattern (mainloop_body a b c d e f g h i)
  end.
  match goal with |- ?P _ => set (Q := P) end.
  cbv beta delta [mainloop_body].
  name_step m1.
  assert (F1 : input m1 = s1 /\ trace m1 = trace m /\
               init_min m1 = init_min m /\ minlen m1 = minlen m /\
               old_bitpos m1 = old_bitpos m /\ was_toolong m1 = false /\
               mlr m1 = mlr m /\ bitpos m1 = bitpos m)
    by (repeat split; auto).
  clearbody m1.
  name_step gb.
  assert (Hgb : gb = gb_res s1)
    by (destruct F1 as (I1 & _); unfold gb; congruence).
  clearbody gb. subst gb.
  match goal with
  | |- context [let '(_, _) := ?X in _] => destruct X as [brk m2] eqn:EX
  end.
  assert (F2 : input m2 = s1 /\ trace m2 = trace m /\
               init_min m2 = init_min m /\ minlen m2 = minlen m /\
               old_bitpos m2 = old_bitpos m /\ was_toolong m2 = false /\
               brk = left_early process_input (gb_res s1) m /\
               (brk = true ->
                done (gb_res s1) || quit (mlr m2) = true)).
  { destruct F1 as (? & ? & ? & ? & ? & ? & Hm1 & Hb1).
    unfold left_early.
    destruct process_input as [f |]; cbv zeta in EX; inversion EX; subst;
      cbn; rewrite ?Hm1, ?Hb1; repeat split; auto; try discriminate. }
  clear EX F1. destruct F2 as (I2 & T2 & N2 & L2 & O2 & W2 & Hl2 & Hq2).
  destruct brk.
  { unfold Q. rewrite <- Hl2. unfold iteration_left. cbn [fst snd].
    repeat split; auto. }
  clear Hq2.
  name_step m3.
  assert (F3 : input m3 = s1 /\ trace_grew m m3 [] 0 /\
               init_min m3 = init_min m /\ minlen m3 = minlen m /\
               old_bitpos m3 = old_bitpos m /\ was_toolong m3 = false)
    by (repeat split; auto; apply trace_grew_start; exact T2).
  clearbody m3. clear I2 T2 N2 L2 O2 W2.
  name_step m4.
  assert (F4 : input m4 = s1 /\ trace_grew m m4 [] 0 /\
               init_min m4 = init_min m /\ minlen m4 = minlen m /\
               old_bitpos m4 = old_bitpos m /\ was_toolong m4 = false).
  { destruct F3 as (? & ? & ? & ? & ? & ?).
    unfold m4. destruct post_process_input; cbn; repeat split; auto;
      try (eapply trace_grew_same; [eassumption | reflexivity]). }
  clearbody m4. clear F3.
  name_step m5.
  assert (F5 : input m5 = s1 /\ trace_grew m m5 [] 0 /\
               init_min m5 = init_min m /\ minlen m5 = minlen m /\
               old_bitpos m5 = old_bitpos m /\ was_toolong m5 = false).
  { destruct F4 as (? & T4 & ? & ? & ? & ?).
    unfold m5. destruct (_ && _); cbn; repeat split; auto.
    exact (trace_grew_events m m4
             (with_trace m4
                (trace m4 ++ [display_bit (gb_res s1) (bitpos m4)]))
             [] 0 [display_bit (gb_res s1) (bitpos m4)] T4 eq_refl). }
  clearbody m5. clear F4.
  name_step m6.
  assert (F6 : input m6 = s2 /\ trace_grew m m6 [] 0 /\
               init_min m6 = init_min m /\ minlen m6 = minlen m /\
               old_bitpos m6 = old_bitpos m /\ was_toolong m6 = false).
  { destruct F5 as (I5 & T5 & ? & ? & ? & ?).
    unfold m6. cbn. rewrite I5. repeat split; auto. }
  clearbody m6. clear F5.
  name_step b.
  assert (Hb : b = gb_res s2) by (destruct F6 as (I6 & _); unfold b; congruence).
  clearbody b. subst b.
  set (mk := marker_eqb (marker (gb_res s2)) emark_minute).
  assert (Hmk : is_minute_or_late (gb_res s2) = mk).
  { unfold is_minute_or_late, mk.
    destruct (marker (gb_res s2)); try reflexivity. contradiction. }
  name_step m7.
  assert (F7 :
    input m7 = (if mk && (minlen m =? -1) then reset_acc_minlen s2 else s2) /\
    trace_grew m m7 (if mk && (minlen m =? -1) then [-1] else [])
                    (if mk && (minlen m =? -1) then 1 else 0) /\
    init_min m7 =
      (if mk && (minlen m =? -1) && (init_min m >? 0)
       then init_min m - 1 else init_min m) /\
    old_bitpos m7 = old_bitpos m /\
    (if minlen m =? -1 then was_toolong m7 = true
     else was_toolong m7 = false /\ minlen m7 = minlen m)).
  { destruct F6 as (I6 & T6 & N6 & L6 & O6 & W6).
    unfold m7. rewrite L6.
    destruct (Z.eqb_spec (minlen m) (-1)) as [E | E].
    - pose proof (check_handle_new_minute_cases (gb_res s2) m6)
        as (Hno & Hyes).
      cbv zeta in Hno, Hyes. rewrite Hmk, W6 in Hno, Hyes.
      cbn [negb] in Hno, Hyes. rewrite andb_true_r in *.
      destruct mk.
      + destruct (Hyes eq_refl)
          as (Hi & Hn & Hl & Ho & _ & _ & dt & cur & Ht).
        cbn. rewrite Hi, Hn, I6, N6, Ho, O6. repeat split; auto.
        pose proof (trace_grew_events m m6 _ [] 0 _ T6 Ht) as H7.
        rewrite L6, E in H7. exact H7.
      + rewrite (Hno eq_refl). cbn. repeat split; auto.
    - rewrite andb_false_r. cbn. repeat split; auto. }
  clearbody m7. clear F6.
  name_step m8.
  assert (F8 :
    input m8 = (if mk && (minlen m =? -1) then reset_acc_minlen s2 else s2) /\
    trace_grew m m8 (if mk && (minlen m =? -1) then [-1] else [])
                    (if mk && (minlen m =? -1) then 1 else 0) /\
    init_min m8 =
      (if mk && (minlen m =? -1) && (init_min m >? 0)
       then init_min m - 1 else init_min m) /\
    (if minlen m =? -1 then was_toolong m8 = true
     else was_toolong m8 = false) /\
    (mk = true -> minlen m8 = old_bitpos m)).
  { destruct F7 as (I7 & T7 & N7 & O7 & W7).
    unfold m8. fold mk. destruct mk.
    - cbn. repeat split; auto;
        try (eapply trace_grew_same; [exact T7 | reflexivity]);
        destruct (minlen m =? -1); tauto.
    - destruct (_ || _); cbv zeta; cbn; repeat split; auto;
        try (destruct (minlen m =? -1); tauto); try discriminate.
      exact (trace_grew_events m m7
               (with_trace (with_minlen m7 (-1))
                  (trace (with_minlen m7 (-1)) ++ [display_long_minute]))
               [] 0 [display_long_minute] T7 eq_refl). }
  clearbody m8. clear F7.
  name_step m9.
  assert (F9 :
    input m9 = (if mk && (minlen m =? -1) then reset_acc_minlen s2 else s2) /\
    trace_grew m m9 (if mk && (minlen m =? -1) then [-1] else [])
                    (if mk && (minlen m =? -1) then 1 else 0) /\
    init_min m9 =
      (if mk && (minlen m =? -1) && (init_min m >? 0)
       then init_min m - 1 else init_min m) /\
    (if minlen m =? -1 then was_toolong m9 = true
     else was_toolong m9 = false) /\
    (mk = true -> minlen m9 = old_bitpos m)).
  { destruct F8 as (I8 & T8 & N8 & W8 & L8).
    unfold m9. destruct has_display_new_second; cbn; repeat split; auto.
    pose proof (trace_grew_events m m8
                  (with_trace m8 (trace m8 ++ [display_new_second]))
                  _ _ [display_new_second] T8 eq_refl) as H9.
    cbn in H9. rewrite app_nil_r, Z.add_0_r in H9. exact H9. }
  clearbody m9. clear F8.
  name_step m10.
  assert (F10 :
    input m10 = (if mk then reset_acc_minlen s2 else s2) /\
    trace_grew m m10
      (if mk then [if minlen m =? -1 then -1 else old_bitpos m] else [])
      (if mk then 1 else 0) /\
    init_min m10 =
      (if mk && (init_min m >? 0) then init_min m - 1 else init_min m) /\
    was_toolong m10 = false).
  { destruct F9 as (I9 & T9 & N9 & W9 & L9).
    pose proof (check_handle_new_minute_cases (gb_res s2) m9)
      as (Hno & Hyes).
    cbv zeta in Hno, Hyes. rewrite Hmk in Hno, Hyes.
    unfold m10.
    destruct (Z.eqb_spec (minlen m) (-1)) as [E | E].
    - rewrite W9 in Hno. cbn [negb] in Hno. rewrite andb_false_r in Hno.
      rewrite (Hno eq_refl). rewrite andb_true_r in *.
      cbn. repeat split; auto.
    - rewrite W9 in Hno, Hyes. cbn [negb] in Hno, Hyes.
      rewrite andb_true_r in Hno, Hyes. rewrite andb_false_r in *.
      destruct mk.
      + destruct (Hyes eq_refl)
          as (Hi & Hn & Hl & Ho & _ & _ & dt & cur & Ht).
        cbn. rewrite Hi, Hn, I9, N9. repeat split; auto.
        pose proof (trace_grew_events m m9 _ [] 0 _ T9 Ht) as H10.
        rewrite (L9 eq_refl) in H10. exact H10.
      + rewrite (Hno eq_refl). cbn. repeat split; auto. }
  clearbody m10. clear F9.
  destruct F10 as (I10 & T10 & N10 & W10).
  unfold Q. rewrite <- Hl2. unfold iteration_done.
  destruct (done (gb_res s2) || quit (mlr m10)) eqn:Ed; cbn [fst snd];
    cbn; rewrite Ed; repeat split; auto.
Qed.






(** X21: the main loop ends on every log file that is read without a read
    error.  The streams of this development are the bytes of the file: a
    read of them never fails, and [getc] gives [EOF] only at their end,
    with the end-of-file indicator set.  (A C stream in error gives [EOF]
    with [feof] false, for which the loop of [skip_invalid] has no exit;
    that case is outside this theorem.)  On such a stream, with
    [get_bit_file] as the bit reader and whatever the hooks, the loop is
    left after at most one iteration more than the log has bytes unread:
    its state then meets the condition of the [break] (the reader is done
    or a hook asked to quit), and more iterations allowed change
    nothing. *)
Theorem mainloop_file_terminates (has_display_new_second : bool)
    (process_input post_process_input : option (ML_result -> Z -> ML_result))
    (fuel : nat) (m : main_state) (f : FILE) :
  was_toolong m = false ->
  logfile (input m) = Some f ->
  (length (unread f) < fuel)%nat ->
  let loop :=
    mainloop_loop cal setclock_ok setclock get_bit_file
      has_display_new_second process_setclock_result process_input
      post_process_input in
  done (gb_res (input (loop fuel m))) || quit (mlr (loop fuel m)) = true /\
  forall k, loop (fuel + k)%nat m = loop fuel m.
Proof.
  cbv zeta. revert m f.
  induction fuel as [| fuel IH]; intros m f Hw Hf Hlen; [lia |].
  cbn [mainloop_loop Nat.add].
  pose proof (mainloop_body_summary get_bit_file has_display_new_second
                process_input post_process_input m Hw) as H.
  unfold iteration_summary in H.
  pose proof (get_bit_file_reads (input m) f Hf) as (Hprog & _).
  destruct (mainloop_body _ _ _ _ _ _ _ _ m) as [brk m'].
  destruct (left_early _ _ _);
    unfold iteration_left, iteration_done in H; cbn [fst snd] in H.
  - destruct H as (-> & Hi & _ & _ & _ & Hq). rewrite Hi. auto.
  - destruct H as (Hw' & Hbrk & Hi & _).
    rewrite next_bit_done in Hbrk.
    assert (Hg : gb_res (input m') = gb_res (next_bit (get_bit_file (input m))))
      by (rewrite Hi; destruct (marker_eqb _ _); reflexivity).
    assert (Hl : logfile (input m') = logfile (get_bit_file (input m))).
    { rewrite Hi. destruct (marker_eqb _ _); cbn;
        apply (next_bit_acc (get_bit_file (input m))). }
    destruct brk.
    + rewrite Hg, next_bit_done. auto.
    + destruct Hprog as [Hd | (f' & Hf' & Hlt)].
      * rewrite Hd in Hbrk. discriminate.
      * apply (IH m' f'); [exact Hw' | congruence | lia].
Qed.

End MainloopProofs.

(** * The sampling loop of [input.c] *)

Section SamplerProofs.

Import Input.

Lemma wrap32_freq_nonzero (f : Z) :
  10 <= f <= 120000 -> 1 <= wrap32 (f * 1000000).
Proof.
  intros H. pose proof (wrap32_range (f * 1000000)) as Hr.
  assert (wrap32 (f * 1000000) <> 0); [| lia].
  unfold wrap32. intros E.
  apply Z.mod_divide in E; [| lia]. destruct E as [k Hk].
  change (2 ^ 32) with 4294967296 in Hk.
  assert (0 <= k <= 27) by lia.
  assert (k = 0 \/ k = 1 \/ k = 2 \/ k = 3 \/ k = 4 \/ k = 5 \/ k = 6 \/
          k = 7 \/ k = 8 \/ k = 9 \/ k = 10 \/ k = 11 \/ k = 12 \/ k = 13 \/
          k = 14 \/ k = 15 \/ k = 16 \/ k = 17 \/ k = 18 \/ k = 19 \/
          k = 20 \/ k = 21 \/ k = 22 \/ k = 23 \/ k = 24 \/ k = 25 \/
          k = 26 \/ k = 27) as Hc by lia.
  repeat (destruct Hc as [-> | Hc]; [lia |]). lia.
Qed.

(** After the frequency guard of [collect_pulses] the estimated rate is
    positive, so that [bit.realfreq * 1500000] is beyond every sample
    count the loop can reach: the timeout test fails. *)
Lemma timeout_test_after_guard (s : input_state) :
  10 <= freq (hw s) <= 120000 ->
  t (bit s) < freq (hw s) ->
  timeout_test (if frequency_guard s then reset_frequency s else s) = false.
Proof.
  intros Hf Ht. unfold timeout_test.
  rewrite Z.gtb_ltb. apply Z.ltb_ge.
  destruct (frequency_guard s) eqn:Eg.
  - assert (E : bit (reset_frequency s) =
                set_freq_reset
                  (set_realfreq (bit s) (wrap32 (freq (hw s) * 1000000)))
                  true)
      by (unfold reset_frequency; destruct (logfile s); reflexivity).
    rewrite E. cbn. pose proof (wrap32_freq_nonzero _ Hf). lia.
  - unfold frequency_guard in Eg. apply orb_false_iff in Eg.
    destruct Eg as [Eg _]. apply Z.leb_gt in Eg.
    pose proof (wrap32_range (freq (hw s) * 500000)). lia.
Qed.

Lemma reset_frequency_frame s :
  hw (reset_frequency s) = hw s /\
  gb_res (reset_frequency s) = gb_res s /\
  t (bit (reset_frequency s)) = t (bit s).
Proof. unfold reset_frequency. destruct (logfile s); cbn; auto. Qed.

(** An iteration of the sampling loop changes neither the hardware
    description nor the sample counter. *)
Lemma collect_body_frame (a : Z) (r : pulse_run) :
  hw (pr_state (snd (collect_body a r))) = hw (pr_state r) /\
  t (bit (pr_state (snd (collect_body a r)))) = t (bit (pr_state r)).
Proof.
  unfold collect_body.
  set (s := pr_state r).
  assert (Hg : exists s1,
             get_pulse s = ((get_pulse s).1, s1) /\
             hw s1 = hw s /\ t (bit s1) = t (bit s)).
  { unfold get_pulse. destruct (gpio s); eexists; cbn; eauto. }
  destruct Hg as (s1 & Eg & Hh & Hb). rewrite Eg.
  generalize ((get_pulse s).1) as p. intros p. clear Eg.
  destruct (p =? 2); [cbn; auto |].
  set (s2 := match signal (bit s1) with
             | Some _ => _
             | None => s1
             end).
  assert (H2 : hw s2 = hw s /\ t (bit s2) = t (bit s)).
  { unfold s2. destruct (signal (bit s1)); cbn; rewrite ?Hh, ?Hb; auto. }
  clearbody s2.
  set (s3 := if (pr_y r >=? 0) && (pr_y r <? Z.quot a 2)
             then set_bit s2 (set_tlast0 (bit s2) (t (bit s2))) else s2).
  assert (H3 : hw s3 = hw s /\ t (bit s3) = t (bit s)).
  { unfold s3. destruct (_ && _); cbn; tauto. }
  clearbody s3. clear H2. destruct H3 as (H3h & H3t).
  pose proof (reset_frequency_frame s3) as (Rh & _ & Rt).
  destruct (frequency_guard s3).
  - revert Rh Rt. generalize (reset_frequency s3) as s4. intros s4 Rh Rt.
    repeat match goal with
           | |- context [if ?c then _ else _] => destruct c
           end; cbn; rewrite ?Rh, ?Rt, ?H3h, ?H3t; auto.
  - repeat match goal with
           | |- context [if ?c then _ else _] => destruct c
           end; cbn; rewrite ?H3h, ?H3t; auto.
Qed.

(** Once the fuel covers the samples left, one more unit of it changes
    nothing. *)
Lemma collect_loop_more (a : Z) (n : nat) :
  forall r,
    freq (hw (pr_state r)) - t (bit (pr_state r)) <= Z.of_nat n ->
    collect_loop a (S n) r = collect_loop a n r.
Proof.
  induction n as [| n IH]; intros r Hn.
  - cbn [collect_loop].
    destruct (Z.ltb_spec (t (bit (pr_state r))) (freq (hw (pr_state r))));
      [lia | reflexivity].
  - set (k := S n). cbn [collect_loop]. unfold k at 2.
    cbn [collect_loop].
    destruct (Z.ltb_spec (t (bit (pr_state r))) (freq (hw (pr_state r))));
      [| reflexivity].
    pose proof (collect_body_frame a r) as (Hh & Ht).
    destruct (collect_body a r) as [brk r1]. cbn [snd] in *.
    destruct brk; [reflexivity |].
    apply IH. cbn. rewrite Hh, Ht. lia.
Qed.

(** The fuel of [collect_pulses] suffices: the loop has ended, by
    [break] or by its test, within [hw.freq - start] iterations. *)
Lemma collect_loop_fuel (a : Z) (k : nat) (r : pulse_run) :
  collect_loop a
    (Z.to_nat (freq (hw (pr_state r)) - t (bit (pr_state r))) + k) r =
  collect_loop a
    (Z.to_nat (freq (hw (pr_state r)) - t (bit (pr_state r)))) r.
Proof.
  induction k as [| k IH].
  - rewrite Nat.add_0_r. reflexivity.
  - rewrite Nat.add_succ_r, collect_loop_more; [exact IH | lia].
Qed.

(** One iteration of the sampling loop leaves the hardware status alone:
    the timeout branch, the only place in the loop that sets it, is not
    taken. *)
Lemma collect_body_hwstat (a : Z) (r : pulse_run) :
  10 <= freq (hw (pr_state r)) <= 120000 ->
  t (bit (pr_state r)) < freq (hw (pr_state r)) ->
  let r' := snd (collect_body a r) in
  hwstat (gb_res (pr_state r')) = hwstat (gb_res (pr_state r)) /\
  hw (pr_state r') = hw (pr_state r) /\
  t (bit (pr_state r')) = t (bit (pr_state r)).
Proof.
  intros Hf Ht. cbv zeta. unfold collect_body.
  set (s := pr_state r) in *.
  assert (Hg : exists s1,
             get_pulse s = ((get_pulse s).1, s1) /\
             hw s1 = hw s /\ gb_res s1 = gb_res s /\ bit s1 = bit s).
  { unfold get_pulse. destruct (gpio s); eexists; cbn; eauto. }
  destruct Hg as (s1 & Eg & Hh & Hgb & Hb). rewrite Eg.
  generalize ((get_pulse s).1) as p. intros p. clear Eg.
  destruct (p =? 2); [cbn; rewrite Hh, Hgb, Hb; auto |].
  set (s2 := match signal (bit s1) with
             | Some _ => _
             | None => s1
             end).
  assert (H2 : hw s2 = hw s /\ gb_res s2 = gb_res s /\
               t (bit s2) = t (bit s)).
  { unfold s2. destruct (signal (bit s1)); cbn; rewrite ?Hh, ?Hgb, ?Hb; auto. }
  clearbody s2.
  set (s3 := if (pr_y r >=? 0) && (pr_y r <? Z.quot a 2)
             then set_bit s2 (set_tlast0 (bit s2) (t (bit s2))) else s2).
  assert (H3 : hw s3 = hw s /\ gb_res s3 = gb_res s /\
               t (bit s3) = t (bit s)).
  { unfold s3. destruct (_ && _); cbn; tauto. }
  clearbody s3. clear H2.
  destruct H3 as (H3h & H3g & H3t).
  pose proof (timeout_test_after_guard s3) as Hto.
  rewrite H3h, H3t in Hto. specialize (Hto Hf Ht).
  pose proof (reset_frequency_frame s3) as (Rh & Rg & Rt).
  destruct (frequency_guard s3).
  - revert Hto Rh Rg Rt. generalize (reset_frequency s3) as s4.
    intros s4 Hto Rh Rg Rt. rewrite Hto.
    repeat match goal with
           | |- context [if ?c then _ else _] => destruct c
           end; cbn; rewrite ?Rh, ?Rg, ?Rt, ?H3h, ?H3g, ?H3t; auto.
  - rewrite Hto.
    repeat match goal with
           | |- context [if ?c then _ else _] => destruct c
           end; cbn; rewrite ?H3h, ?H3g, ?H3t; auto.
Qed.

Lemma collect_loop_hwstat (a : Z) (n : nat) :
  forall r,
    10 <= freq (hw (pr_state r)) <= 120000 ->
    let r' := collect_loop a n r in
    hwstat (gb_res (pr_state r')) = hwstat (gb_res (pr_state r)) /\
    hw (pr_state r') = hw (pr_state r).
Proof.
  induction n as [| n IH]; intros r Hf; cbv zeta; [cbn; auto |].
  cbn [collect_loop].
  destruct (Z.ltb_spec (t (bit (pr_state r))) (freq (hw (pr_state r))))
    as [Ht | Ht]; [| auto].
  pose proof (collect_body_hwstat a r Hf Ht) as (Hs & Hh & _).
  destruct (collect_body a r) as [brk r1]. cbn [snd] in *.
  destruct brk; [auto |].
  match goal with
  | |- context [collect_loop a n ?x] =>
      pose proof (IH x) as IH'
  end.
  cbn [pr_state hw set_bit gb_res] in IH'. rewrite Hh in IH'.
  specialize (IH' Hf). cbv zeta in IH'. destruct IH' as (E1 & E2).
  rewrite E1, E2. auto.
Qed.

(** C6 (what the code does instead): for every valid sample rate (10 to
    120000) a call of [collect_pulses] never takes the timeout branch.
    It returns with the hardware status it found, or with [ehw_random]
    set by the block after the loop once all of [hw.freq] samples have
    been read; the receive and transmit classifications are out of
    reach. *)
Theorem collect_pulses_never_times_out (a start init_bit : Z)
    (adj_freq : bool) (s : input_state) :
  10 <= freq (hw s) <= 120000 ->
  let s' := pr_state (collect_pulses a start init_bit adj_freq s) in
  hwstat (gb_res s') = hwstat (gb_res s) \/
  (hwstat (gb_res s) = ehw_ok /\ hwstat (gb_res s') = ehw_random /\
   freq (hw s) <= t (bit s')).
Proof.
  intros Hf. cbv zeta. unfold collect_pulses.
  match goal with
  | |- context [collect_loop a ?n ?x] =>
      pose proof (collect_loop_hwstat a n x Hf) as Hl;
      destruct (collect_loop a n x) as [s1 y stv ib adj] eqn:El
  end.
  cbv zeta in Hl. cbn [pr_state hw set_bit gb_res] in *.
  destruct Hl as (Hs & Hh).
  destruct (Z.geb_spec (t (bit s1)) (freq (hw s1))) as [Hge | Hlt];
    cbn [pr_state]; [| left; exact Hs].
  pose proof (reset_frequency_frame
                (if hwstat_eqb (hwstat (gb_res s1)) ehw_ok
                 then set_gb_res s1 (set_hwstat (gb_res s1) ehw_random)
                 else s1)) as (_ & Rg & Rt).
  rewrite Rg, Rt.
  destruct (hwstat (gb_res s1)) eqn:E1; cbn; rewrite ?E1; auto.
  right. rewrite <- Hh. auto.
Qed.

(** The failing input of C6: with the estimated rate at 600 samples per
    second, a second of 930 samples passes 1.5 * 600 = 900 samples without
    a timeout; [collect_pulses] returns at the rising edge, sample 930,
    with the status [ehw_ok].  With the line held high the loop runs
    through all 1000 samples, and it is the block after the loop that sets
    [ehw_random] and resets the frequency. *)
Lemma collect_pulses_never_times_out_witness :
  10 <= freq (hw (live_state_600 long_second)) <= 120000 /\
  (let s := live_state_600 long_second in
   let s' := pr_state (collect_pulses filter_a_1000 0 0 true s) in
   (hwstat (gb_res s') = hwstat (gb_res s) \/
    (hwstat (gb_res s) = ehw_ok /\ hwstat (gb_res s') = ehw_random /\
     freq (hw s) <= t (bit s'))) /\
   t (bit s') = 930 /\ tlow (bit s') = 50 /\
   hwstat (gb_res s') = ehw_ok /\
   realfreq (bit s') = 600000000) /\
  (let s' :=
     pr_state (collect_pulses filter_a_1000 0 0 true
                 (live_state_600 line_high)) in
   t (bit s') = 1000 /\
   hwstat (gb_res s') = ehw_random /\
   realfreq (bit s') = 1000000000).
Proof.
  assert (Hf : 10 <= freq (hw (live_state_600 long_second)) <= 120000)
    by (vm_compute; split; discriminate).
  split; [exact Hf |]. split; [split |].
  - exact (collect_pulses_never_times_out filter_a_1000 0 0 true
             (live_state_600 long_second) Hf).
  - vm_compute. repeat split.
  - vm_compute. repeat split.
Defined.

(** ** The filter, the sample count and the end of a second *)

(** One step of the exponential filter keeps the value between 0 and
    10^9. *)
Lemma filter_step_range (a y p : Z) :
  0 <= a <= 1000000000 -> 0 <= y <= 1000000000 -> p = 0 \/ p = 1 ->
  0 <= y + Z.quot (a * (p * 1000000000 - y)) 1000000000 <= 1000000000.
Proof.
  intros Ha Hy [-> | ->].
  - replace (a * (0 * 1000000000 - y)) with (- (a * y)) by ring.
    rewrite Z.quot_opp_l by lia.
    rewrite Z.quot_div_nonneg by nia.
    assert (0 <= a * y / 1000000000 <= y); [| lia].
    split; [apply Z.div_pos; nia |].
    apply Z.div_le_upper_bound; nia.
  - rewrite Z.quot_div_nonneg by nia.
    assert (0 <= a * (1 * 1000000000 - y) / 1000000000 <= 1000000000 - y);
      [| lia].
    split; [apply Z.div_pos; nia |].
    apply Z.div_le_upper_bound; nia.
Qed.

(** The estimated rate after the frequency guard, for a sample rate whose
    products with 10^6 fit the unsigned type. *)
Lemma frequency_guard_range (s : input_state) :
  1 <= freq (hw s) <= 4294 ->
  realfreq_in_range (if frequency_guard s then reset_frequency s else s).
Proof.
  intros Hf. unfold realfreq_in_range.
  assert (W5 : wrap32 (freq (hw s) * 500000) = freq (hw s) * 500000)
    by (apply wrap32_small; lia).
  assert (W1 : wrap32 (freq (hw s) * 1000000) = freq (hw s) * 1000000)
    by (apply wrap32_small; lia).
  destruct (frequency_guard s) eqn:Eg.
  - assert (E : bit (reset_frequency s) =
                set_freq_reset
                  (set_realfreq (bit s) (wrap32 (freq (hw s) * 1000000)))
                  true /\ hw (reset_frequency s) = hw s)
      by (unfold reset_frequency; destruct (logfile s); auto).
    destruct E as [-> ->]. cbn. rewrite W1. lia.
  - unfold frequency_guard in Eg. apply orb_false_iff in Eg.
    destruct Eg as [E1 E2]. apply Z.leb_gt in E1.
    rewrite Z.gtb_ltb in E2. apply Z.ltb_ge in E2. rewrite W5 in E1.
    rewrite W1 in E2. lia.
Qed.

(** One iteration of the sampling loop, for a valid sample rate. *)
Lemma collect_body_cases (a start : Z) (r : pulse_run) :
  0 <= a <= 1000000000 ->
  10 <= freq (hw (pr_state r)) <= 120000 ->
  t (bit (pr_state r)) < freq (hw (pr_state r)) ->
  start <= t (bit (pr_state r)) ->
  filter_in_range r ->
  falling_edge_seen start r ->
  let brk := fst (collect_body a r) in
  let r' := snd (collect_body a r) in
  hw (pr_state r') = hw (pr_state r) /\
  t (bit (pr_state r')) = t (bit (pr_state r)) /\
  filter_in_range r' /\
  falling_edge_seen start r' /\
  (bad_io (gb_res (pr_state r')) = true /\ brk = true /\
   bit (pr_state r') = bit (pr_state r) \/
   bad_io (gb_res (pr_state r')) = bad_io (gb_res (pr_state r)) /\
   (freq (hw (pr_state r)) <= 4294 -> realfreq_in_range (pr_state r')) /\
   (brk = true ->
    pr_stv r' = 0 /\ 500000000 < pr_y r' /\
    pr_init_bit r' = (if pr_init_bit r =? 2 then 1 else pr_init_bit r)) /\
   (brk = false -> pr_init_bit r' = pr_init_bit r)).
Proof.
  intros Ha Hf Ht Hst (Hy & Hstv & Hg) Hfe. cbv zeta.
  unfold collect_body, filter_in_range, falling_edge_seen in *.
  set (s := pr_state r) in *.
  assert (Hgp : exists p s1,
             get_pulse s = (p, s1) /\ pulse_value p /\
             hw s1 = hw s /\ gb_res s1 = gb_res s /\ bit s1 = bit s /\
             Forall pulse_value (gpio s1)).
  { unfold get_pulse. destruct (gpio s) as [| p rest] eqn:Eg.
    - exists 2, s. repeat split; auto;
        [right; right; reflexivity | rewrite Eg; constructor].
    - inversion Hg; subst. exists p, (set_gpio s rest). repeat split; auto. }
  destruct Hgp as (p & s1 & Eg & Hp & Hh & Hgb & Hb & Hg1). rewrite Eg.
  clear Eg.
  destruct (Z.eqb_spec p 2) as [-> | Hp2].
  { cbn. rewrite Hh, Hb. repeat split; auto; lia. }
  assert (Hp01 : p = 0 \/ p = 1) by (destruct Hp as [? | [? | ?]]; auto; lia).
  pose proof (filter_step_range a (pr_y r) p Ha Hy Hp01) as Hy'.
  set (y' := pr_y r + Z.quot (a * (p * 1000000000 - pr_y r)) 1000000000) in *.
  clearbody y'.
  set (s2 := match signal (bit s1) with
             | Some _ => _
             | None => s1
             end).
  assert (H2 : hw s2 = hw s /\ gb_res s2 = gb_res s /\
               t (bit s2) = t (bit s) /\ tlow (bit s2) = tlow (bit s) /\
               realfreq (bit s2) = realfreq (bit s) /\
               gpio s2 = gpio s1).
  { unfold s2. destruct (signal (bit s1)); cbn; rewrite ?Hh, ?Hgb, ?Hb;
      repeat split; auto. }
  clearbody s2.
  set (s3 := if (pr_y r >=? 0) && (pr_y r <? Z.quot a 2)
             then set_bit s2 (set_tlast0 (bit s2) (t (bit s2))) else s2).
  assert (H3 : hw s3 = hw s /\ gb_res s3 = gb_res s /\
               t (bit s3) = t (bit s) /\ tlow (bit s3) = tlow (bit s) /\
               gpio s3 = gpio s1).
  { unfold s3. destruct (_ && _); cbn; tauto. }
  clearbody s3. clear H2.
  destruct H3 as (H3h & H3g & H3t & H3l & H3p).
  pose proof (timeout_test_after_guard s3) as Hto.
  rewrite H3h, H3t in Hto. specialize (Hto Hf Ht).
  assert (Hrange : freq (hw s) <= 4294 ->
            realfreq_in_range
              (if frequency_guard s3 then reset_frequency s3 else s3))
    by (intros H; apply frequency_guard_range; rewrite H3h; lia).
  set (s4 := if frequency_guard s3 then reset_frequency s3 else s3) in *.
  assert (H4 : hw s4 = hw s /\ gb_res s4 = gb_res s /\
               t (bit s4) = t (bit s) /\ tlow (bit s4) = tlow (bit s) /\
               gpio s4 = gpio s1).
  { unfold s4. destruct (frequency_guard s3); [| tauto].
    unfold reset_frequency. destruct (logfile s3); cbn; tauto. }
  destruct H4 as (H4h & H4g & H4t & H4l & H4p).
  assert (E4 : (let '(s0, adj_freq) :=
                  if frequency_guard s3 then (reset_frequency s3, false)
                  else (s3, pr_adj_freq r) in
                (s0, adj_freq)) =
               (s4, if frequency_guard s3 then false else pr_adj_freq r))
    by (unfold s4; destruct (frequency_guard s3); reflexivity).
  match goal with
  | |- context [let '(s0, adj_freq) := ?X in @?body s0 adj_freq] =>
      replace (let '(s0, adj_freq) := X in body s0 adj_freq)
        with (body s4 (if frequency_guard s3 then false else pr_adj_freq r))
        by (unfold s4; destruct (frequency_guard s3); reflexivity)
  end.
  cbv beta. clear E4. clearbody s4. rewrite Hto.
  unfold realfreq_in_range in *. rewrite H4h in Hrange.
  assert (Hfe' : pr_stv r = 0 -> start <= tlow (bit s) <= t (bit s))
    by (intros E; destruct Hfe as [Hfe | Hfe]; [lia | exact Hfe]).
  destruct (Z.ltb_spec y' 500000000) as [Hlow | Hhigh];
    destruct Hstv as [Hs0 | Hs1]; rewrite ?Hs0, ?Hs1; cbn [Z.eqb andb];
    rewrite ?andb_false_r; cbv iota;
    try change (0 >? 500000000) with false;
    try destruct (Z.gtb_spec y' 500000000); cbn [andb]; cbv iota;
    cbn; rewrite ?H4h, ?H4g, ?H4t, ?H4l, ?H4p, ?Hs0, ?Hs1.
  all: split; [reflexivity |]; split; [reflexivity |].
  all: split; [repeat split; auto; lia |].
  all: split; [first [left; reflexivity | right; auto; lia] |].
  all: right; split; [reflexivity |]; split; [exact Hrange |].
  all: split; intros Hb'; try discriminate; repeat split; auto; lia.
Qed.

(** The sampling loop, for a valid sample rate. *)
Lemma collect_loop_cases (a start : Z) (n : nat) :
  forall r,
    0 <= a <= 1000000000 ->
    10 <= freq (hw (pr_state r)) <= 120000 ->
    start <= t (bit (pr_state r)) ->
    filter_in_range r ->
    falling_edge_seen start r ->
    let r' := collect_loop a n r in
    hw (pr_state r') = hw (pr_state r) /\
    filter_in_range r' /\
    falling_edge_seen start r' /\
    t (bit (pr_state r)) <= t (bit (pr_state r'))
      <= Z.max (t (bit (pr_state r))) (freq (hw (pr_state r))) /\
    (bad_io (gb_res (pr_state r')) = true \/
     (freq (hw (pr_state r)) <= 4294 -> realfreq_in_range (pr_state r')) \/
     r' = r) /\
    loop_ended n r r'.
Proof.
  induction n as [| n IH]; intros r Ha Hf Hst Hfr Hfe; cbv zeta.
  { cbn [collect_loop]. unfold loop_ended.
    split; [reflexivity |]. split; [exact Hfr |]. split; [exact Hfe |].
    split; [lia |]. split; [right; right; reflexivity |].
    right; right; right. cbn. lia. }
  cbn [collect_loop].
  destruct (Z.ltb_spec (t (bit (pr_state r))) (freq (hw (pr_state r))))
    as [Ht | Ht].
  2: { unfold loop_ended.
       split; [reflexivity |]. split; [exact Hfr |]. split; [exact Hfe |].
       split; [lia |]. split; [right; right; reflexivity |].
       left. exact Ht. }
  pose proof (collect_body_cases a start r Ha Hf Ht Hst Hfr Hfe) as Hb.
  cbv zeta in Hb. destruct (collect_body a r) as [brk r1].
  cbn [fst snd] in Hb. destruct Hb as (Hh & Htt & Hfr1 & Hfe1 & Hc).
  destruct brk.
  - unfold loop_ended. rewrite Hh, Htt.
    split; [reflexivity |]. split; [exact Hfr1 |]. split; [exact Hfe1 |].
    split; [lia |].
    destruct Hc as [(Hbad & _) | (_ & Hr & Hrise & _)].
    + split; [left; exact Hbad | right; left; exact Hbad].
    + split; [right; left; exact Hr |].
      right; right; left. exact (Hrise eq_refl).
  - assert (Hnb : bad_io (gb_res (pr_state r1)) = bad_io (gb_res (pr_state r))
                  /\ (freq (hw (pr_state r)) <= 4294 ->
                      realfreq_in_range (pr_state r1)) /\
                  pr_init_bit r1 = pr_init_bit r).
    { destruct Hc as [(_ & Hbrk & _) | (Hbad & Hr & _ & Hi)];
        [discriminate |].
      split; [exact Hbad |]. split; [exact Hr | exact (Hi eq_refl)]. }
    destruct Hnb as (Hbad & Hr & Hi).
    set (r2 := mk_pulse_run
                 (set_bit (pr_state r1)
                    (set_t (bit (pr_state r1)) (t (bit (pr_state r1)) + 1)))
                 (pr_y r1) (pr_stv r1) (pr_init_bit r1) (pr_adj_freq r1)).
    assert (H2 : hw (pr_state r2) = hw (pr_state r) /\
                 t (bit (pr_state r2)) = t (bit (pr_state r)) + 1 /\
                 filter_in_range r2 /\ falling_edge_seen start r2 /\
                 pr_init_bit r2 = pr_init_bit r /\
                 (freq (hw (pr_state r)) <= 4294 ->
                  realfreq_in_range (pr_state r2))).
    { unfold filter_in_range, falling_edge_seen, realfreq_in_range in *.
      cbn. rewrite Hh in *. rewrite Htt.
      split; [reflexivity |]. split; [reflexivity |]. split; [tauto |].
      split; [destruct Hfe1 as [? | ?]; [left; assumption | right; lia] |].
      split; [exact Hi | exact Hr]. }
    destruct H2 as (H2h & H2t & H2f & H2e & H2i & H2r).
    specialize (IH r2 Ha). rewrite H2h, H2t in IH.
    specialize (IH Hf ltac:(lia) H2f H2e). cbv zeta in IH.
    destruct IH as (Ih & If & Ie & It & Ib & Iend).
    split; [exact Ih |]. split; [exact If |]. split; [exact Ie |].
    split; [lia |]. split.
    + destruct Ib as [Ib | [Ib | Ib]]; [left; exact Ib | right; left; exact Ib |].
      right; left. rewrite Ib. exact H2r.
    + unfold loop_ended in *. rewrite H2h, H2t, H2i in Iend.
      destruct Iend as [E | [E | [E | E]]]; auto.
      right; right; right. lia.
Qed.

(** The run that [collect_pulses] starts its loop with. *)
Lemma collect_start_in_range (start init_bit : Z) (adj_freq : bool)
    (s : input_state) :
  Forall pulse_value (gpio s) ->
  let r0 :=
    mk_pulse_run (set_bit s (set_t (bit s) start)) 1000000000 1 init_bit
                 adj_freq in
  filter_in_range r0 /\ falling_edge_seen start r0 /\
  start <= t (bit (pr_state r0)).
Proof.
  intros Hg. unfold filter_in_range, falling_edge_seen. cbn.
  repeat split; auto; lia.
Qed.

(** X22: the exponential filter of [collect_pulses] stays in range.  For
    a filter constant between 0 and 10^9 and a line that delivers 0, 1 or
    a failed read, the filter value [y] is between 0 and 10^9 when
    [collect_pulses] returns (its products stay below 10^18, inside the
    64-bit type), and the Schmitt trigger is 0 or 1. *)
Theorem filter_value_in_range (a start init_bit : Z) (adj_freq : bool)
    (s : input_state) :
  0 <= a <= 1000000000 ->
  10 <= freq (hw s) <= 120000 ->
  Forall pulse_value (gpio s) ->
  let r := collect_pulses a start init_bit adj_freq s in
  0 <= pr_y r <= 1000000000 /\ (pr_stv r = 0 \/ pr_stv r = 1).
Proof.
  intros Ha Hf Hg. cbv zeta. unfold collect_pulses.
  pose proof (collect_start_in_range start init_bit adj_freq s Hg)
    as (H0 & H1 & H2).
  match goal with
  | |- context [collect_loop a ?n ?x] =>
      pose proof (collect_loop_cases a start n x Ha Hf H2 H0 H1)
        as (_ & (Hy & Hs & _) & _);
      destruct (collect_loop a n x) as [s1 y stv ib adj]
  end.
  cbn [pr_state pr_y pr_stv] in *.
  destruct (t (bit s1) >=? freq (hw s1)); cbn; auto.
Qed.

(** X23: how [collect_pulses] returns, for a valid sample rate and a
    start inside the second.  The sample count is between [start] and
    [hw.freq].  When it is [hw.freq], the second was read to its end: the
    hardware status is not [ehw_ok], the estimated rate is reset and
    [*adj_freq] is false.  When it is less and no read failed, the second
    ended at a rising edge: the trigger is low, the filter value above
    5 * 10^8, the falling edge [bit.tlow] is a sample of this call, and
    [*init_bit] has gone from 2 to 1. *)
Theorem collect_pulses_returns (a start init_bit : Z) (adj_freq : bool)
    (s : input_state) :
  0 <= a <= 1000000000 ->
  10 <= freq (hw s) <= 120000 ->
  0 <= start <= freq (hw s) ->
  Forall pulse_value (gpio s) ->
  let r := collect_pulses a start init_bit adj_freq s in
  let s' := pr_state r in
  start <= t (bit s') <= freq (hw s) /\
  (t (bit s') = freq (hw s) ->
   hwstat (gb_res s') <> ehw_ok /\
   realfreq (bit s') = wrap32 (freq (hw s) * 1000000) /\
   freq_reset (bit s') = true /\ pr_adj_freq r = false) /\
  (t (bit s') < freq (hw s) -> bad_io (gb_res s') = false ->
   pr_stv r = 0 /\ 500000000 < pr_y r /\
   start <= tlow (bit s') <= t (bit s') /\
   pr_init_bit r = (if init_bit =? 2 then 1 else init_bit)).
Proof.
  intros Ha Hf Hst Hg. cbv zeta. unfold collect_pulses.
  pose proof (collect_start_in_range start init_bit adj_freq s Hg)
    as (H0 & H1 & H2).
  match goal with
  | |- context [collect_loop a ?n ?x] =>
      pose proof (collect_loop_cases a start n x Ha Hf H2 H0 H1)
        as (Hh & _ & Hfe & Ht & _ & Hend);
      destruct (collect_loop a n x) as [s1 y stv ib adj]
  end.
  unfold falling_edge_seen, loop_ended in *.
  cbn [pr_state pr_y pr_stv pr_init_bit pr_adj_freq hw bit set_bit t
       set_t] in *.
  rewrite Hh.
  destruct (Z.geb_spec (t (bit s1)) (freq (hw s))) as [Hge | Hlt];
    cbn [pr_state pr_y pr_stv pr_init_bit pr_adj_freq].
  - pose proof (reset_frequency_frame
                  (if hwstat_eqb (hwstat (gb_res s1)) ehw_ok
                   then set_gb_res s1 (set_hwstat (gb_res s1) ehw_random)
                   else s1)) as (Rh & Rg & Rt).
    assert (Rb : forall s0,
              realfreq (bit (reset_frequency s0)) =
                wrap32 (freq (hw s0) * 1000000) /\
              freq_reset (bit (reset_frequency s0)) = true)
      by (intros s0; unfold reset_frequency; destruct (logfile s0); auto).
    rewrite Rg, Rt.
    match goal with
    | |- context [reset_frequency ?x] =>
        destruct (Rb x) as (-> & ->);
        assert (Ex : t (bit x) = t (bit s1) /\ hw x = hw s1)
          by (destruct (hwstat_eqb _ _); auto)
    end.
    destruct Ex as (-> & ->). rewrite Hh.
    split; [lia |]. split.
    + intros _. repeat split; auto.
      destruct (hwstat (gb_res s1)) eqn:E; cbn; rewrite ?E; discriminate.
    + intros Hlt. lia.
  - split; [lia |]. split; [intros E; lia |].
    intros _ Hbad.
    destruct Hend as [E | [E | [(E1 & E2 & E3) | E]]];
      [lia | congruence | | lia].
    destruct Hfe as [Hfe | Hfe]; [lia |]. repeat split; auto; lia.
Qed.

(** X24: the estimated sample rate stays inside its guard.  For a sample
    rate up to 4294 per second (so that its products with 10^6 fit the
    unsigned type), whenever [collect_pulses] returns without a failed
    read, [bit.realfreq] is above [hw.freq] * 5 * 10^5 and at most
    [hw.freq] * 10^6. *)
Theorem realfreq_stays_in_range (a start init_bit : Z) (adj_freq : bool)
    (s : input_state) :
  0 <= a <= 1000000000 ->
  10 <= freq (hw s) <= 4294 ->
  Forall pulse_value (gpio s) ->
  let s' := pr_state (collect_pulses a start init_bit adj_freq s) in
  bad_io (gb_res s') = false ->
  realfreq_in_range s'.
Proof.
  intros Ha Hf Hg. cbv zeta. unfold collect_pulses.
  pose proof (collect_start_in_range start init_bit adj_freq s Hg)
    as (H0 & H1 & H2).
  match goal with
  | |- context [collect_loop a ?n ?x] =>
      pose proof (collect_loop_cases a start n x Ha ltac:(cbn; lia) H2 H0 H1)
        as (Hh & _ & _ & Ht & Hb & Hend);
      destruct (collect_loop a n x) as [s1 y stv ib adj] eqn:El
  end.
  unfold loop_ended in *.
  cbn [pr_state pr_y pr_stv pr_init_bit pr_adj_freq hw bit set_bit t
       set_t] in *.
  destruct (Z.geb_spec (t (bit s1)) (freq (hw s1))) as [Hge | Hlt];
    cbn [pr_state].
  - intros _.
    match goal with
    | |- realfreq_in_range (reset_frequency ?x) =>
        assert (Ex : hw x = hw s /\ frequency_guard x = frequency_guard x)
          by (destruct (hwstat_eqb _ _); cbn; auto);
        destruct Ex as (Ex & _);
        assert (Er : realfreq (bit (reset_frequency x)) =
                       wrap32 (freq (hw x) * 1000000) /\
                     hw (reset_frequency x) = hw x)
          by (unfold reset_frequency; destruct (logfile x); auto);
        destruct Er as (Er1 & Er2);
        unfold realfreq_in_range; rewrite Er1, Er2, Ex
    end.
    rewrite wrap32_small by lia. lia.
  - intros Hbad.
    destruct Hb as [Hb | [Hb | Hb]]; [congruence | apply Hb; lia |].
    exfalso. inversion Hb; subst. cbn in Hlt, Hend, Hbad.
    destruct Hend as [E | [E | [(E & _) | E]]];
      [lia | congruence | discriminate E | lia].
Qed.

End SamplerProofs.

Section InputExamples.

Import Input Mainloop.

(** The state after [get_bit_file] has read the marker of the log
    ["4a60000\n01"]: [next_bit] then sets the bit position to 1. *)
Lemma next_bit_bitpos_range_witness :
  let s := get_bit_file (file_mode_start log_marker) in
  file_reachable s /\
  0 <= Input.bitpos (next_bit s) <= 60 /\
  Input.bitpos (next_bit s) = 1.
Proof.
  cbv zeta.
  assert (Hr : file_reachable (get_bit_file (file_mode_start log_marker)))
    by (apply reach_get_bit_file, reach_start).
  destruct (next_bit_bitpos_range _ Hr) as (H1 & H2 & _).
  split; [exact Hr |]. split; [exact H1 |].
  apply H2. vm_compute. reflexivity.
Defined.

(** Reading the marker ['4'] of that log stores 4 at the bit position. *)
Lemma get_bit_file_buffer_witness :
  let s := file_mode_start log_marker in
  file_reachable s /\
  rd (buffer (get_bit_file s)) (Input.bitpos s) = next_char s - 48.
Proof.
  cbv zeta.
  assert (Hr : file_reachable (file_mode_start log_marker))
    by apply reach_start.
  destruct (get_bit_file_buffer _ Hr) as (H1 & _).
  split; [exact Hr |].
  apply H1. vm_compute. split; discriminate.
Defined.



End InputExamples.

(** * Error detection by the parity bits *)

Section ErrorDetection.

Import DecodeTime.

Lemma getpar_loop_add (buffer : list Z) (n : nat) (i par d : Z) :
  getpar_loop buffer n i (par + d) = getpar_loop buffer n i par + d.
Proof. rewrite !getpar_loop_count. lia. Qed.

(** Writing one entry of the buffer changes the sum of [getpar] by the
    difference of the A bits when the entry is among the data bits, and
    not at all otherwise. *)
Lemma getpar_loop_wr (buffer : list Z) (j v : Z) (n : nat) :
  0 <= j < Z.of_nat (length buffer) ->
  forall i par,
    getpar_loop (wr buffer j v) n i par =
    getpar_loop buffer n i par +
    (if (i <=? j) && (j <? i + Z.of_nat n)
     then Z.land v 1 - Z.land (rd buffer j) 1 else 0).
Proof.
  intros Hj. induction n as [| n IH]; intros i par.
  - cbn [getpar_loop].
    destruct (Z.leb_spec i j); destruct (Z.ltb_spec j (i + Z.of_nat 0));
      cbn; lia.
  - cbn [getpar_loop]. rewrite IH.
    destruct (Z.eq_dec i j) as [-> | Hne].
    + rewrite rd_wr_same by exact Hj.
      rewrite (getpar_loop_add buffer n (j + 1) par (Z.land v 1)).
      rewrite (getpar_loop_add buffer n (j + 1) par (Z.land (rd buffer j) 1)).
      destruct (Z.leb_spec (j + 1) j); [lia |].
      destruct (Z.leb_spec j j); [| lia].
      destruct (Z.ltb_spec j (j + Z.of_nat (S n))); [| lia].
      cbn. lia.
    + rewrite rd_wr_other by congruence.
      destruct (Z.leb_spec (i + 1) j); destruct (Z.leb_spec i j);
        destruct (Z.ltb_spec j (i + 1 + Z.of_nat n));
        destruct (Z.ltb_spec j (i + Z.of_nat (S n)));
        cbn; lia.
Qed.

Lemma A_bit_differs (v w : Z) :
  A_bit v <> A_bit w -> Z.odd (Z.land v 1 - Z.land w 1) = true.
Proof.
  rewrite <- !A_bit_land. intros H.
  pose proof (A_bit_range v). pose proof (A_bit_range w).
  assert (A_bit v - A_bit w = 1 \/ A_bit v - A_bit w = -1) as [-> | ->]
    by lia; reflexivity.
Qed.

(** A changed A bit among the data bits turns the result of [getpar]
    over. *)
Lemma getpar_flip_data (buffer : list Z) (start stop parity i v : Z) :
  start <= i <= stop ->
  0 <= i < Z.of_nat (length buffer) ->
  i <> parity ->
  A_bit v <> A_bit (rd buffer i) ->
  getpar (wr buffer i v) start stop parity =
  negb (getpar buffer start stop parity).
Proof.
  intros Hi Hlen Hne Hv. unfold getpar.
  rewrite getpar_loop_wr by exact Hlen.
  rewrite rd_wr_other by exact Hne.
  destruct (Z.leb_spec start i); [| lia].
  destruct (Z.ltb_spec i (start + Z.of_nat (Z.to_nat (stop + 1 - start))));
    [| lia].
  cbn [andb]. rewrite !land_one_odd, !Z.odd_add.
  rewrite (A_bit_differs _ _ Hv).
  destruct (Z.odd (getpar_loop _ _ _ _)), (Z.odd (Z.shiftr _ _)); reflexivity.
Qed.

(** A changed B bit at the parity position turns the result of [getpar]
    over. *)
Lemma getpar_flip_parity (buffer : list Z) (start stop parity v : Z) :
  parity < start \/ stop < parity ->
  0 <= parity < Z.of_nat (length buffer) ->
  B_bit v <> B_bit (rd buffer parity) ->
  getpar (wr buffer parity v) start stop parity =
  negb (getpar buffer start stop parity).
Proof.
  intros Hout Hlen Hv. unfold getpar.
  rewrite getpar_loop_wr by exact Hlen.
  rewrite rd_wr_same by exact Hlen.
  replace ((start <=? parity) &&
           (parity <? start + Z.of_nat (Z.to_nat (stop + 1 - start))))
    with false.
  2: { destruct (Z.leb_spec start parity);
       destruct (Z.ltb_spec parity
                   (start + Z.of_nat (Z.to_nat (stop + 1 - start))));
       cbn; try reflexivity; lia. }
  rewrite Z.add_0_r, !land_one_odd, !Z.odd_add, <- !Z.testbit_odd.
  rewrite !B_bit_testbit in Hv.
  destruct (Z.testbit v 1), (Z.testbit (rd buffer parity) 1);
    cbn in Hv; try congruence;
    destruct (Z.odd (getpar_loop _ _ _ _)); reflexivity.
Qed.

(** X9: [getpar] detects every single error: when the A bit of one data
    bit changes, or the B bit of the parity position (outside the data
    bits), the result of [getpar] turns over. *)
Theorem getpar_detects_single_error (buffer : list Z)
    (start stop parity i v : Z) :
  parity < start \/ stop < parity ->
  0 <= i < Z.of_nat (length buffer) ->
  (start <= i <= stop /\ A_bit v <> A_bit (rd buffer i)) \/
  (i = parity /\ B_bit v <> B_bit (rd buffer i)) ->
  getpar (wr buffer i v) start stop parity =
  negb (getpar buffer start stop parity).
Proof.
  intros Hout Hlen [[Hi Hv] | [-> Hv]].
  - apply getpar_flip_data; try assumption. lia.
  - apply getpar_flip_parity; assumption.
Qed.

(** X10: a frame that is committed is not committed any more when one of
    its time and date bits (the A bits of seconds 17 to 51) or one of its
    four parity bits (the B bits of seconds 54 to 57) is changed. *)
Theorem single_bit_error_not_committed (cal : Calendar)
    (st : decoder_state) (init_min minlen acc_minlen : Z) (buffer : list Z)
    (time : tm) (i v : Z) :
  decode_commits cal st init_min minlen acc_minlen buffer time = true ->
  0 <= i < Z.of_nat (length buffer) ->
  (17 <= i <= 51 /\ A_bit v <> A_bit (rd buffer i)) \/
  (54 <= i <= 57 /\ B_bit v <> B_bit (rd buffer i)) ->
  decode_commits cal st init_min minlen acc_minlen (wr buffer i v) time
  = false.
Proof.
  intros Hc Hlen Hi.
  apply decode_commits_parity in Hc. destruct Hc as (H1 & H2 & H3 & H4).
  destruct (decode_commits cal st init_min minlen acc_minlen
              (wr buffer i v) time) eqn:Hc'; [| reflexivity].
  apply decode_commits_parity in Hc'. destruct Hc' as (K1 & K2 & K3 & K4).
  destruct Hi as [[Hi Hv] | [Hi Hv]].
  - assert (17 <= i <= 24 \/ 25 <= i <= 35 \/ 36 <= i <= 38 \/
            39 <= i <= 51) as [G | [G | [G | G]]] by lia.
    + rewrite getpar_flip_data in K1; try assumption; try lia.
      rewrite H1 in K1. discriminate.
    + rewrite getpar_flip_data in K2; try assumption; try lia.
      rewrite H2 in K2. discriminate.
    + rewrite getpar_flip_data in K3; try assumption; try lia.
      rewrite H3 in K3. discriminate.
    + rewrite getpar_flip_data in K4; try assumption; try lia.
      rewrite H4 in K4. discriminate.
  - assert (i = 54 \/ i = 55 \/ i = 56 \/ i = 57)
      as [-> | [-> | [-> | ->]]] by lia.
    + rewrite getpar_flip_parity in K1; try assumption; try lia.
      rewrite H1 in K1. discriminate.
    + rewrite getpar_flip_parity in K2; try assumption; try lia.
      rewrite H2 in K2. discriminate.
    + rewrite getpar_flip_parity in K3; try assumption; try lia.
      rewrite H3 in K3. discriminate.
    + rewrite getpar_flip_parity in K4; try assumption; try lia.
      rewrite H4 in K4. discriminate.
Qed.

End ErrorDetection.

(** * The further properties at sample inputs *)

Section FurtherExamples.

Import DecodeTime Input Mainloop.

(** A minute of 60 seconds advances 12:33 by one minute. *)
Lemma increase_old_time_invariant_witness :
  0 <= 60000 /\
  let '(partial', increase, time') :=
    increase_old_time SpecCalendar.calendar 0 false 0 59 60000
      (friday_noon 33) in
  0 <= partial' < 60000 /\
  0 <= increase /\
  time' =
    (if 0 <? 2
     then Nat.iter (Z.to_nat increase)
                   (fun t => add_minute SpecCalendar.calendar t false)
                   (friday_noon 33)
     else friday_noon 33) /\
  (59000 < 60000 <= 119000 -> increase = 1).
Proof.
  split; [lia |].
  exact (increase_old_time_invariant SpecCalendar.calendar 0 false 0 59
           60000 (friday_noon 33) ltac:(lia)).
Defined.

(** The first minute a fresh decoder sees. *)
Lemma decoder_statics_witness :
  0 <= minute_count decoder_init < 60 /\
  let run :=
    decode_time_run SpecCalendar.calendar decoder_init 0 59 60000
      frame_2019_03_15_12_34 (friday_noon 33) in
  minute_count (run_state run) =
    (if snd (check_time_sanity (dt_res decoder_init) 59
               frame_2019_03_15_12_34)
     then (minute_count decoder_init + 1) mod 60
     else minute_count decoder_init) /\
  0 <= minute_count (run_state run) < 60 /\
  olderr (run_state run) = negb (run_errflags run =? 0) /\
  dt_res (run_state run) = run_result run.
Proof.
  assert (H : 0 <= minute_count decoder_init < 60) by (cbn; lia).
  split; [exact H |].
  exact (decoder_statics SpecCalendar.calendar decoder_init 0 59 60000
           frame_2019_03_15_12_34 (friday_noon 33) H).
Defined.

(** The frame of 12:34 received at 12:33 is committed: it meets every
    condition. *)
Lemma commit_only_if_witness :
  decode_commits SpecCalendar.calendar decoder_init 0 59 60000
    frame_2019_03_15_12_34 (friday_noon 33) = true /\
  getpar frame_2019_03_15_12_34 39 51 57 = true /\
  getbcd frame_2019_03_15_12_34 45 51 <= 59.
Proof.
  assert (H : decode_commits SpecCalendar.calendar decoder_init 0 59 60000
                frame_2019_03_15_12_34 (friday_noon 33) = true)
    by (vm_compute; reflexivity).
  split; [exact H |].
  pose proof (commit_only_if SpecCalendar.calendar decoder_init 0 59 60000
                frame_2019_03_15_12_34 (friday_noon 33) H)
    as (_ & (_ & _ & _ & Hp) & _ & _ & _ & _ & _ & Hm).
  split; [exact Hp | exact Hm].
Defined.

(** With [init_min = 1] the frame of 12:34 received at 12:30 is taken
    without a jump. *)
Lemma no_jump_before_settled_witness :
  1 <> 0 /\
  minute_status
    (run_result
       (decode_time_run SpecCalendar.calendar decoder_init 1 59 60000
          frame_2019_03_15_12_34 (friday_noon 30))) <> eval_jump.
Proof.
  assert (H : 1 <> 0) by lia.
  split; [exact H |].
  exact (proj1 (no_jump_before_settled SpecCalendar.calendar decoder_init 1
                  59 60000 frame_2019_03_15_12_34 (friday_noon 30) H)).
Defined.

(** Half a minute after 12:33: [increase] is 0 and the minute 34 of the
    frame does not reach [newtime]. *)
Lemma unassigned_newtime_witness :
  let run :=
    decode_time_run SpecCalendar.calendar decoder_init 0 59 30000
      frame_2019_03_15_12_34 (friday_noon 33) in
  (0 <> 2 /\ run_increase run = 0) /\
  getbcd frame_2019_03_15_12_34 45 51 = 34 /\
  tm_min (run_newtime run) = 0.
Proof.
  cbv zeta.
  assert (H : 0 <> 2 /\
              run_increase
                (decode_time_run SpecCalendar.calendar decoder_init 0 59
                   30000 frame_2019_03_15_12_34 (friday_noon 33)) = 0)
    by (split; [lia | vm_compute; reflexivity]).
  split; [exact H |]. split; [vm_compute; reflexivity |].
  exact (proj1 (proj1 (unassigned_newtime SpecCalendar.calendar decoder_init
                         0 59 30000 frame_2019_03_15_12_34 (friday_noon 33)
                         (or_introl H)))).
Defined.

(** The all-zero buffer fails every parity check. *)
Lemma parity_error_status_witness :
  getpar frame_zero 39 51 57 = false /\
  decode_commits SpecCalendar.calendar decoder_init 0 59 60000 frame_zero
    (friday_noon 33) = false /\
  minute_status
    (run_result
       (decode_time_run SpecCalendar.calendar decoder_init 0 59 60000
          frame_zero (friday_noon 33))) = eval_parity.
Proof.
  assert (H : getpar frame_zero 39 51 57 = false) by (vm_compute; reflexivity).
  split; [exact H |].
  pose proof (parity_error_status SpecCalendar.calendar decoder_init 0 59
                60000 frame_zero (friday_noon 33)
                (or_intror (or_intror (or_intror H))))
    as (Hc & _ & _ & _ & Hm).
  split; [exact Hc | exact (proj2 (Hm H))].
Defined.

(** Clearing bit 20 of the frame of 12:34 (a set bit of the year) turns
    the year parity over. *)
Lemma getpar_detects_single_error_witness :
  (54 < 17 \/ 24 < 54) /\
  0 <= 20 < Z.of_nat (length frame_2019_03_15_12_34) /\
  (17 <= 20 <= 24 /\ A_bit 0 <> A_bit (rd frame_2019_03_15_12_34 20)) /\
  getpar (wr frame_2019_03_15_12_34 20 0) 17 24 54 =
  negb (getpar frame_2019_03_15_12_34 17 24 54).
Proof.
  assert (H1 : 54 < 17 \/ 24 < 54) by (right; lia).
  assert (H2 : 0 <= 20 < Z.of_nat (length frame_2019_03_15_12_34))
    by (cbn; lia).
  assert (H3 : 17 <= 20 <= 24 /\
               A_bit 0 <> A_bit (rd frame_2019_03_15_12_34 20))
    by (split; [lia | vm_compute; discriminate]).
  split; [exact H1 |]. split; [exact H2 |]. split; [exact H3 |].
  exact (getpar_detects_single_error frame_2019_03_15_12_34 17 24 54 20 0
           H1 H2 (or_introl H3)).
Defined.

(** Setting bit 45 of the frame of 12:34 (minute 74 in place of 34) keeps
    it from being committed. *)
Lemma single_bit_error_not_committed_witness :
  decode_commits SpecCalendar.calendar decoder_init 0 59 60000
    frame_2019_03_15_12_34 (friday_noon 33) = true /\
  0 <= 45 < Z.of_nat (length frame_2019_03_15_12_34) /\
  (17 <= 45 <= 51 /\ A_bit 1 <> A_bit (rd frame_2019_03_15_12_34 45)) /\
  decode_commits SpecCalendar.calendar decoder_init 0 59 60000
    (wr frame_2019_03_15_12_34 45 1) (friday_noon 33) = false.
Proof.
  assert (H1 : decode_commits SpecCalendar.calendar decoder_init 0 59 60000
                 frame_2019_03_15_12_34 (friday_noon 33) = true)
    by (vm_compute; reflexivity).
  assert (H2 : 0 <= 45 < Z.of_nat (length frame_2019_03_15_12_34))
    by (cbn; lia).
  assert (H3 : 17 <= 45 <= 51 /\
               A_bit 1 <> A_bit (rd frame_2019_03_15_12_34 45))
    by (split; [lia | vm_compute; discriminate]).
  split; [exact H1 |]. split; [exact H2 |]. split; [exact H3 |].
  exact (single_bit_error_not_committed SpecCalendar.calendar decoder_init 0
           59 60000 frame_2019_03_15_12_34 (friday_noon 33) 45 1 H1 H2
           (or_introl H3)).
Defined.

(** An ['A'] in front of a ['0'] is skipped. *)
Lemma skip_invalid_skips_witness :
  valid_char 65 = false /\ 65 <> 13 /\
  skip_invalid (mk_FILE [65; 48] false []) =
  skip_invalid (mk_FILE [48] false []).
Proof.
  assert (H1 : valid_char 65 = false) by (vm_compute; reflexivity).
  assert (H2 : 65 <> 13) by lia.
  split; [exact H1 |]. split; [exact H2 |].
  exact (skip_invalid_skips 65 [48] [] H1 H2).
Defined.

(** The log ["00\n0"] after its first bit: the second bit is followed by
    a line feed, and the reader requests the roll-back. *)
Lemma get_bit_file_look_ahead_witness :
  let s := next_bit (get_bit_file (file_mode_start [48; 48; 10; 48])) in
  is_Some (logfile s) /\
  dec_bp (get_bit_file s) = 1 /\ dec_bp s <> 1 /\
  (next_char (get_bit_file s) = 10 \/ next_char (get_bit_file s) = 97).
Proof.
  cbv zeta.
  set (s := next_bit (get_bit_file (file_mode_start [48; 48; 10; 48]))).
  assert (H1 : is_Some (logfile s)) by (eexists; vm_compute; reflexivity).
  assert (H2 : dec_bp (get_bit_file s) = 1) by (vm_compute; reflexivity).
  assert (H3 : dec_bp s <> 1) by (vm_compute; discriminate).
  split; [exact H1 |]. split; [exact H2 |]. split; [exact H3 |].
  exact (proj1 (get_bit_file_look_ahead s H1) H2 H3).
Defined.

(** A log of 61 bits without a marker, then a marker: [next_bit] reports
    the minute as too long at the 61st bit, and the marker that follows
    as a minute marker. *)
Lemma toolong_recovers_witness :
  let s :=
    Nat.iter 61 (fun s => next_bit (get_bit_file s))
      (file_mode_start (repeat 48 61 ++ [52; 48])) in
  is_Some (logfile s) /\
  marker (gb_res s) = emark_toolong /\
  Input.bitpos s = 0 /\ dec_bp s <> 1 /\
  next_char s = 52 /\
  marker (gb_res (next_bit (get_bit_file s))) = emark_minute.
Proof.
  cbv zeta.
  set (s := Nat.iter 61 (fun s => next_bit (get_bit_file s))
              (file_mode_start (repeat 48 61 ++ [52; 48]))).
  assert (H1 : is_Some (logfile s)) by (eexists; vm_compute; reflexivity).
  assert (H2 : marker (gb_res s) = emark_toolong)
    by (vm_compute; reflexivity).
  assert (H3 : Input.bitpos s = 0) by (vm_compute; reflexivity).
  assert (H4 : dec_bp s <> 1) by (vm_compute; discriminate).
  assert (H5 : next_char s = 52) by (vm_compute; reflexivity).
  split; [exact H1 |]. split; [exact H2 |]. split; [exact H3 |].
  split; [exact H4 |]. split; [exact H5 |].
  pose proof (toolong_recovers s H1 H2 H3 H4) as (_ & Hm & _).
  rewrite H5 in Hm. exact Hm.
Defined.

(** The roll-back on the log ["00\n0"].  After the first bit ([s0],
    position 1, [dec_bp] 0) the reader stores the second bit, sees the
    line feed ahead and takes [dec_bp] to 1 ([s1]); [next_bit] rolls the
    position back, advances it and takes [dec_bp] to 2 ([s2], position 1
    still); reading on from there, the line feed, [dec_bp] stays 2 and
    the position advances by one, with no second roll-back. *)
Lemma dec_bp_protocol_witness :
  let s0 := next_bit (get_bit_file (file_mode_start [48; 48; 10; 48])) in
  let s1 := get_bit_file s0 in
  let s2 := next_bit s1 in
  (file_reachable s0 /\ dec_bp s0 = 0 /\ dec_bp (get_bit_file s0) = 1) /\
  (file_reachable s1 /\ dec_bp s1 = 1 /\ dec_bp (next_bit s1) = 2) /\
  (file_reachable s2 /\ dec_bp s2 = 2 /\
   Mainloop.is_minute_or_late (gb_res (get_bit_file s2)) = false /\
   marker (gb_res (next_bit (get_bit_file s2))) <> emark_toolong /\
   dec_bp (get_bit_file s2) = 2 /\
   dec_bp (next_bit (get_bit_file s2)) = 2 /\
   Input.bitpos s2 <= Input.bitpos (next_bit (get_bit_file s2))
     <= Input.bitpos s2 + 1).
Proof.
  cbv zeta.
  set (s0 := next_bit (get_bit_file (file_mode_start [48; 48; 10; 48]))).
  set (s1 := get_bit_file s0).
  set (s2 := next_bit s1).
  assert (R0 : file_reachable s0)
    by (apply reach_next_bit, reach_get_bit_file, reach_start).
  assert (R1 : file_reachable s1) by (apply reach_get_bit_file; exact R0).
  assert (R2 : file_reachable s2) by (apply reach_next_bit; exact R1).
  assert (D0 : dec_bp s0 = 0) by (vm_compute; reflexivity).
  assert (D1 : dec_bp s1 = 1) by (vm_compute; reflexivity).
  assert (D2 : dec_bp s2 = 2) by (vm_compute; reflexivity).
  assert (M1 : Mainloop.is_minute_or_late (gb_res s1) = false)
    by (vm_compute; reflexivity).
  assert (M2 : Mainloop.is_minute_or_late (gb_res (get_bit_file s2)) = false)
    by (vm_compute; reflexivity).
  assert (T2 : marker (gb_res (next_bit (get_bit_file s2))) <> emark_toolong)
    by (vm_compute; discriminate).
  split; [| split].
  - destruct (dec_bp_protocol s0 R0) as (_ & [E | [_ E]] & _).
    + exfalso. fold s1 in E. rewrite D0, D1 in E. discriminate E.
    + split; [exact R0 |]. split; [exact D0 | exact E].
  - destruct (dec_bp_protocol s1 R1) as (_ & _ & E & _).
    rewrite M1, D1 in E. split; [exact R1 |]. split; [exact D1 | exact E].
  - destruct (dec_bp_protocol s2 R2) as (_ & _ & _ & H).
    destruct (H D2) as (E1 & H').
    destruct (H' M2) as (E2 & H'').
    split; [exact R2 |]. split; [exact D2 |]. split; [exact M2 |].
    split; [exact T2 |]. split; [exact E1 |]. split; [exact E2 |].
    exact (H'' T2).
Defined.

(** The marker that begins the log ["4a60000\n01"] is displayed as
    ['4']. *)
Lemma display_bit_echo_witness :
  file_reachable (file_mode_start log_marker) /\
  next_char (file_mode_start log_marker) = 52 /\
  Analyze.display_bit (get_bit_file (file_mode_start log_marker))
    (gb_res (get_bit_file (file_mode_start log_marker)))
    (get_bitpos (get_bit_file (file_mode_start log_marker))) = [52].
Proof.
  assert (H : file_reachable (file_mode_start log_marker))
    by apply reach_start.
  assert (Hc : next_char (file_mode_start log_marker) = 52)
    by (vm_compute; reflexivity).
  split; [exact H |]. split; [exact Hc |].
  pose proof (display_bit_echo (file_mode_start log_marker) H) as (He & _).
  cbv zeta in He. rewrite Hc in He.
  assert (Hx : 48 <= 52 <= 52 \/ 52 = 120 \/ 52 = 114 \/ 52 = 35 \/
               52 = 95) by (left; lia).
  exact (He Hx).
Defined.


(** [nplpi-analyze] on the log ["4a60000\n01"], ten bytes: the loop is
    left within eleven iterations, with the reader done. *)
Lemma mainloop_file_terminates_witness :
  let m :=
    mainloop_start None (file_mode_start log_marker) decoder_init in
  let loop :=
    mainloop_loop SpecCalendar.calendar (fun _ _ _ => false)
      (fun _ => esc_unsafe) get_bit_file false None None None in
  was_toolong m = false /\
  logfile (input m) = Some (open_file log_marker) /\
  (length (unread (open_file log_marker)) < 11)%nat /\
  done (gb_res (input (loop 11%nat m))) || quit (mlr (loop 11%nat m)) = true /\
  forall k, loop (11 + k)%nat m = loop 11%nat m.
Proof.
  cbv zeta.
  set (m := mainloop_start None (file_mode_start log_marker) decoder_init).
  assert (H1 : was_toolong m = false) by reflexivity.
  assert (H2 : logfile (input m) = Some (open_file log_marker))
    by reflexivity.
  assert (H3 : (length (unread (open_file log_marker)) < 11)%nat)
    by (cbn; lia).
  split; [exact H1 |]. split; [exact H2 |]. split; [exact H3 |].
  exact (mainloop_file_terminates SpecCalendar.calendar
           (fun _ _ _ => false) (fun _ => esc_unsafe) None false None None
           11 m (open_file log_marker) H1 H2 H3).
Defined.

Lemma pulse_value_repeat (n k : nat) :
  Forall pulse_value (repeat 0 n ++ repeat 1 k).
Proof.
  apply List.Forall_app. split; apply List.Forall_forall; intros x Hx;
    apply repeat_spec in Hx; subst; unfold pulse_value; auto.
Qed.

(** A second of 930 samples at 1000 samples per second. *)
Lemma filter_value_in_range_witness :
  0 <= filter_a_1000 <= 1000000000 /\
  10 <= freq (hw (live_state_600 long_second)) <= 120000 /\
  Forall pulse_value (gpio (live_state_600 long_second)) /\
  let r := collect_pulses filter_a_1000 0 0 true
             (live_state_600 long_second) in
  0 <= pr_y r <= 1000000000 /\ (pr_stv r = 0 \/ pr_stv r = 1).
Proof.
  assert (H1 : 0 <= filter_a_1000 <= 1000000000)
    by (unfold filter_a_1000; lia).
  assert (H2 : 10 <= freq (hw (live_state_600 long_second)) <= 120000)
    by (cbn; lia).
  assert (H3 : Forall pulse_value (gpio (live_state_600 long_second)))
    by apply pulse_value_repeat.
  split; [exact H1 |]. split; [exact H2 |]. split; [exact H3 |].
  exact (filter_value_in_range filter_a_1000 0 0 true
           (live_state_600 long_second) H1 H2 H3).
Defined.

(** The same second: [collect_pulses] returns at sample 930, before the
    1000th, at the rising edge that follows the falling edge it saw. *)
Lemma collect_pulses_returns_witness :
  let r := collect_pulses filter_a_1000 0 0 true
             (live_state_600 long_second) in
  0 <= filter_a_1000 <= 1000000000 /\
  10 <= freq (hw (live_state_600 long_second)) <= 120000 /\
  0 <= 0 <= freq (hw (live_state_600 long_second)) /\
  Forall pulse_value (gpio (live_state_600 long_second)) /\
  t (bit (pr_state r)) < freq (hw (live_state_600 long_second)) /\
  bad_io (gb_res (pr_state r)) = false /\
  0 <= tlow (bit (pr_state r)) <= t (bit (pr_state r)).
Proof.
  cbv zeta.
  assert (H1 : 0 <= filter_a_1000 <= 1000000000)
    by (unfold filter_a_1000; lia).
  assert (H2 : 10 <= freq (hw (live_state_600 long_second)) <= 120000)
    by (cbn; lia).
  assert (H3 : 0 <= 0 <= freq (hw (live_state_600 long_second)))
    by (cbn; lia).
  assert (H4 : Forall pulse_value (gpio (live_state_600 long_second)))
    by apply pulse_value_repeat.
  assert (H5 : t (bit (pr_state
                         (collect_pulses filter_a_1000 0 0 true
                            (live_state_600 long_second)))) <
               freq (hw (live_state_600 long_second)))
    by (vm_compute; reflexivity).
  assert (H6 : bad_io (gb_res (pr_state
                                 (collect_pulses filter_a_1000 0 0 true
                                    (live_state_600 long_second)))) = false)
    by (vm_compute; reflexivity).
  split; [exact H1 |]. split; [exact H2 |]. split; [exact H3 |].
  split; [exact H4 |]. split; [exact H5 |]. split; [exact H6 |].
  pose proof (collect_pulses_returns filter_a_1000 0 0 true
                (live_state_600 long_second) H1 H2 H3 H4) as (_ & _ & Hr).
  exact (proj1 (proj2 (proj2 (Hr H5 H6)))).
Defined.

(** The same second: the estimated rate, 600 samples per second, is still
    inside the guard for 1000 samples per second. *)
Lemma realfreq_stays_in_range_witness :
  let s' :=
    pr_state (collect_pulses filter_a_1000 0 0 true
                (live_state_600 long_second)) in
  0 <= filter_a_1000 <= 1000000000 /\
  10 <= freq (hw (live_state_600 long_second)) <= 4294 /\
  Forall pulse_value (gpio (live_state_600 long_second)) /\
  bad_io (gb_res s') = false /\
  realfreq_in_range s'.
Proof.
  cbv zeta.
  assert (H1 : 0 <= filter_a_1000 <= 1000000000)
    by (unfold filter_a_1000; lia).
  assert (H2 : 10 <= freq (hw (live_state_600 long_second)) <= 4294)
    by (cbn; lia).
  assert (H3 : Forall pulse_value (gpio (live_state_600 long_second)))
    by apply pulse_value_repeat.
  assert (H4 : bad_io (gb_res (pr_state
                                 (collect_pulses filter_a_1000 0 0 true
                                    (live_state_600 long_second)))) = false)
    by (vm_compute; reflexivity).
  split; [exact H1 |]. split; [exact H2 |]. split; [exact H3 |].
  split; [exact H4 |].
  exact (realfreq_stays_in_range filter_a_1000 0 0 true
           (live_state_600 long_second) H1 H2 H3 H4).
Defined.

(** A change of DST that was not announced, at 12:34 in winter time with
    bit 17 set: [handle_dst] marks a jump and sets flag 6. *)
Lemma handle_dst_flags_witness :
  dst_status dt_res_zero <> eDST_jump /\
  let '(dstcount', r', newtime', errflags') :=
    handle_dst 0 0 dt_res_zero 0 false frame_year_tens_15 (friday_noon 34)
      tm_zero in
  dst_status r' = eDST_jump /\ errflags' = 64.
Proof.
  assert (H : dst_status dt_res_zero <> eDST_jump) by discriminate.
  split; [exact H |].
  pose proof (handle_dst_flags 0 0 dt_res_zero 0 false frame_year_tens_15
                (friday_noon 34) tm_zero H) as Hd.
  destruct (handle_dst 0 0 dt_res_zero 0 false frame_year_tens_15
              (friday_noon 34) tm_zero) as [[[dc r'] nt'] ef'] eqn:E.
  assert (Hj : dst_status r' = eDST_jump)
    by (vm_compute in E; inversion E; reflexivity).
  destruct Hd as (_ & Hjump & _).
  split; [exact Hj |]. exact (proj1 (Hjump Hj)).
Defined.

End FurtherExamples.
